(** * Crawl-and-render pipeline of the idea-of-the-day archive scripts

    A shallow embedding of [screenshot-first-section-crawler.js] (the link
    extractor, the content renderer, the per-link crawl loop and the index
    text it accumulates), of the selector loop of
    [screenshot-practical-deep-dive.js] and of the top-level error handling
    of [screenshot-enhanced.js], followed by the properties of the
    specification that were checked against them.

    Conventions.
    - A JavaScript string is the list of its UTF-16 code units ([list N]).
    - The browser, the file system and the clock are collaborators: what
      they answer is given by an environment record, one field per awaited
      call of the script, each call either returning or throwing.  A call
      inside the [try] block of a loop may throw any value, since the
      [catch] block of the loop reads its [message]; a call of the top
      level throws an [Error].  Every awaited call is assumed to settle.
    - The DOM is a finite tree; [querySelector] and [querySelectorAll] walk
      it in document order (pre-order, depth first). *)

From Stdlib Require Import String Ascii.
From Stdlib Require Decimal DecimalFacts DecimalNat DecimalString.
From Stdlib Require Import List NArith Arith Lia Bool.
Import ListNotations.

Set Implicit Arguments.

(* ================================================================== *)
(** ** JavaScript strings *)
(* ================================================================== *)

Module Js.

Definition jsstring := list N.

(** A literal of the source, as code units (the literals used are ASCII,
    except where code units are written out). *)
Definition js (s : string) : jsstring :=
  map N_of_ascii (list_ascii_of_string s).

Fixpoint str_eqb (a b : jsstring) : bool :=
  match a, b with
  | [], [] => true
  | x :: a', y :: b' => N.eqb x y && str_eqb a' b'
  | _, _ => false
  end.

(** Truthiness of a string: the empty string is the only falsy one. *)
Definition truthy (s : jsstring) : bool :=
  match s with [] => false | _ :: _ => true end.

(** [a || b] on strings. *)
Definition or_else (a b : jsstring) : jsstring :=
  if truthy a then a else b.

(** WhiteSpace and LineTerminator code points of ECMAScript, the ones
    [String.prototype.trim] removes. *)
Definition isWhiteSpace (c : N) : bool :=
  existsb (N.eqb c)
    [9; 10; 11; 12; 13; 32; 160; 5760; 8232; 8233; 8239; 8287; 12288; 65279]%N
  || (N.leb 8192 c && N.leb c 8202).

Fixpoint trimStart (s : jsstring) : jsstring :=
  match s with
  | [] => []
  | c :: r => if isWhiteSpace c then trimStart r else s
  end.

Definition trimEnd (s : jsstring) : jsstring := rev (trimStart (rev s)).

Definition trim (s : jsstring) : jsstring := trimEnd (trimStart s).

(** [String(n)] for a non-negative integer: its decimal digits. *)
Definition String_of_nat (n : nat) : jsstring :=
  js (DecimalString.NilEmpty.string_of_uint (Nat.to_uint n)).

(** [s.padStart(n, '0')]. *)
Definition padStart0 (n : nat) (s : jsstring) : jsstring :=
  repeat 48%N (n - length s) ++ s.

(** [s.substring(0, n)]. *)
Definition substring0 (n : nat) (s : jsstring) : jsstring := firstn n s.

(** [c.repeat(n)] for a string [c]. *)
Fixpoint repeat_str (c : jsstring) (n : nat) : jsstring :=
  match n with
  | O => []
  | S k => c ++ repeat_str c k
  end.

Definition isDigit (c : N) : bool := N.leb 48 c && N.leb c 57.
Definition isUpper (c : N) : bool := N.leb 65 c && N.leb c 90.
Definition isLower (c : N) : bool := N.leb 97 c && N.leb c 122.

(** The class [[a-z0-9]] under the flag [i] (no [u] flag: the match is per
    code unit, and no code unit above 127 canonicalises to an ASCII
    letter). *)
Definition isAlnum (c : N) : bool := isDigit c || isUpper c || isLower c.

Definition dash : N := 45%N.

(** [s.replace(/[^a-z0-9]/gi, '-')]. *)
Definition replace_non_alnum (s : jsstring) : jsstring :=
  map (fun c => if isAlnum c then c else dash) s.

(** [s.replace(/-+/g, '-')]: a dash followed by a dash is dropped, so each
    maximal run keeps its last dash only. *)
Fixpoint collapse_dashes (s : jsstring) : jsstring :=
  match s with
  | [] => []
  | c :: r =>
      match r with
      | d :: _ =>
          if N.eqb c dash && N.eqb d dash then collapse_dashes r
          else c :: collapse_dashes r
      | [] => [c]
      end
  end.

(** [toLowerCase] and [toUpperCase] on the ASCII letters; the scripts apply
    them to sanitised names and to tag names only. *)
Definition toLowerCase (s : jsstring) : jsstring :=
  map (fun c => if isUpper c then (c + 32)%N else c) s.

Definition toUpperCase (s : jsstring) : jsstring :=
  map (fun c => if isLower c then (c - 32)%N else c) s.

(** [s.replace(/[:.]/g, '-')]. *)
Definition replace_colon_dot (s : jsstring) : jsstring :=
  map (fun c => if N.eqb c 58 || N.eqb c 46 then dash else c) s.

(** [s.split(sep)[0]] for a one-unit separator. *)
Fixpoint split_head (sep : N) (s : jsstring) : jsstring :=
  match s with
  | [] => []
  | c :: r => if N.eqb c sep then [] else c :: split_head sep r
  end.

(** [path.join(a, b)] for the segments the crawler joins (no [.], [..] or
    doubled separators occur in them). *)
Definition path_join (a b : jsstring) : jsstring := a ++ js "/" ++ b.

End Js.

(* ================================================================== *)
(** ** Outcomes of awaited calls *)
(* ================================================================== *)

Module Eff.
Import Js.

(** A thrown [Error]; only its [message] is read by the scripts. *)
Record JsError := mkError { message : jsstring }.

(** A thrown value or the reason of a rejection: JavaScript lets it be any
    value.  The scripts only ever read its [message] property: an [Error]
    (or any object whose [message] is a string) has one; [null] and
    [undefined] have no property to read; on any other value (a string, a
    number, an object without the property) the property reads
    [undefined]. *)
Inductive JsValue : Type :=
| ErrorObject (e : JsError)
| Null
| Undefined
| Other.

(** A call returns a value or throws one of [E]. *)
Inductive result (E A : Type) : Type :=
| Ok (a : A)
| Throw (e : E).

Arguments Ok {E A} a.
Arguments Throw {E A} e.

(** A call of the top level of a script: it returns or throws an
    [Error]. *)
Definition outcome : Type -> Type := result JsError.

(** A call inside the [try] block of a loop, whose [catch] block decides
    whether the loop goes on: it returns, or throws any value. *)
Definition settled : Type -> Type := result JsValue.

(** An [Error] thrown by the script's own code, as a thrown value. *)
Definition as_thrown {A} (o : outcome A) : settled A :=
  match o with
  | Ok a => Ok a
  | Throw e => Throw (ErrorObject e)
  end.

Definition is_ok {E A} (o : result E A) : bool :=
  match o with Ok _ => true | Throw _ => false end.

Definition cannot_read_message (what : string) : JsError :=
  mkError (js "Cannot read properties of " ++ js what
           ++ js " (reading 'message')").

(** [error.message]: the string of an [Error], [undefined] ([None]) on a
    value without the property, a [TypeError] on [null] and
    [undefined]. *)
Definition read_message (error : JsValue) : outcome (option jsstring) :=
  match error with
  | ErrorObject e => Ok (Some (message e))
  | Other => Ok None
  | Null => Throw (cannot_read_message "null")
  | Undefined => Throw (cannot_read_message "undefined")
  end.

(** [`${m}`] for what [error.message] read. *)
Definition interpolate (m : option jsstring) : jsstring :=
  match m with
  | Some s => s
  | None => js "undefined"
  end.

(** Computations of a script over its state [S]: they may throw a value of
    [E], and what they did to the state before throwing stays done. *)
Definition MX (E S A : Type) : Type := S -> result E A * S.

(** The computations that throw [Error]s only. *)
Definition M (S A : Type) : Type := MX JsError S A.

Definition ret {E S A} (a : A) : MX E S A := fun st => (Ok a, st).

Definition bind {E S A B} (m : MX E S A) (k : A -> MX E S B) : MX E S B :=
  fun st =>
    match m st with
    | (Ok a, st') => k a st'
    | (Throw e, st') => (Throw e, st')
    end.

Definition lift {E S A} (o : result E A) : MX E S A := fun st => (o, st).

Definition modify {E S} (f : S -> S) : MX E S unit :=
  fun st => (Ok tt, f st).

Definition get {E S} : MX E S S := fun st => (Ok st, st).

(** [throw e]. *)
Definition throw {E S A} (e : E) : MX E S A := fun st => (Throw e, st).

(** [try { m } catch (error) { h error }]: the handler receives whatever
    [m] threw, and may throw itself. *)
Definition try_catch {E E' S A} (m : MX E S A) (h : E -> MX E' S A)
  : MX E' S A :=
  fun st =>
    match m st with
    | (Ok a, st') => (Ok a, st')
    | (Throw e, st') => h e st'
    end.

(** [try { m } finally { f }]: [f] runs either way; if it throws, its error
    replaces the outcome of [m]. *)
Definition try_finally {E S A} (m : MX E S A) (f : MX E S unit)
  : MX E S A :=
  fun st =>
    let (r, st') := m st in
    match f st' with
    | (Ok _, st'') => (r, st'')
    | (Throw e, st'') => (Throw e, st'')
    end.

Module Notations.
Notation "x <- m ;; k" := (bind m (fun x => k))
  (at level 61, m at next level, right associativity).
Notation "m ;;; k" := (bind m (fun _ => k))
  (at level 61, right associativity).
End Notations.

End Eff.

(* ================================================================== *)
(** ** The DOM and the selector queries the scripts use *)
(* ================================================================== *)

Module Dom.
Import Js.

#[warnings="-register-all"]
Inductive node : Type :=
| Text (data : jsstring)
| Comment (data : jsstring)
| Elem (tag : jsstring) (attrs : list (jsstring * jsstring))
       (children : list node).

(** An HTML fragment ([innerHTML]), kept as the forest it serialises. *)
Definition html := list node.

(** The fragment serialises to a non-empty string unless it consists of
    empty text nodes only. *)
Definition html_truthy (h : html) : bool :=
  negb (forallb (fun n => match n with Text [] => true | _ => false end) h).

Definition innerHTML (n : node) : html :=
  match n with
  | Elem _ _ cs => cs
  | _ => []
  end.

Definition tag_of (n : node) : jsstring :=
  match n with
  | Elem t _ _ => t
  | _ => []
  end.

(** [el.tagName]: the upper-cased tag of an HTML element. *)
Definition tagName (n : node) : jsstring := toUpperCase (tag_of n).

Definition attrs_of (n : node) : list (jsstring * jsstring) :=
  match n with
  | Elem _ a _ => a
  | _ => []
  end.

Fixpoint getAttribute (name : jsstring) (a : list (jsstring * jsstring))
  : option jsstring :=
  match a with
  | [] => None
  | (k, v) :: r => if str_eqb k name then Some v else getAttribute name r
  end.

(** A reflected string attribute ([el.id], [a.title], [meta.content]): the
    attribute's value, or the empty string. *)
Definition reflected (name : jsstring) (n : node) : jsstring :=
  match getAttribute name (attrs_of n) with
  | Some v => v
  | None => []
  end.

Definition isAsciiSpace (c : N) : bool :=
  existsb (N.eqb c) [9; 10; 12; 13; 32]%N.

(** The tokens of a [class] attribute. *)
Fixpoint tokens_from (cur : jsstring) (s : jsstring) : list jsstring :=
  match s with
  | [] => if truthy cur then [rev cur] else []
  | c :: r =>
      if isAsciiSpace c
      then (if truthy cur then rev cur :: tokens_from [] r
            else tokens_from [] r)
      else tokens_from (c :: cur) r
  end.

Definition classList (n : node) : list jsstring :=
  tokens_from [] (reflected (js "class") n).

(** A compound selector without combinators: an optional tag, id, class and
    attribute test ([[name]] or [[name="value"]]).  All of the scripts'
    selectors have this shape. *)
Record selector := mkSel {
  sel_tag : option jsstring;
  sel_id : option jsstring;
  sel_class : option jsstring;
  sel_attr : option (jsstring * option jsstring)
}.

Definition byTag (t : string) : selector := mkSel (Some (js t)) None None None.
Definition byId (i : string) : selector := mkSel None (Some (js i)) None None.
Definition byClass (c : string) : selector :=
  mkSel None None (Some (js c)) None.
Definition byAttr (n v : string) : selector :=
  mkSel None None None (Some (js n, Some (js v))).
Definition hasAttr (n : string) : selector :=
  mkSel None None None (Some (js n, None)).
Definition tagHasAttr (t n : string) : selector :=
  mkSel (Some (js t)) None None (Some (js n, None)).
Definition tagAttr (t n v : string) : selector :=
  mkSel (Some (js t)) None None (Some (js n, Some (js v))).
Definition anyElement : selector := mkSel None None None None.

(** Whether an element matches a compound selector.  Ids and classes are
    compared unit for unit, as in a document in no-quirks mode (one with a
    doctype). *)
Definition matches (s : selector) (n : node) : bool :=
  match n with
  | Elem t a _ =>
      (match sel_tag s with Some x => str_eqb x t | None => true end)
      && (match sel_id s with
          | Some x => match getAttribute (js "id") a with
                      | Some v => str_eqb x v
                      | None => false
                      end
          | None => true
          end)
      && (match sel_class s with
          | Some x => existsb (str_eqb x) (classList n)
          | None => true
          end)
      && (match sel_attr s with
          | Some (k, want) =>
              match getAttribute k a, want with
              | Some v, Some w => str_eqb v w
              | Some _, None => true
              | None, _ => false
              end
          | None => true
          end)
  | _ => false
  end.

(** A selector list [s1, s2, ...]: an element matches if it matches one of
    them. *)
Definition matches_any (g : list selector) (n : node) : bool :=
  existsb (fun s => matches s n) g.

(** The elements of a subtree in document order, the root first. *)
Fixpoint subtree (n : node) : list node :=
  match n with
  | Elem _ _ cs => n :: flat_map subtree cs
  | _ => []
  end.

Definition descendants (n : node) : list node :=
  flat_map subtree (innerHTML n).

(** [el.querySelectorAll(g)]: the matching descendants, in document order. *)
Definition querySelectorAll (el : node) (g : list selector) : list node :=
  filter (matches_any g) (descendants el).

Fixpoint textContent (n : node) : jsstring :=
  match n with
  | Text d => d
  | Comment _ => []
  | Elem _ _ cs => flat_map textContent cs
  end.

(** [forEach(el => el.remove())] over [querySelectorAll(g)] of a subtree:
    every matching descendant goes, with all that is below it. *)
Fixpoint remove_matching (g : list selector) (n : node) : list node :=
  match n with
  | Elem t a cs =>
      if matches_any g n then []
      else [Elem t a (flat_map (remove_matching g) cs)]
  | _ => [n]
  end.

(** [forEach(el => el.removeAttribute('class'))] over all descendants. *)
Fixpoint remove_class (n : node) : node :=
  match n with
  | Elem t a cs =>
      Elem t (filter (fun kv => negb (str_eqb (fst kv) (js "class"))) a)
           (map remove_class cs)
  | _ => n
  end.

(** A loaded page: what [window.location.href] and [document.title] answer,
    the root element of the document, and the browser's resolution of an
    [href] attribute against the document's base URL ([a.href]). *)
Record Page := mkPage {
  location_href : jsstring;
  document_title : jsstring;
  documentElement : node;
  resolve_url : jsstring -> jsstring
}.

(** [document.querySelectorAll(g)]: every element of the document counts,
    the root included. *)
Definition document_querySelectorAll (p : Page) (g : list selector)
  : list node :=
  filter (matches_any g) (subtree (documentElement p)).

(** [document.querySelector(g)]: the first match in document order, or
    [null]. *)
Definition document_querySelector (p : Page) (g : list selector)
  : option node :=
  find (matches_any g) (subtree (documentElement p)).

(** [document.body]: the first [body] or [frameset] child of the root. *)
Definition document_body (p : Page) : option node :=
  find (fun n => str_eqb (tag_of n) (js "body")
                 || str_eqb (tag_of n) (js "frameset"))
       (innerHTML (documentElement p)).

End Dom.

(* ================================================================== *)
(** ** Link Extractor: the first [page.evaluate] of the crawler *)
(* ================================================================== *)

Module Extractor.
Import Js Dom.

(** [{ text, href, title }] of one anchor. *)
Record Link := mkLink {
  text : jsstring;
  href : jsstring;
  title : jsstring
}.

(** The object the evaluate returns: either [{ error }] or
    [{ links, mainWrapperHTML }]; a field the object does not have is
    [None] ([undefined] when read). *)
Record MainWrapperData := mkData {
  mw_error : option jsstring;
  mw_links : option (list Link);
  mw_mainWrapperHTML : option html
}.

(** The message of the error object. *)
Definition container_error : jsstring :=
  js "Could not find #main-wrapper element".

Definition link_of_anchor (p : Page) (a : node) : Link :=
  let t := trim (textContent a) in
  {| text := t;
     href := resolve_url p (reflected (js "href") a);
     title := or_else (reflected (js "title") a) t |}.

Definition keep_link (l : Link) : bool := truthy (href l) && truthy (text l).

Definition extract_links (p : Page) (mainWrapper : node) : list Link :=
  filter keep_link
    (map (link_of_anchor p)
       (querySelectorAll mainWrapper [tagHasAttr "a" "href"])).

Definition mainWrapperData (p : Page) : MainWrapperData :=
  match document_querySelector p [byId "main-wrapper"] with
  | None =>
      {| mw_error := Some container_error;
         mw_links := None;
         mw_mainWrapperHTML := None |}
  | Some mainWrapper =>
      {| mw_error := None;
         mw_links := Some (extract_links p mainWrapper);
         mw_mainWrapperHTML :=
           Some (map remove_class (innerHTML mainWrapper)) |}
  end.

(** The diagnosis the caller runs when the container is missing: the first
    twenty elements that have an id, as [{ id, tag }]. *)
Definition available_sections (p : Page) : list (jsstring * jsstring) :=
  firstn 20
    (map (fun el => (reflected (js "id") el, tagName el))
       (document_querySelectorAll p [hasAttr "id"])).

End Extractor.

(* ================================================================== *)
(** ** Content Renderer: the per-link [page.evaluate] and the document *)
(* ================================================================== *)

Module Renderer.
Import Js Eff Dom Extractor.

Record Heading := mkHeading {
  level : jsstring;
  heading_text : jsstring
}.

Record PageData := mkPageData {
  pd_title : jsstring;
  pd_url : jsstring;
  pd_h1 : jsstring;
  pd_metaDescription : jsstring;
  pd_bodyHTML : html;
  pd_mainContent : html;
  pd_headings : list Heading;
  pd_paragraphs : list jsstring
}.

(** ['script, style, nav, header, footer, .nav, .menu, .sidebar']. *)
Definition strip_selectors : list selector :=
  [byTag "script"; byTag "style"; byTag "nav"; byTag "header";
   byTag "footer"; byClass "nav"; byClass "menu"; byClass "sidebar"].

(** ['main, article, .content, .main, #content']. *)
Definition content_selectors : list selector :=
  [byTag "main"; byTag "article"; byClass "content"; byClass "main";
   byId "content"].

Definition heading_selectors : list selector :=
  [byTag "h1"; byTag "h2"; byTag "h3"; byTag "h4"; byTag "h5"; byTag "h6"].

(** [clone.innerHTML] after the removal pass over the cloned body. *)
Definition stripped_body (body : node) : html :=
  flat_map (remove_matching strip_selectors) (innerHTML body).

(** [document.querySelector('main, ...')?.innerHTML || clone.innerHTML]. *)
Definition mainContent (p : Page) (body : node) : html :=
  match document_querySelector p content_selectors with
  | Some el =>
      if html_truthy (innerHTML el) then innerHTML el else stripped_body body
  | None => stripped_body body
  end.

Definition null_body_error : JsError :=
  mkError (js "Cannot read properties of null (reading 'cloneNode')").

(** The function evaluated in the page.  It throws when the document has no
    body to clone. *)
Definition evaluate_pageData (p : Page) : outcome PageData :=
  match document_body p with
  | None => Throw null_body_error
  | Some body =>
      Ok {| pd_title := document_title p;
            pd_url := location_href p;
            pd_h1 :=
              match document_querySelector p [byTag "h1"] with
              | Some h => trim (textContent h)
              | None => []
              end;
            pd_metaDescription :=
              match document_querySelector p
                      [tagAttr "meta" "name" "description"] with
              | Some m => reflected (js "content") m
              | None => []
              end;
            pd_bodyHTML := stripped_body body;
            pd_mainContent := mainContent p body;
            pd_headings :=
              map (fun h => {| level := tagName h;
                               heading_text := trim (textContent h) |})
                  (document_querySelectorAll p heading_selectors);
            pd_paragraphs :=
              filter (fun t => 20 <? length t)
                (map (fun e => trim (textContent e))
                   (document_querySelectorAll p [byTag "p"])) |}
  end.

Definition nl : jsstring := [10%N].

(** [link.text.replace(/[^a-z0-9]/gi, '-').replace(/-+/g, '-')
      .toLowerCase().substring(0, 50)]. *)
Definition safeFilename (link_text : jsstring) : jsstring :=
  substring0 50 (toLowerCase (collapse_dashes (replace_non_alnum link_text))).

(** [`${String(linkNum).padStart(2, '0')}-${safeFilename}`]. *)
Definition numbered (linkNum : nat) (safe : jsstring) : jsstring :=
  padStart0 2 (String_of_nat linkNum) ++ js "-" ++ safe.

Definition screenshotFilename (linkNum : nat) (safe : jsstring) : jsstring :=
  numbered linkNum safe ++ js ".png".

Definition mdFilename (linkNum : nat) (safe : jsstring) : jsstring :=
  numbered linkNum safe ++ js ".md".

(** [parseInt(level.charAt(1)) - 1] for the tag names [H1] .. [H6] the
    heading query yields. *)
Definition heading_depth (level : jsstring) : nat :=
  match nth_error level 1 with
  | Some c => if isDigit c then N.to_nat (c - 48) - 1 else 0
  | None => 0
  end.

Definition outline_line (h : Heading) : jsstring :=
  repeat_str (js "  ") (heading_depth (level h))
  ++ js "- " ++ heading_text h ++ nl.

(** The content document written for one link. *)
Definition markdown_of (l : Link) (pd : PageData) (shot : jsstring)
  (contentMarkdown : jsstring) : jsstring :=
  js "# " ++ or_else (pd_title pd) (text l) ++ nl ++ nl
  ++ js "**URL:** " ++ pd_url pd ++ nl ++ nl
  ++ js "**Source Link:** " ++ text l ++ nl ++ nl
  ++ (if truthy (pd_metaDescription pd)
      then js "**Description:** " ++ pd_metaDescription pd ++ nl ++ nl
      else [])
  ++ js "---" ++ nl ++ nl
  ++ js "## Screenshot" ++ nl ++ nl
  ++ js "![" ++ text l ++ js "](images/" ++ shot ++ js ")" ++ nl ++ nl
  ++ js "---" ++ nl ++ nl
  ++ (if truthy (pd_h1 pd) then js "## " ++ pd_h1 pd ++ nl ++ nl else [])
  ++ js "## Content" ++ nl ++ nl
  ++ contentMarkdown
  ++ nl ++ nl ++ js "---" ++ nl ++ nl
  ++ (match pd_headings pd with
      | [] => []
      | hs => js "## Page Structure" ++ nl ++ nl
              ++ flat_map outline_line hs ++ nl
      end).

End Renderer.

(* ================================================================== *)
(** ** The crawler: state, per-link step, loop and top level *)
(* ================================================================== *)

Module Crawler.
Import Js Eff Eff.Notations Dom Extractor Renderer.

(** An entry of [results]; [filename] is set by the success branch only and
    [error] by the catch branch only. *)
Record CrawlResult := mkResult {
  success : bool;
  link : jsstring;
  url : jsstring;
  filename : option jsstring;
  error : option jsstring
}.

(** What a write puts on disk. *)
Inductive content : Type :=
| Png
| TextFile (s : jsstring)
| HtmlFile (h : html)
| JsonFile (rs : list CrawlResult).

(** The lines of the console that report a failure, the container
    diagnosis and the closing summary (progress lines are left out). *)
Inductive event : Type :=
| ContainerError (msg : jsstring)
| AvailableSections (ids : list (jsstring * jsstring))
| NoLinksFound
| LinkError (msg : jsstring)
| FatalError (msg : jsstring)
| Summary (total successful failed markdown_files screenshots : nat).

(** Everything the script mutates: its two accumulators, and the effects it
    has on its collaborators (files written, pages navigated to, console
    lines, whether the browser was launched and closed), each in order of
    occurrence. *)
Record State := mkState {
  indexMd : jsstring;
  results : list CrawlResult;
  files : list (jsstring * content);
  visited : list jsstring;
  console : list event;
  launched : bool;
  closed : bool
}.

Definition initial : State := mkState [] [] [] [] [] false false.

Definition append_index (s : jsstring) (st : State) : State :=
  mkState (indexMd st ++ s) (results st) (files st) (visited st)
          (console st) (launched st) (closed st).

Definition set_index (s : jsstring) (st : State) : State :=
  mkState s (results st) (files st) (visited st)
          (console st) (launched st) (closed st).

Definition set_results (rs : list CrawlResult) (st : State) : State :=
  mkState (indexMd st) rs (files st) (visited st)
          (console st) (launched st) (closed st).

Definition push_result (r : CrawlResult) (st : State) : State :=
  mkState (indexMd st) (results st ++ [r]) (files st) (visited st)
          (console st) (launched st) (closed st).

Definition add_file (path : jsstring) (c : content) (st : State) : State :=
  mkState (indexMd st) (results st) (files st ++ [(path, c)]) (visited st)
          (console st) (launched st) (closed st).

Definition add_visit (u : jsstring) (st : State) : State :=
  mkState (indexMd st) (results st) (files st) (visited st ++ [u])
          (console st) (launched st) (closed st).

Definition log (e : event) (st : State) : State :=
  mkState (indexMd st) (results st) (files st) (visited st)
          (console st ++ [e]) (launched st) (closed st).

Definition set_launched (st : State) : State :=
  mkState (indexMd st) (results st) (files st) (visited st)
          (console st) true (closed st).

Definition set_closed (st : State) : State :=
  mkState (indexMd st) (results st) (files st) (visited st)
          (console st) (launched st) true.

Definition M (A : Type) : Type := Eff.M State A.

(** [await page.goto(u, ...)]: the navigation is attempted, then settles. *)
Definition goto {E} (u : jsstring) (o : result E unit) : MX E State unit :=
  modify (add_visit u) ;;; lift o.

(** A call that writes [path] when it returns and nothing when it throws
    ([page.screenshot({ path })], [fs.writeFileSync(path, data)]). *)
Definition write {E} (path : jsstring) (c : content) (o : result E unit)
  : MX E State unit :=
  lift o ;;; modify (add_file path c).

(** What the collaborators answer during the visit of one link, one field
    per awaited or throwing call of the [try] block, in program order;
    what a call throws may be any value.  [v_evaluate] is the page the
    content function runs in, or the value with which the call was
    rejected from outside. *)
Record Visit := mkVisit {
  v_goto : settled unit;
  v_scroll : settled unit;
  v_screenshot : settled unit;
  v_evaluate : settled Page;
  v_writeFile : settled unit
}.

Definition index_entry_ok (linkNum : nat) (l : Link) (pd : PageData)
  (md shot : jsstring) : jsstring :=
  js "### " ++ String_of_nat linkNum ++ js ". [" ++ text l ++ js "]("
  ++ md ++ js ")" ++ nl ++ nl
  ++ js "- **URL:** " ++ pd_url pd ++ nl
  ++ js "- **Title:** " ++ pd_title pd ++ nl
  ++ (if truthy (pd_metaDescription pd)
      then js "- **Description:** " ++ pd_metaDescription pd ++ nl
      else [])
  ++ nl ++ js "![Preview](images/" ++ shot ++ js ")" ++ nl ++ nl
  ++ js "---" ++ nl ++ nl.

(** The warning sign and its variation selector, U+26A0 U+FE0F. *)
Definition warning_sign : jsstring := [9888%N; 65039%N].

(** The entry of a failed link; [msg] is what [error.message] read. *)
Definition index_entry_error (linkNum : nat) (l : Link)
  (msg : option jsstring) : jsstring :=
  js "### " ++ String_of_nat linkNum ++ js ". " ++ text l ++ js " "
  ++ warning_sign ++ js " ERROR" ++ nl ++ nl
  ++ js "- **URL:** " ++ href l ++ nl
  ++ js "- **Error:** " ++ interpolate msg ++ nl ++ nl
  ++ js "---" ++ nl ++ nl.

(** The [try] block of one iteration. *)
Definition try_link (turndown : html -> settled jsstring)
  (outputDir imagesDir : jsstring) (v : Visit) (l : Link) (linkNum : nat)
  (safe : jsstring) : MX JsValue State unit :=
  goto (href l) (v_goto v) ;;;
  lift (v_scroll v) ;;;
  let shot := screenshotFilename linkNum safe in
  let screenshotPath := path_join imagesDir shot in
  write screenshotPath Png (v_screenshot v) ;;;
  page <- lift (v_evaluate v) ;;
  pageData <- lift (as_thrown (evaluate_pageData page)) ;;
  contentMarkdown <- lift (turndown (pd_mainContent pageData)) ;;
  let md := mdFilename linkNum safe in
  let mdPath := path_join outputDir md in
  let markdown := markdown_of l pageData shot contentMarkdown in
  write mdPath (TextFile markdown) (v_writeFile v) ;;;
  modify (append_index (index_entry_ok linkNum l pageData md shot)) ;;;
  modify (push_result
            {| success := true; link := text l; url := pd_url pageData;
               filename := Some md; error := None |}).

(** The [catch] block of one iteration.  Its first statement reads
    [error.message], as the two after it do: when what was thrown is [null]
    or [undefined] the block throws a [TypeError] before it has logged or
    recorded anything, and that error leaves the loop.  The [error] field
    of the record is [None] when the property read [undefined]. *)
Definition catch_link (l : Link) (linkNum : nat) (error : JsValue)
  : M unit :=
  msg <- lift (read_message error) ;;
  modify (log (LinkError (interpolate msg))) ;;;
  modify (append_index (index_entry_error linkNum l msg)) ;;;
  modify (push_result
            {| success := false; link := text l; url := href l;
               filename := None; error := msg |}).

(** The body of the [for] loop at index [i]. *)
Definition iteration (turndown : html -> settled jsstring)
  (outputDir imagesDir : jsstring) (v : Visit) (l : Link) (i : nat)
  : M unit :=
  let linkNum := i + 1 in
  let safe := safeFilename (text l) in
  try_catch (try_link turndown outputDir imagesDir v l linkNum safe)
            (catch_link l linkNum).

(** [for (let i = 0; i < links.length; i++)], entered at index [i] with the
    links from [i] on still to do; [visit k] is what the collaborators
    answer during iteration [k]. *)
Fixpoint crawl_loop (turndown : html -> settled jsstring)
  (outputDir imagesDir : jsstring) (visit : nat -> Visit)
  (todo : list Link) (i : nat) : M unit :=
  match todo with
  | [] => ret tt
  | l :: rest =>
      iteration turndown outputDir imagesDir (visit i) l i ;;;
      crawl_loop turndown outputDir imagesDir visit rest (S i)
  end.

(** What the collaborators answer during one run, one field per awaited or
    throwing call outside the loop, in program order; the two clock
    readings are the ISO strings of the two [new Date()] calls, and
    [turndown] is the HTML-to-Markdown converter (it parses the fragment it
    is given, and may throw like any other call of the [try] block). *)
Record Env := mkEnv {
  turndown : html -> settled jsstring;
  e_launch : outcome unit;
  e_newPage : outcome unit;
  e_setUserAgent : outcome unit;
  e_setExtraHTTPHeaders : outcome unit;
  e_evaluateOnNewDocument : outcome unit;
  clock_dir : jsstring;
  e_mkdir : outcome unit;
  e_goto_home : outcome unit;
  e_evaluate_home : outcome Page;
  e_evaluate_sections : outcome unit;
  e_write_html : outcome unit;
  clock_index : jsstring;
  e_visit : nat -> Visit;
  e_write_index : outcome unit;
  e_write_results : outcome unit;
  e_close : outcome unit
}.

Definition homepage : jsstring := js "https://www.ideabrowser.com/".

(** [new Date().toISOString().replace(/[:.]/g, '-').split('T')[0]]. *)
Definition timestamp (env : Env) : jsstring :=
  split_head 84 (replace_colon_dot (clock_dir env)).

Definition outputDir (env : Env) : jsstring :=
  path_join (js "first-section-crawl") (timestamp env).

Definition imagesDir (env : Env) : jsstring :=
  path_join (outputDir env) (js "images").

(** The head of the index text (step 3). *)
Definition index_header (now : jsstring) (n : nat) : jsstring :=
  js "# Main Wrapper Links Crawl" ++ nl ++ nl
  ++ js "**Date:** " ++ now ++ nl ++ nl
  ++ js "**Source:** https://www.ideabrowser.com/" ++ nl ++ nl
  ++ js "**Total Links Found:** " ++ String_of_nat n ++ nl ++ nl
  ++ js "---" ++ nl ++ nl
  ++ js "## Links" ++ nl ++ nl.

Definition count_success (rs : list CrawlResult) : nat :=
  length (filter success rs).

Definition count_failed (rs : list CrawlResult) : nat :=
  length (filter (fun r => negb (success r)) rs).

(** Steps 3 to 5 and the summary, for a non-empty list of links. *)
Definition crawl (env : Env) (links : list Link) : M unit :=
  modify (set_index (index_header (clock_index env) (length links))) ;;;
  modify (set_results []) ;;;
  crawl_loop (turndown env) (outputDir env) (imagesDir env) (e_visit env)
             links 0 ;;;
  st <- get ;;
  write (path_join (outputDir env) (js "INDEX.md")) (TextFile (indexMd st))
        (e_write_index env) ;;;
  write (path_join (outputDir env) (js "results.json"))
        (JsonFile (results st)) (e_write_results env) ;;;
  modify (log (Summary (length links) (count_success (results st))
                       (count_failed (results st))
                       (count_success (results st))
                       (count_success (results st)))).

Definition undefined_length_error : JsError :=
  mkError (js "Cannot read properties of undefined (reading 'length')").

(** After the container check: save the container's HTML, list the links,
    and crawl them unless there is none. *)
Definition after_container_check (env : Env) (data : MainWrapperData)
  : M unit :=
  (match mw_mainWrapperHTML data with
   | Some h =>
       if html_truthy h
       then write (path_join (outputDir env) (js "main-wrapper.html"))
                  (HtmlFile h) (e_write_html env)
       else ret tt
   | None => ret tt
   end) ;;;
  match mw_links data with
  | None => throw undefined_length_error
  | Some links =>
      match links with
      | [] => modify (log NoLinksFound)
      | _ :: _ => crawl env links
      end
  end.

(** [if (mainWrapperData.error) { ...; return; }]: report the error, run
    the diagnosis and return from the function. *)
Definition report_missing_container (env : Env) (page : Page)
  (msg : jsstring) : M unit :=
  modify (log (ContainerError msg)) ;;;
  lift (e_evaluate_sections env) ;;;
  modify (log (AvailableSections (available_sections page))).

(** The statements that follow the extraction (end of step 2 onwards). *)
Definition after_extraction (env : Env) (page : Page)
  (data : MainWrapperData) : M unit :=
  match mw_error data with
  | Some msg =>
      if truthy msg then report_missing_container env page msg
      else after_container_check env data
  | None => after_container_check env data
  end.

(** The outer [try] block. *)
Definition try_main (env : Env) : M unit :=
  lift (e_launch env) ;;;
  modify set_launched ;;;
  lift (e_newPage env) ;;;
  lift (e_setUserAgent env) ;;;
  lift (e_setExtraHTTPHeaders env) ;;;
  lift (e_evaluateOnNewDocument env) ;;;
  lift (e_mkdir env) ;;;
  goto homepage (e_goto_home env) ;;;
  page <- lift (e_evaluate_home env) ;;
  after_extraction env page (mainWrapperData page).

(** The outer [catch] block. *)
Definition catch_main (e : JsError) : M unit :=
  modify (log (FatalError (message e))).

(** The [finally] block: [if (browser) await browser.close()]. *)
Definition finally_main (env : Env) : M unit :=
  st <- get ;;
  if launched st then lift (e_close env) ;;; modify set_closed else ret tt.

(** The async function the script runs. *)
Definition main (env : Env) : M unit :=
  try_finally (try_catch (try_main env) catch_main) (finally_main env).

Definition run (env : Env) : outcome unit * State := main env initial.

(** The script never calls [process.exit] and installs no rejection
    handler: the process ends with status 0 when the promise of [main] is
    fulfilled, and with status 1, the runtime's answer to an unhandled
    rejection, when it is rejected. *)
Definition exit_status (env : Env) : nat :=
  match fst (run env) with
  | Ok _ => 0
  | Throw _ => 1
  end.

End Crawler.

(* ================================================================== *)
(** ** The selector loop of [screenshot-practical-deep-dive.js] *)
(* ================================================================== *)

Module DeepDive.
Import Js Dom.

(** [mainSelectors]. *)
Definition mainSelectors : list selector :=
  [byClass "idea"; byClass "main-content"; byTag "main"; byTag "article";
   byAttr "role" "main"].

(** [for (const selector of mainSelectors) { const el =
    document.querySelector(selector); if (el) { ...; break; } }]: the
    selector that matched and the element found ([mainContent] is built
    from the two), or [null] when no selector matches anything. *)
Fixpoint first_selector_match (p : Page) (sels : list selector)
  : option (selector * node) :=
  match sels with
  | [] => None
  | s :: rest =>
      match document_querySelector p [s] with
      | Some el => Some (s, el)
      | None => first_selector_match p rest
      end
  end.

Definition structuredContent_mainContent (p : Page)
  : option (selector * node) :=
  first_selector_match p mainSelectors.

End DeepDive.

(* ================================================================== *)
(** ** The top level of [screenshot-enhanced.js] *)
(* ================================================================== *)

Module Enhanced.
Import Js Eff Eff.Notations.

Inductive event : Type :=
| NoStandardNavigation
| NoPopupsDetected
| ErrorOccurred (msg : jsstring)
| ScriptFailed (msg : jsstring).

Record State := mkState {
  files : list jsstring;
  console : list event;
  launched : bool;
  closed : bool;
  exit_called : option nat
}.

Definition initial : State := mkState [] [] false false None.

Definition add_file (path : jsstring) (st : State) : State :=
  mkState (files st ++ [path]) (console st) (launched st) (closed st)
          (exit_called st).

Definition log (e : event) (st : State) : State :=
  mkState (files st) (console st ++ [e]) (launched st) (closed st)
          (exit_called st).

Definition set_launched (st : State) : State :=
  mkState (files st) (console st) true (closed st) (exit_called st).

Definition set_closed (st : State) : State :=
  mkState (files st) (console st) (launched st) true (exit_called st).

Definition process_exit (code : nat) (st : State) : State :=
  mkState (files st) (console st) (launched st) (closed st) (Some code).

Definition M (A : Type) : Type := Eff.M State A.

Definition write (path : jsstring) (o : outcome unit) : M unit :=
  lift o ;;; modify (add_file path).

(** The calendar reading of [now] ([getFullYear], [getMonth], [getDate])
    and what each call of the script answers, in program order;
    [e_navLinks] and [e_modals] stand for the calls inside the two inner
    [try] blocks, whose errors are logged and dropped. *)
Record Env := mkEnv {
  year : nat;
  month : nat;
  day : nat;
  e_mkdir : outcome unit;
  e_launch : outcome unit;
  e_newPage : outcome unit;
  e_setViewport : outcome unit;
  e_goto : outcome unit;
  e_pageInfo : outcome unit;
  e_interactiveElements : outcome unit;
  e_navLinks : outcome unit;
  e_autoScroll : outcome unit;
  e_modals : outcome unit;
  e_mainContent : outcome unit;
  e_scrollTop : outcome unit;
  e_screenshot : outcome unit;
  e_screenshot_viewport : outcome unit;
  e_writeData : outcome unit;
  e_close : outcome unit
}.

Definition monthNames : list jsstring :=
  map js ["January"; "February"; "March"; "April"; "May"; "June"; "July";
          "August"; "September"; "October"; "November";
          "December"]%string.

Definition monthName (env : Env) : jsstring :=
  nth (month env) monthNames [].

Definition archiveDir (env : Env) : jsstring :=
  path_join (path_join (js "archives") (String_of_nat (year env)))
            (monthName env).

(** [filePath] without its [.png]. *)
Definition fileBase (env : Env) : jsstring :=
  path_join (archiveDir env)
    (String_of_nat (day env) ++ js " " ++ monthName env ++ js " "
     ++ String_of_nat (year env)).

Definition try_main (env : Env) : M unit :=
  lift (e_mkdir env) ;;;
  lift (e_launch env) ;;;
  modify set_launched ;;;
  lift (e_newPage env) ;;;
  lift (e_setViewport env) ;;;
  lift (e_goto env) ;;;
  lift (e_pageInfo env) ;;;
  lift (e_interactiveElements env) ;;;
  try_catch (lift (e_navLinks env))
            (fun _ => modify (log NoStandardNavigation)) ;;;
  lift (e_autoScroll env) ;;;
  try_catch (lift (e_modals env))
            (fun _ => modify (log NoPopupsDetected)) ;;;
  lift (e_mainContent env) ;;;
  lift (e_scrollTop env) ;;;
  write (fileBase env ++ js ".png") (e_screenshot env) ;;;
  write (fileBase env ++ js "-viewport.png") (e_screenshot_viewport env) ;;;
  write (fileBase env ++ js "-data.json") (e_writeData env).

(** [catch (error) { console.error(...); throw error; }]. *)
Definition catch_main (e : JsError) : M unit :=
  modify (log (ErrorOccurred (message e))) ;;; throw e.

Definition finally_main (env : Env) : M unit :=
  st <- get ;;
  if launched st then lift (e_close env) ;;; modify set_closed else ret tt.

Definition main (env : Env) : M unit :=
  try_finally (try_catch (try_main env) catch_main) (finally_main env).

(** [(async () => { ... })().catch(error => { console.error(...);
    process.exit(1); })]. *)
Definition script (env : Env) : M unit :=
  try_catch (main env)
            (fun e => modify (log (ScriptFailed (message e))) ;;;
                      modify (process_exit 1)).

Definition run (env : Env) : outcome unit * State := script env initial.

Definition exit_status (env : Env) : nat :=
  match exit_called (snd (run env)) with
  | Some code => code
  | None => 0
  end.

(** Every call outside the two inner [try] blocks returns. *)
Definition unguarded_ok (env : Env) : bool :=
  is_ok (e_mkdir env) && is_ok (e_launch env) && is_ok (e_newPage env)
  && is_ok (e_setViewport env) && is_ok (e_goto env)
  && is_ok (e_pageInfo env) && is_ok (e_interactiveElements env)
  && is_ok (e_autoScroll env) && is_ok (e_mainContent env)
  && is_ok (e_scrollTop env) && is_ok (e_screenshot env)
  && is_ok (e_screenshot_viewport env) && is_ok (e_writeData env)
  && is_ok (e_close env).

End Enhanced.

(* ================================================================== *)
(** ** Sample pages and environments *)
(* ================================================================== *)

Module Samples.
Import Js Eff Dom Extractor Renderer Crawler.
Local Open Scope string_scope.

Definition el (t : string) (attrs : list (string * string))
  (cs : list node) : node :=
  Elem (js t) (map (fun kv => (js (fst kv), js (snd kv))) attrs) cs.

Definition txt (s : string) : node := Text (js s).

Definition anchor (h t : string) : node := el "a" [("href", h)] [txt t].

Definition site (path : jsstring) : jsstring :=
  app (js "https://www.ideabrowser.com") path.

Definition page_of (u t : string) (body : list node) : Page :=
  {| location_href := js u;
     document_title := js t;
     documentElement :=
       el "html" [] [el "head" [] [el "title" [] [txt t]]; el "body" [] body];
     resolve_url := site |}.

(** A homepage whose container holds the three links of the scenario of the
    specification, [A -> /a], [B -> /b], [C -> /c]. *)
Definition home_three : Page :=
  page_of "https://www.ideabrowser.com/" "Home"
    [el "div" [("id", "main-wrapper"); ("class", "wrap")]
       [anchor "/a" " A "; el "p" [("class", "x")] [anchor "/b" "B"];
        anchor "/c" "C"]].

(** A container in which two anchors point at the same target, one anchor
    has blank text, and one element is an anchor without [href]. *)
Definition home_duplicate : Page :=
  page_of "https://www.ideabrowser.com/" "Home"
    [el "div" [("id", "main-wrapper")]
       [anchor "/a" "Idea"; anchor "/x" "  "; el "a" [] [txt "no target"];
        anchor "/a" "Idea of the day"]].


(** A page whose [article] comes before its [main] in the document. *)
Definition article_before_main : Page :=
  page_of "https://www.ideabrowser.com/a" "Page A"
    [el "nav" [] [anchor "/" "Home"];
     el "article" [] [el "h2" [] [txt "Teaser"]];
     el "main" [] [el "h1" [] [txt "Idea A"];
                   el "script" [] [txt "track()"];
                   el "p" [] [txt "A long enough paragraph of text."]];
     el "footer" [] [txt "(c)"]].

(** A page with no content container at all. *)
Definition plain_page : Page :=
  page_of "https://www.ideabrowser.com/c" "Page C"
    [el "header" [] [txt "Site"];
     el "div" [("class", "sidebar menu")] [txt "links"];
     el "div" [] [el "h1" [] [txt "Idea C"]; el "style" [] [txt "p{}"]];
     el "footer" [] [txt "(c)"]].

Definition ok : outcome unit := Ok tt.

Definition failing (msg : string) {A} : outcome A := Throw (mkError (js msg)).

(** A call of a visit that returns, and one rejected with an [Error]. *)
Definition returns : settled unit := Ok tt.

Definition rejected (msg : string) {A} : settled A :=
  Throw (ErrorObject (mkError (js msg))).

Definition visit_ok (p : Page) : Visit :=
  mkVisit returns returns returns (Ok p) returns.

Definition visit_timeout : Visit :=
  mkVisit (rejected "Navigation timeout of 30000 ms exceeded") returns
          returns (Ok plain_page) returns.

(** The navigation and the screenshot succeed, then the content evaluate is
    rejected. *)
Definition visit_extraction_fails : Visit :=
  mkVisit returns returns returns
          (rejected "Execution context was destroyed") returns.





(** A converter that keeps the text of the fragment. *)
Definition text_only (h : html) : settled jsstring :=
  Ok (flat_map textContent h).

(** An environment in which every call outside the loop succeeds. *)
Definition env_of (now : string) (home : Page) (visit : nat -> Visit)
  : Env :=
  {| turndown := text_only;
     e_launch := ok; e_newPage := ok; e_setUserAgent := ok;
     e_setExtraHTTPHeaders := ok; e_evaluateOnNewDocument := ok;
     clock_dir := js now; e_mkdir := ok; e_goto_home := ok;
     e_evaluate_home := Ok home; e_evaluate_sections := ok;
     e_write_html := ok; clock_index := js now;
     e_visit := visit; e_write_index := ok; e_write_results := ok;
     e_close := ok |}.

(** The scenario of the specification: the fetch of [/b] times out. *)
Definition scenario_visits (k : nat) : Visit :=
  match k with
  | 0 => visit_ok article_before_main
  | 1 => visit_timeout
  | _ => visit_ok plain_page
  end.

Definition scenario : Env :=
  env_of "2025-07-14T08:30:00.000Z" home_three scenario_visits.




(** The same run, started later in the day. *)
Definition scenario_later : Env :=
  env_of "2025-07-14T09:45:00.000Z" home_three scenario_visits.

(** The same run again, at the same time, the first page now carrying
    another title and a description. *)
Definition article_before_main_retitled : Page :=
  {| location_href := location_href article_before_main;
     document_title := js "Page A (revised)";
     documentElement :=
       el "html" []
          [el "head" []
              [el "meta" [("name", "description"); ("content", "An idea")]
                  []];
           el "body" [] [el "article" [] [el "h2" [] [txt "Teaser"]]]];
     resolve_url := site |}.

(** The scenario once more, the first page now with other headings and
    paragraphs under the same title. *)
Definition article_before_main_reworded : Page :=
  page_of "https://www.ideabrowser.com/a" "Page A"
    [el "article" [] [el "h2" [] [txt "Another teaser"]];
     el "main" [] [el "h1" [] [txt "Idea A, second edition"];
                   el "p" [] [txt "A paragraph written anew for the day."]]].

Definition scenario_reworded : Env :=
  env_of "2025-07-14T08:30:00.000Z" home_three
         (fun k => match k with
                   | 0 => visit_ok article_before_main_reworded
                   | _ => scenario_visits k
                   end).

Definition scenario_retitled : Env :=
  env_of "2025-07-14T08:30:00.000Z" home_three
         (fun k => match k with
                   | 0 => visit_ok article_before_main_retitled
                   | _ => scenario_visits k
                   end).


Definition three_links : list Link :=
  [mkLink (js "A") (site (js "/a")) (js "A");
   mkLink (js "B") (site (js "/b")) (js "B");
   mkLink (js "C") (site (js "/c")) (js "C")].


(** A homepage with one link, whose visit fails after the screenshot. *)
Definition home_one : Page :=
  page_of "https://www.ideabrowser.com/" "Home"
    [el "div" [("id", "main-wrapper")] [anchor "/a" "A"]].

Definition env_extraction_fails : Env :=
  env_of "2025-07-14T08:30:00.000Z" home_one
         (fun _ => visit_extraction_fails).


(** A run of [screenshot-enhanced.js] in which the navigation fails. *)
Definition enhanced_unreachable : Enhanced.Env :=
  {| Enhanced.year := 2025; Enhanced.month := 6; Enhanced.day := 14;
     Enhanced.e_mkdir := ok; Enhanced.e_launch := ok;
     Enhanced.e_newPage := ok; Enhanced.e_setViewport := ok;
     Enhanced.e_goto := failing "net::ERR_NAME_NOT_RESOLVED";
     Enhanced.e_pageInfo := ok; Enhanced.e_interactiveElements := ok;
     Enhanced.e_navLinks := ok; Enhanced.e_autoScroll := ok;
     Enhanced.e_modals := ok; Enhanced.e_mainContent := ok;
     Enhanced.e_scrollTop := ok; Enhanced.e_screenshot := ok;
     Enhanced.e_screenshot_viewport := ok; Enhanced.e_writeData := ok;
     Enhanced.e_close := ok |}.

End Samples.

(* ================================================================== *)
(** ** Notions used to state the properties *)
(* ================================================================== *)

Module Props.
Import Js Eff Dom Extractor Renderer Crawler.

(** The items of a list with their indices, from [i] on. *)
Fixpoint enumerate_from {A} (i : nat) (ls : list A) : list (nat * A) :=
  match ls with
  | [] => []
  | x :: r => (i, x) :: enumerate_from (S i) r
  end.

(** What the [try] block of one visit comes to: the page data it extracted
    if every call returned, the first value thrown otherwise. *)
Definition attempt (td : html -> settled jsstring) (v : Visit)
  : settled PageData :=
  match v_goto v with
  | Throw e => Throw e
  | Ok _ =>
  match v_scroll v with
  | Throw e => Throw e
  | Ok _ =>
  match v_screenshot v with
  | Throw e => Throw e
  | Ok _ =>
  match v_evaluate v with
  | Throw e => Throw e
  | Ok p =>
  match evaluate_pageData p with
  | Throw e => Throw (ErrorObject e)
  | Ok pd =>
  match td (pd_mainContent pd) with
  | Throw e => Throw e
  | Ok _ =>
  match v_writeFile v with
  | Throw e => Throw e
  | Ok _ => Ok pd
  end end end end end end end.

(** The [TypeError] with which the [catch] block leaves the loop, when
    what the [try] block threw is [null] or [undefined]. *)
Definition aborts {A} (o : settled A) : option JsError :=
  match o with
  | Ok _ => None
  | Throw error =>
      match read_message error with
      | Ok _ => None
      | Throw e => Some e
      end
  end.

(** What [error.message] reads on what the [try] block threw, when the
    reading returns. *)
Definition message_of (error : JsValue) : option jsstring :=
  match read_message error with
  | Ok msg => msg
  | Throw _ => None
  end.

(** The screenshot is on disk as soon as the first three calls returned. *)
Definition screenshot_taken (v : Visit) : bool :=
  is_ok (v_goto v) && is_ok (v_scroll v) && is_ok (v_screenshot v).

(** The record pushed for link [l], visited as number [linkNum]. *)
Definition result_of (l : Link) (linkNum : nat) (o : settled PageData)
  : CrawlResult :=
  match o with
  | Ok pd =>
      {| success := true; link := text l; url := pd_url pd;
         filename := Some (mdFilename linkNum (safeFilename (text l)));
         error := None |}
  | Throw e =>
      {| success := false; link := text l; url := href l;
         filename := None; error := message_of e |}
  end.

(** The entry appended to the index text for link [l]. *)
Definition entry_of (l : Link) (linkNum : nat) (o : settled PageData)
  : jsstring :=
  match o with
  | Ok pd =>
      index_entry_ok linkNum l pd
        (mdFilename linkNum (safeFilename (text l)))
        (screenshotFilename linkNum (safeFilename (text l)))
  | Throw e => index_entry_error linkNum l (message_of e)
  end.

Definition console_of (o : settled PageData) : list event :=
  match o with
  | Ok _ => []
  | Throw e => [LinkError (interpolate (message_of e))]
  end.

Definition image_of (idir : jsstring) (v : Visit) (l : Link) (linkNum : nat)
  : list (jsstring * content) :=
  if screenshot_taken v
  then [(path_join idir
           (screenshotFilename linkNum (safeFilename (text l))), Png)]
  else [].

Definition document_of (td : html -> settled jsstring) (odir : jsstring)
  (v : Visit) (l : Link) (linkNum : nat) : list (jsstring * content) :=
  match attempt td v with
  | Ok pd =>
      match td (pd_mainContent pd) with
      | Ok contentMarkdown =>
          [(path_join odir (mdFilename linkNum (safeFilename (text l))),
            TextFile
              (markdown_of l pd
                 (screenshotFilename linkNum (safeFilename (text l)))
                 contentMarkdown))]
      | Throw _ => []
      end
  | Throw _ => []
  end.

(** The files one iteration writes, in the order it writes them. *)
Definition files_of (td : html -> settled jsstring) (odir idir : jsstring)
  (v : Visit) (l : Link) (linkNum : nat) : list (jsstring * content) :=
  image_of idir v l linkNum ++ document_of td odir v l linkNum.

(** A state after more has been appended to each of its logs. *)
Definition extended (st : State) (index : jsstring)
  (rs : list CrawlResult) (fs : list (jsstring * content))
  (vs : list jsstring) (cs : list event) : State :=
  mkState (indexMd st ++ index) (results st ++ rs) (files st ++ fs)
          (visited st ++ vs) (console st ++ cs) (launched st) (closed st).

(** What the loop appends, link by link, when entered at index [i]. *)
Definition loop_entries (td : html -> settled jsstring) (visit : nat -> Visit)
  (i : nat) (links : list Link) : jsstring :=
  flat_map (fun kl => entry_of (snd kl) (fst kl + 1)
                        (attempt td (visit (fst kl))))
           (enumerate_from i links).

Definition loop_results (td : html -> settled jsstring) (visit : nat -> Visit)
  (i : nat) (links : list Link)
  : list CrawlResult :=
  map (fun kl => result_of (snd kl) (fst kl + 1)
                   (attempt td (visit (fst kl))))
      (enumerate_from i links).

Definition loop_files (td : html -> settled jsstring)
  (odir idir : jsstring) (visit : nat -> Visit) (i : nat) (links : list Link)
  : list (jsstring * content) :=
  flat_map (fun kl => files_of td odir idir (visit (fst kl)) (snd kl)
                        (fst kl + 1))
           (enumerate_from i links).

Definition loop_console (td : html -> settled jsstring) (visit : nat -> Visit)
  (i : nat) (links : list Link)
  : list event :=
  flat_map (fun kl => console_of (attempt td (visit (fst kl))))
           (enumerate_from i links).

(** The state when the loop of [crawl] is over, and the two files written
    after it. *)
Definition after_loop (env : Env) (links : list Link) (st : State) : State :=
  extended
    (set_results []
       (set_index (index_header (clock_index env) (length links)) st))
    (loop_entries (turndown env) (e_visit env) 0 links)
    (loop_results (turndown env) (e_visit env) 0 links)
    (loop_files (turndown env) (outputDir env) (imagesDir env)
                (e_visit env) 0 links)
    (map href links)
    (loop_console (turndown env) (e_visit env) 0 links).

Definition index_path (env : Env) : jsstring :=
  path_join (outputDir env) (js "INDEX.md").

Definition results_path (env : Env) : jsstring :=
  path_join (outputDir env) (js "results.json").

Definition summary_of (n : nat) (rs : list CrawlResult) : event :=
  Summary n (count_success rs) (count_failed rs) (count_success rs)
          (count_success rs).

(** How far the loop, entered at index [i], gets when its [catch] block
    throws: the number of links it is through with before the link whose
    visit is rejected with [null] or [undefined], with the [TypeError]
    that leaves the loop; [None] when no visit is so rejected. *)
Fixpoint halt (td : html -> settled jsstring) (visit : nat -> Visit)
  (i : nat) (links : list Link) : option (nat * JsError) :=
  match links with
  | [] => None
  | _ :: rest =>
      match aborts (attempt td (visit i)) with
      | Some e => Some (0, e)
      | None =>
          match halt td visit (S i) rest with
          | Some (n, e) => Some (S n, e)
          | None => None
          end
      end
  end.

(** No visit of the links is rejected with [null] or [undefined]. *)
Definition no_abort (td : html -> settled jsstring) (visit : nat -> Visit)
  (links : list Link) : Prop :=
  forall k, k < length links -> aborts (attempt td (visit k)) = None.

(** The state in which the loop of [crawl] is left by its [catch] block,
    [n] links done: the link after them was navigated to, and may have its
    screenshot, but has neither entry nor record. *)
Definition halted_loop (env : Env) (links : list Link) (n : nat)
  (st : State) : State :=
  extended
    (set_results []
       (set_index (index_header (clock_index env) (length links)) st))
    (loop_entries (turndown env) (e_visit env) 0 (firstn n links))
    (loop_results (turndown env) (e_visit env) 0 (firstn n links))
    (loop_files (turndown env) (outputDir env) (imagesDir env)
                (e_visit env) 0 (firstn (S n) links))
    (map href (firstn (S n) links))
    (loop_console (turndown env) (e_visit env) 0 (firstn n links)).

(** What the index text shows of one visit: the url, the title and the
    meta description of the page of a success; what [error.message] read
    for a failure; nothing when the [catch] block threw. *)
Inductive index_item : Type :=
| Succeeded (url title description : jsstring)
| Failed (msg : option jsstring)
| Aborted.

Definition shown_of (o : settled PageData) : index_item :=
  match o with
  | Ok pd => Succeeded (pd_url pd) (pd_title pd) (pd_metaDescription pd)
  | Throw error =>
      match read_message error with
      | Ok msg => Failed msg
      | Throw _ => Aborted
      end
  end.

(** The links in visiting order, each with what the index shows of its
    visit. *)
Definition index_items (td : html -> settled jsstring)
  (visit : nat -> Visit) (links : list Link)
  : list (Link * index_item) :=
  map (fun kl => (snd kl, shown_of (attempt td (visit (fst kl)))))
      (enumerate_from 0 links).

(** The entries of the index text from link number [linkNum] on: the text
    ends before the first link at which the [catch] block threw. *)
Fixpoint index_entries (linkNum : nat) (items : list (Link * index_item))
  : jsstring :=
  match items with
  | [] => []
  | (l, Succeeded u t d) :: rest =>
      index_entry_ok linkNum l
        {| pd_title := t; pd_url := u; pd_h1 := [];
           pd_metaDescription := d; pd_bodyHTML := []; pd_mainContent := [];
           pd_headings := []; pd_paragraphs := [] |}
        (mdFilename linkNum (safeFilename (text l)))
        (screenshotFilename linkNum (safeFilename (text l)))
      ++ index_entries (S linkNum) rest
  | (l, Failed msg) :: rest =>
      index_entry_error linkNum l msg ++ index_entries (S linkNum) rest
  | (_, Aborted) :: _ => []
  end.

(** The index text as a function of the clock reading shown on its Date
    line and of the links in visiting order with what the index shows of
    their visits. *)
Definition index_writer (now : jsstring)
  (items : list (Link * index_item)) : jsstring :=
  index_header now (length items) ++ index_entries 1 items.

(** A computation keeps an invariant of the state, whether it returns or
    throws. *)
Definition preserves {E A} (I : State -> Prop) (m : MX E State A) : Prop :=
  forall st, I st -> I (snd (m st)).

(** An invariant that no step outside the loop can break: logging,
    navigating, writing a file, and recording that the browser was launched
    or closed all keep it. *)
Definition stable (I : State -> Prop) : Prop :=
  (forall u st, I st -> I (add_visit u st))
  /\ (forall p c st, I st -> I (add_file p c st))
  /\ (forall e st, I st -> I (log e st))
  /\ (forall st, I st -> I (set_launched st))
  /\ (forall st, I st -> I (set_closed st)).

(** The units a sanitised file name is made of. *)
Definition name_unit (c : N) : bool :=
  isLower c || isDigit c || N.eqb c dash.






(** The first item of [l], in the order of the list, that satisfies [f]:
    [None] when no item does, [Some x] when [x] does and nothing before it
    does. *)
Inductive first_match {A} (f : A -> bool) (l : list A)
  : option A -> Prop :=
| no_match :
    Forall (fun x => f x = false) l -> first_match f l None
| match_at : forall pre x post,
    l = pre ++ x :: post ->
    Forall (fun y => f y = false) pre ->
    f x = true ->
    first_match f l (Some x).

(** [s] is [l] with some of its items left out, the order kept. *)
Inductive subsequence {A} : list A -> list A -> Prop :=
| sub_nil : subsequence [] []
| sub_keep : forall x s l, subsequence s l -> subsequence (x :: s) (x :: l)
| sub_skip : forall x s l, subsequence s l -> subsequence s (x :: l).


(** The first failure among the calls that come before the loop, if any. *)
Definition setup_error (env : Env) : option JsError :=
  match e_launch env with Throw e => Some e | Ok _ =>
  match e_newPage env with Throw e => Some e | Ok _ =>
  match e_setUserAgent env with Throw e => Some e | Ok _ =>
  match e_setExtraHTTPHeaders env with Throw e => Some e | Ok _ =>
  match e_evaluateOnNewDocument env with Throw e => Some e | Ok _ =>
  match e_mkdir env with Throw e => Some e | Ok _ =>
  match e_goto_home env with Throw e => Some e | Ok _ =>
  match e_evaluate_home env with Throw e => Some e | Ok _ => None
  end end end end end end end end.

End Props.

(* ================================================================== *)
(** ** The behaviour as the specification words it *)
(* ================================================================== *)

Module Spec.
Import Js Eff Dom Extractor Renderer Crawler Props.

(** The first candidate selector, in the order of the list, that matches
    some element of the fragment, with its first match. *)
Fixpoint first_by_precedence (sels : list selector) (h : html)
  : option node :=
  match sels with
  | [] => None
  | s :: rest =>
      match find (matches s) (flat_map subtree h) with
      | Some el => Some el
      | None => first_by_precedence rest h
      end
  end.

(** Content selection as section 4.3 has it: the candidates are tried in
    precedence order on the stripped copy of the body, the whole stripped
    body being the fallback. *)
Definition mainContent_by_precedence (body : node) : html :=
  match first_by_precedence content_selectors (stripped_body body) with
  | Some el => innerHTML el
  | None => stripped_body body
  end.

End Spec.

(* ================================================================== *)
(** ** The scrolling loop shared by the three scripts *)
(* ================================================================== *)

Module Scroll.

(** The callback that [setInterval] runs, from its call number [k] on:
    read [document.body.scrollHeight], scroll by [distance], add [distance]
    to [totalHeight], and stop the timer and resolve once [totalHeight] has
    reached the height just read.  [scrollHeight k] is what call [k] reads
    (the page may grow while it is scrolled) and [fuel] bounds the number
    of calls; the result is the number of calls made and the final
    [totalHeight], or [None] when the promise is still pending after
    [fuel] calls.  (Where the window ends up is not part of the result:
    the crawler and the deep-dive script scroll back to the top before
    resolving, [autoScroll] of the enhanced script does not.) *)
Fixpoint scroll_from (distance : nat) (scrollHeight : nat -> nat)
  (fuel k totalHeight : nat) : option (nat * nat) :=
  match fuel with
  | O => None
  | S fuel' =>
      let h := scrollHeight k in
      let totalHeight' := totalHeight + distance in
      if h <=? totalHeight' then Some (S k, totalHeight')
      else scroll_from distance scrollHeight fuel' (S k) totalHeight'
  end.

(** The promise, with [let totalHeight = 0]. *)
Definition scroll (distance : nat) (scrollHeight : nat -> nat) (fuel : nat)
  : option (nat * nat) :=
  scroll_from distance scrollHeight fuel 0 0.

(** [const distance = 200] in the crawler and the deep-dive script. *)
Definition crawler_distance : nat := 200.

(** [const distance = 100] in [autoScroll]. *)
Definition autoScroll_distance : nat := 100.

End Scroll.

(* ================================================================== *)
(** ** Steps 3 and 5 of [screenshot-practical-deep-dive.js] *)
(* ================================================================== *)

Module DeepDiveSteps.
Import Js Eff Eff.Notations Dom.

(** What the page knows of locations: [window.location.hostname], and the
    host name of [new URL(href, window.location.href)], [None] when the
    constructor throws. *)
Record Location := mkLocation {
  location_hostname : jsstring;
  url_hostname : jsstring -> option jsstring
}.

(** One item of [links]. *)
Record LinkInfo := mkLinkInfo {
  text : jsstring;
  href : jsstring;
  isInternal : bool;
  isExternal : bool;
  target : jsstring;
  hasImage : bool
}.

(** The [TypeError] of the [URL] constructor, as the page words it. *)
Definition invalid_url_error : JsError :=
  mkError (js "Failed to construct 'URL': Invalid URL").

(** The callback of [map], on one anchor. *)
Definition link_info (p : Page) (loc : Location) (a : node)
  : outcome LinkInfo :=
  let h := resolve_url p (reflected (js "href") a) in
  match url_hostname loc h with
  | None => Throw invalid_url_error
  | Some host =>
      Ok {| text := trim (textContent a);
            href := h;
            isInternal := str_eqb host (location_hostname loc);
            isExternal := negb (str_eqb host (location_hostname loc));
            target := reflected (js "target") a;
            hasImage := match querySelectorAll a [byTag "img"] with
                        | [] => false
                        | _ :: _ => true
                        end |}
  end.

(** [Array.from(...).map(callback)]: the first anchor on which the callback
    throws ends the evaluation. *)
Fixpoint link_infos (p : Page) (loc : Location) (anchors : list node)
  : outcome (list LinkInfo) :=
  match anchors with
  | [] => Ok []
  | a :: rest =>
      match link_info p loc a with
      | Throw e => Throw e
      | Ok l =>
          match link_infos p loc rest with
          | Throw e => Throw e
          | Ok ls => Ok (l :: ls)
          end
      end
  end.

(** The function evaluated in the page at step 3. *)
Definition evaluate_links (p : Page) (loc : Location)
  : outcome (list LinkInfo) :=
  link_infos p loc (document_querySelectorAll p [tagHasAttr "a" "href"]).

Definition internalLinks (links : list LinkInfo) : list LinkInfo :=
  filter (fun l => isInternal l && truthy (text l)) links.

Definition externalLinks (links : list LinkInfo) : list LinkInfo :=
  filter (fun l => isExternal l && truthy (text l)) links.

(** [internalLinks.filter(link => link.href !== page.url()).slice(0, 3)]. *)
Definition subpagesToVisit (page_url : jsstring) (links : list LinkInfo)
  : list LinkInfo :=
  firstn 3
    (filter (fun l => negb (str_eqb (href l) page_url))
            (internalLinks links)).

Inductive event : Type :=
| CouldNotVisit (msg : jsstring).

(** What the subpage loop touches: the files it writes, the pages it
    navigates to and the warnings it prints. *)
Record State := mkState {
  files : list jsstring;
  visited : list jsstring;
  console : list event
}.

Definition add_file (path : jsstring) (st : State) : State :=
  mkState (files st ++ [path]) (visited st) (console st).

Definition add_visit (u : jsstring) (st : State) : State :=
  mkState (files st) (visited st ++ [u]) (console st).

Definition log (e : event) (st : State) : State :=
  mkState (files st) (visited st) (console st ++ [e]).

Definition M (A : Type) : Type := Eff.M State A.

(** What the collaborators answer during the visit of one subpage; what
    a call throws may be any value. *)
Record Visit := mkVisit {
  s_goto : settled unit;
  s_evaluate : settled unit;
  s_screenshot : settled unit;
  s_writeFile : settled unit
}.

(** [`05-subpage-${i + 1}`]. *)
Definition subpage_name (i : nat) : jsstring :=
  js "05-subpage-" ++ String_of_nat (i + 1).

Definition subpage_png (outputDir : jsstring) (i : nat) : jsstring :=
  path_join outputDir (subpage_name i ++ js ".png").

Definition subpage_json (outputDir : jsstring) (i : nat) : jsstring :=
  path_join outputDir (subpage_name i ++ js "-data.json").

(** The body of the loop of step 5 at index [i].  The [catch] block reads
    [e.message]: on [null] or [undefined] it throws a [TypeError], which
    leaves the loop. *)
Definition visit_subpage (outputDir : jsstring) (v : Visit) (l : LinkInfo)
  (i : nat) : M unit :=
  try_catch
    (modify (add_visit (href l)) ;;; lift (s_goto v) ;;;
     lift (s_evaluate v) ;;;
     lift (s_screenshot v) ;;; modify (add_file (subpage_png outputDir i)) ;;;
     lift (s_writeFile v) ;;; modify (add_file (subpage_json outputDir i)))
    (fun e : JsValue =>
       msg <- lift (read_message e) ;;
       modify (log (CouldNotVisit (interpolate msg)))).

(** [for (let i = 0; i < subpagesToVisit.length; i++)], entered at [i]. *)
Fixpoint visit_subpages (outputDir : jsstring) (visit : nat -> Visit)
  (todo : list LinkInfo) (i : nat) : M unit :=
  match todo with
  | [] => ret tt
  | l :: rest =>
      visit_subpage outputDir (visit i) l i ;;;
      visit_subpages outputDir visit rest (S i)
  end.






(** An instant of the years 0 to 9999, as the decimal fields that
    [toISOString] prints. *)
Record Instant := mkInstant {
  i_year : jsstring;
  i_month : jsstring;
  i_day : jsstring;
  i_hours : jsstring;
  i_minutes : jsstring;
  i_seconds : jsstring;
  i_millis : jsstring
}.

(** [YYYY-MM-DDTHH:mm:ss.sssZ]. *)
Definition toISOString (i : Instant) : jsstring :=
  i_year i ++ js "-" ++ i_month i ++ js "-" ++ i_day i ++ js "T"
  ++ i_hours i ++ js ":" ++ i_minutes i ++ js ":" ++ i_seconds i
  ++ js "." ++ i_millis i ++ js "Z".

(** [new Date().toISOString().replace(/[:.]/g, '-')]: the name of the
    output directory under [deep-dive-output]. *)
Definition timestamp (clock : jsstring) : jsstring :=
  replace_colon_dot clock.

End DeepDiveSteps.

(* ================================================================== *)
(** ** Step 6 and the file names of [screenshot-enhanced.js] *)
(* ================================================================== *)

Module EnhancedSteps.
Import Js Eff Dom.

(** [const selectors = ['main', 'article', '[role="main"]', '.content',
    '#content']]. *)
Definition selectors : list selector :=
  [byTag "main"; byTag "article"; byAttr "role" "main"; byClass "content";
   byId "content"].

(** The object the evaluate returns: [{ found: false }], or [found: true]
    with the selector that matched, the length of the trimmed text and its
    first 200 units followed by three dots. *)
Record MainContent := mkMainContent {
  found : bool;
  selector : option Dom.selector;
  textLength : option nat;
  preview : option jsstring
}.

Definition mainContent (p : Page) : MainContent :=
  match DeepDive.first_selector_match p selectors with
  | Some (s, element) =>
      {| found := true;
         selector := Some s;
         textLength := Some (length (trim (textContent element)));
         preview := Some (substring0 200 (trim (textContent element))
                          ++ js "...") |}
  | None =>
      {| found := false; selector := None; textLength := None;
         preview := None |}
  end.

Fixpoint startsWith (pat s : jsstring) : bool :=
  match pat, s with
  | [], _ => true
  | _ :: _, [] => false
  | x :: pat', y :: s' => N.eqb x y && startsWith pat' s'
  end.

(** [s.replace(pat, rep)] for a string pattern and a replacement without
    [$]: the first occurrence of [pat] is replaced, if there is one. *)
Fixpoint replace_first (pat rep s : jsstring) : jsstring :=
  if startsWith pat s then rep ++ skipn (length pat) s
  else match s with
       | [] => []
       | c :: r => c :: replace_first pat rep r
       end.

(** [`${day} ${monthName} ${year}.png`] joined to [archiveDir]. *)
Definition filePath (env : Enhanced.Env) : jsstring :=
  path_join (Enhanced.archiveDir env)
    (String_of_nat (Enhanced.day env) ++ js " " ++ Enhanced.monthName env
     ++ js " " ++ String_of_nat (Enhanced.year env) ++ js ".png").

Definition viewportFilePath (env : Enhanced.Env) : jsstring :=
  replace_first (js ".png") (js "-viewport.png") (filePath env).

Definition dataFilePath (env : Enhanced.Env) : jsstring :=
  replace_first (js ".png") (js "-data.json") (filePath env).

End EnhancedSteps.

(* ================================================================== *)
(** ** Further notions and samples *)
(* ================================================================== *)

Module MoreProps.
Import Js Eff Dom Extractor Renderer Crawler Props.

(** A string that neither starts nor ends with white space. *)
Definition no_outer_space (s : jsstring) : Prop :=
  match s with
  | [] => True
  | c :: _ => isWhiteSpace c = false
  end
  /\ match rev s with
     | [] => True
     | c :: _ => isWhiteSpace c = false
     end.

Definition is_document (f : jsstring * content) : bool :=
  match snd f with
  | TextFile _ => true
  | _ => false
  end.

(** The paths that the [filename] fields of a list of records name. *)
Definition named_documents (odir : jsstring) (rs : list CrawlResult)
  : list jsstring :=
  flat_map (fun r => match filename r with
                     | Some f => [path_join odir f]
                     | None => []
                     end) rs.

(** No two neighbouring units of [s] are both dashes. *)
Fixpoint no_double_dash (s : jsstring) : Prop :=
  match s with
  | c :: (d :: _) as r => (c = dash -> d <> dash) /\ no_double_dash r
  | _ => True
  end.

(** A field of [n] decimal digits. *)
Definition digits (n : nat) (s : jsstring) : Prop :=
  length s = n /\ Forall (fun c => isDigit c = true) s.

(** The widths of the fields of [toISOString]. *)
Definition iso_fields (i : DeepDiveSteps.Instant) : Prop :=
  digits 4 (DeepDiveSteps.i_year i) /\ digits 2 (DeepDiveSteps.i_month i)
  /\ digits 2 (DeepDiveSteps.i_day i) /\ digits 2 (DeepDiveSteps.i_hours i)
  /\ digits 2 (DeepDiveSteps.i_minutes i)
  /\ digits 2 (DeepDiveSteps.i_seconds i)
  /\ digits 3 (DeepDiveSteps.i_millis i).

(** The units of a generated file name. *)
Definition filename_unit (c : N) : bool := name_unit c || N.eqb c 46.

(** What one iteration of the subpage loop of the deep-dive script writes,
    and what it prints. *)
Definition subpage_files (odir : jsstring) (v : DeepDiveSteps.Visit)
  (i : nat) : list jsstring :=
  if is_ok (DeepDiveSteps.s_goto v) && is_ok (DeepDiveSteps.s_evaluate v)
     && is_ok (DeepDiveSteps.s_screenshot v)
  then DeepDiveSteps.subpage_png odir i
       :: (if is_ok (DeepDiveSteps.s_writeFile v)
           then [DeepDiveSteps.subpage_json odir i] else [])
  else [].

(** The first value thrown during the visit of a subpage, if any. *)
Definition subpage_error (v : DeepDiveSteps.Visit) : option JsValue :=
  match DeepDiveSteps.s_goto v with Throw e => Some e | Ok _ =>
  match DeepDiveSteps.s_evaluate v with Throw e => Some e | Ok _ =>
  match DeepDiveSteps.s_screenshot v with Throw e => Some e | Ok _ =>
  match DeepDiveSteps.s_writeFile v with Throw e => Some e | Ok _ => None
  end end end end.

Definition subpage_console (v : DeepDiveSteps.Visit)
  : list DeepDiveSteps.event :=
  match subpage_error v with
  | Some e => [DeepDiveSteps.CouldNotVisit (interpolate (message_of e))]
  | None => []
  end.

(** The [TypeError] with which the [catch] block of a subpage leaves the
    loop, when what was thrown is [null] or [undefined]. *)
Definition subpage_aborts (v : DeepDiveSteps.Visit) : option JsError :=
  match subpage_error v with
  | Some e =>
      match read_message e with
      | Ok _ => None
      | Throw te => Some te
      end
  | None => None
  end.

End MoreProps.

Module MoreSamples.
Import Js Eff Dom Extractor Renderer Crawler Samples.
Local Open Scope string_scope.

(** A homepage whose container holds no usable anchor: one has blank text,
    the other no [href]. *)
Definition home_no_links : Page :=
  page_of "https://www.ideabrowser.com/" "Home"
    [el "div" [("id", "main-wrapper"); ("class", "wrap")]
       [anchor "/x" "  "; el "a" [("class", "cta")] [txt "no target"]]].

Definition env_no_links : Env :=
  env_of "2025-07-14T08:30:00.000Z" home_no_links (fun _ => visit_timeout).

(** The enhanced script on 14 July 2025, every call returning. *)
Definition enhanced_fine : Enhanced.Env :=
  {| Enhanced.year := 2025; Enhanced.month := 6; Enhanced.day := 14;
     Enhanced.e_mkdir := ok; Enhanced.e_launch := ok;
     Enhanced.e_newPage := ok; Enhanced.e_setViewport := ok;
     Enhanced.e_goto := ok;
     Enhanced.e_pageInfo := ok; Enhanced.e_interactiveElements := ok;
     Enhanced.e_navLinks := failing "no nav";
     Enhanced.e_autoScroll := ok;
     Enhanced.e_modals := ok; Enhanced.e_mainContent := ok;
     Enhanced.e_scrollTop := ok; Enhanced.e_screenshot := ok;
     Enhanced.e_screenshot_viewport := ok; Enhanced.e_writeData := ok;
     Enhanced.e_close := ok |}.

(** Three subpages: the first is captured, the navigation to the second
    times out, the screenshot of the third is rejected with [null]. *)
Definition subpage_visits (k : nat) : DeepDiveSteps.Visit :=
  match k with
  | 0 => DeepDiveSteps.mkVisit returns returns returns returns
  | 1 => DeepDiveSteps.mkVisit
           (rejected "Navigation timeout of 15000 ms exceeded")
           returns returns returns
  | _ => DeepDiveSteps.mkVisit returns returns (Throw Null) returns
  end.

Definition subpage (h : string) : DeepDiveSteps.LinkInfo :=
  DeepDiveSteps.mkLinkInfo (js "Idea") (site (js h)) true false [] false.

(** 14 July 2025, 08:30:00 UTC, at the millisecond [ms]. *)
Definition half_past_eight (ms : string) : DeepDiveSteps.Instant :=
  DeepDiveSteps.mkInstant (js "2025") (js "07") (js "14") (js "08")
    (js "30") (js "00") (js ms).

(** A page 1000 pixels high that lazy loading makes 1500 pixels high from
    the third reading on. *)
Definition growing_page (k : nat) : nat :=
  if Nat.ltb k 2 then 1000 else 1500.

End MoreSamples.

(* ================================================================== *)
(** ** Proof automation *)
(* ================================================================== *)

Import Js Eff Eff.Notations Dom Extractor Renderer Crawler Props.

(** Unfold the combinators of one iteration of the loop. *)
Ltac run_script :=
  cbv beta iota zeta delta
    [iteration try_link catch_link try_catch try_finally bind goto write
     lift modify ret get throw append_index push_result add_file
     add_visit log set_index set_results set_launched set_closed
     indexMd results files visited console launched closed fst snd
     v_goto v_scroll v_screenshot v_evaluate v_writeFile
     extended files_of image_of document_of screenshot_taken attempt
     entry_of result_of console_of is_ok andb
     as_thrown read_message aborts message_of].

(** From [setup_error env = None]: every call of the setup returned. *)
Ltac setup_ok H :=
  unfold setup_error in H;
  repeat match type of H with
         | match ?o with Ok _ => _ | Throw _ => _ end = _ =>
             let E := fresh "E" in
             destruct o as [?|] eqn:E; [|discriminate H]
         end.

(** Unfold the combinators of the crawler's top level. *)
Ltac run_main :=
  cbv beta iota zeta delta
    [run main try_main catch_main finally_main after_extraction
     report_missing_container
     try_catch try_finally bind goto write
     lift modify ret get throw append_index push_result add_file
     add_visit log set_index set_results set_launched set_closed
     indexMd results files visited console launched closed fst snd
     initial].


(** Unfold the combinators of [screenshot-enhanced.js]. *)
Ltac run_enhanced :=
  cbv beta iota zeta delta
    [Enhanced.exit_status Enhanced.run Enhanced.script Enhanced.main
     Enhanced.try_main Enhanced.catch_main Enhanced.finally_main
     Enhanced.write Enhanced.add_file Enhanced.log Enhanced.set_launched
     Enhanced.set_closed Enhanced.process_exit Enhanced.initial
     Enhanced.files Enhanced.console Enhanced.launched Enhanced.closed
     Enhanced.exit_called Enhanced.unguarded_ok
     try_catch try_finally bind lift modify ret get throw fst snd
     is_ok andb].

(** Examine the next call outside the inner [try] blocks. *)
Ltac enhanced_step o :=
  destruct o as [?|?]; run_enhanced;
  [|try (destruct (Enhanced.e_close _) as [?|?]; run_enhanced);
    reflexivity].

(* ================================================================== *)
(** ** Strings: decimal numerals and numbered file names *)
(* ================================================================== *)

Lemma str_eqb_eq (a b : jsstring) : str_eqb a b = true <-> a = b.
Proof.
  revert b; induction a as [|x a IH]; intros [|y b]; simpl; split;
    try discriminate; try reflexivity.
  - intros H; apply andb_true_iff in H; destruct H as [Hx Hr].
    apply N.eqb_eq in Hx; apply IH in Hr; now subst.
  - intros [= -> ->]. rewrite N.eqb_refl; simpl. now apply IH.
Qed.

Lemma str_eqb_refl (a : jsstring) : str_eqb a a = true.
Proof. now apply str_eqb_eq. Qed.

Lemma js_inj (a b : string) : js a = js b -> a = b.
Proof.
  unfold js; intros H.
  rewrite <- (string_of_list_ascii_of_string a),
          <- (string_of_list_ascii_of_string b).
  f_equal.
  revert H; generalize (list_ascii_of_string a) (list_ascii_of_string b).
  induction l as [|x l IH]; intros [|y l']; simpl; try discriminate; auto.
  intros [= Hx Hl]; f_equal; auto.
  rewrite <- (ascii_N_embedding x), <- (ascii_N_embedding y); now f_equal.
Qed.

Lemma string_of_uint_inj (d d' : Decimal.uint) :
  DecimalString.NilEmpty.string_of_uint d
  = DecimalString.NilEmpty.string_of_uint d' -> d = d'.
Proof.
  intros H.
  assert (E : Some d = Some d')
    by (rewrite <- !DecimalString.NilEmpty.usu; now f_equal).
  now injection E.
Qed.

Lemma String_of_nat_inj (n m : nat) :
  String_of_nat n = String_of_nat m -> n = m.
Proof.
  unfold String_of_nat; intros H.
  apply DecimalNat.Unsigned.to_uint_inj, string_of_uint_inj, js_inj, H.
Qed.

Lemma uint_digits (d : Decimal.uint) :
  Forall (fun c => isDigit c = true)
         (js (DecimalString.NilEmpty.string_of_uint d)).
Proof.
  induction d; simpl; constructor; auto.
Qed.

Lemma String_of_nat_digits (n : nat) :
  Forall (fun c => isDigit c = true) (String_of_nat n).
Proof. apply uint_digits. Qed.

Lemma String_of_nat_nonempty (n : nat) : String_of_nat n <> [].
Proof.
  unfold String_of_nat.
  assert (Hn : Nat.to_uint n <> Decimal.Nil).
  { rewrite <- (DecimalNat.Unsigned.of_to n) at 1.
    rewrite DecimalNat.Unsigned.to_of. apply DecimalFacts.unorm_nonnil. }
  destruct (Nat.to_uint n); try (simpl; discriminate).
  now elim Hn.
Qed.

(** A numeral that starts with [0] and goes on is no [String(m)]. *)
Lemma String_of_nat_no_leading_zero (n m : nat) :
  String_of_nat m <> 48%N :: String_of_nat n.
Proof.
  intros H.
  assert (E : Nat.to_uint m = Decimal.D0 (Nat.to_uint n)).
  { apply string_of_uint_inj, js_inj. exact H. }
  assert (Hm : m = n).
  { rewrite <- (DecimalNat.Unsigned.of_to m), E.
    rewrite <- (DecimalNat.Unsigned.of_to n) at 2.
    reflexivity. }
  subst m.
  apply (f_equal (@length N)) in H; simpl in H; lia.
Qed.

Lemma padStart0_digits (s : jsstring) :
  Forall (fun c => isDigit c = true) s ->
  Forall (fun c => isDigit c = true) (padStart0 2 s).
Proof.
  intros H; unfold padStart0; apply Forall_app; split; auto.
  apply Forall_forall; intros x Hx; apply repeat_spec in Hx; now subst.
Qed.

Lemma padStart0_String_of_nat_inj (n m : nat) :
  padStart0 2 (String_of_nat n) = padStart0 2 (String_of_nat m) -> n = m.
Proof.
  pose proof (String_of_nat_nonempty n) as Hn.
  pose proof (String_of_nat_nonempty m) as Hm.
  unfold padStart0.
  destruct (String_of_nat n) as [|a [|a' s]] eqn:En; [easy| |];
  destruct (String_of_nat m) as [|b [|b' t]] eqn:Em; try easy; simpl.
  - intros [= ->]. apply String_of_nat_inj; congruence.
  - intros [= <- <- <-].
    exfalso; apply (String_of_nat_no_leading_zero n m); congruence.
  - intros [= -> -> ->].
    exfalso; apply (String_of_nat_no_leading_zero m n); congruence.
  - intros E. apply String_of_nat_inj; congruence.
Qed.

(** Two strings that agree after a run of digits and a first non-digit
    have the same run of digits. *)
Lemma digits_prefix_inj (a b r r' : jsstring) (x : N) :
  Forall (fun c => isDigit c = true) a ->
  Forall (fun c => isDigit c = true) b ->
  isDigit x = false ->
  a ++ x :: r = b ++ x :: r' -> a = b.
Proof.
  intros Ha; revert b; induction Ha as [|c a Hc Ha IH];
    intros b Hb Hx E; destruct Hb as [|d b Hd Hb]; simpl in E.
  - reflexivity.
  - injection E as -> _. congruence.
  - injection E as -> _. congruence.
  - injection E as -> E. f_equal. eapply IH; eauto.
Qed.

Lemma numbered_inj (n m : nat) (s s' : jsstring) :
  numbered n s = numbered m s' -> n = m.
Proof.
  unfold numbered; simpl; intros E.
  apply padStart0_String_of_nat_inj.
  eapply digits_prefix_inj; [| | |exact E];
    auto using padStart0_digits, String_of_nat_digits.
Qed.

(* ================================================================== *)
(** ** The crawl loop *)
(* ================================================================== *)

Lemma extended_nil (st : State) : extended st [] [] [] [] [] = st.
Proof. destruct st; unfold extended; simpl; now rewrite !app_nil_r. Qed.

Lemma extended_extended (st : State) i1 r1 f1 v1 c1 i2 r2 f2 v2 c2 :
  extended (extended st i1 r1 f1 v1 c1) i2 r2 f2 v2 c2
  = extended st (i1 ++ i2) (r1 ++ r2) (f1 ++ f2) (v1 ++ v2) (c1 ++ c2).
Proof. unfold extended; simpl; now rewrite !app_assoc. Qed.

(** One iteration appends to the state what its visit came to.  It throws
    only from its [catch] block, when what the visit threw is [null] or
    [undefined]: the navigation was started and the screenshot may be on
    disk, but nothing is logged or recorded. *)
Lemma iteration_eq td odir idir (v : Visit) (l : Link) (i : nat)
  (st : State) :
  iteration td odir idir v l i st
  = match aborts (attempt td v) with
    | Some e =>
        (Throw e,
         extended st [] [] (files_of td odir idir v l (i + 1)) [href l] [])
    | None =>
        (Ok tt,
         extended st (entry_of l (i + 1) (attempt td v))
           [result_of l (i + 1) (attempt td v)]
           (files_of td odir idir v l (i + 1))
           [href l]
           (console_of (attempt td v)))
    end.
Proof.
  destruct st as [ix rs fs vs cs la cl].
  destruct v as [g s sh ev w].
  run_script.
  destruct g as [[]|[e| | |]]; run_script;
    try (now rewrite ?app_nil_r).
  destruct s as [[]|[e| | |]]; run_script;
    try (now rewrite ?app_nil_r).
  destruct sh as [[]|[e| | |]]; run_script;
    try (now rewrite ?app_nil_r).
  destruct ev as [p|[e| | |]]; run_script;
    try (now rewrite <- ?app_assoc, ?app_nil_r).
  destruct (evaluate_pageData p) as [pd|e]; run_script;
    [|now rewrite <- ?app_assoc, ?app_nil_r].
  destruct (td (pd_mainContent pd)) as [cm|[e| | |]] eqn:Etd; run_script;
    try (now rewrite <- ?app_assoc, ?app_nil_r).
  destruct w as [[]|[e| | |]]; run_script; rewrite ?Etd; run_script;
    now rewrite <- ?app_assoc, ?app_nil_r.
Qed.

Lemma loop_entries_cons td visit i (l : Link) (rest : list Link) :
  loop_entries td visit i (l :: rest)
  = entry_of l (i + 1) (attempt td (visit i))
    ++ loop_entries td visit (S i) rest.
Proof. reflexivity. Qed.

(** The loop appends one entry and one record per link, in the order of
    the list, and navigates to each link once, as long as its [catch]
    block does not throw; when it does, the loop is left at once. *)
Lemma crawl_loop_eq td odir idir visit (links : list Link) :
  forall (i : nat) (st : State),
    crawl_loop td odir idir visit links i st
    = match halt td visit i links with
      | None =>
          (Ok tt,
           extended st (loop_entries td visit i links)
             (loop_results td visit i links)
             (loop_files td odir idir visit i links)
             (map href links)
             (loop_console td visit i links))
      | Some (n, e) =>
          (Throw e,
           extended st (loop_entries td visit i (firstn n links))
             (loop_results td visit i (firstn n links))
             (loop_files td odir idir visit i (firstn (S n) links))
             (map href (firstn (S n) links))
             (loop_console td visit i (firstn n links)))
      end.
Proof.
  induction links as [|l rest IH]; intros i st.
  - cbn. now rewrite extended_nil.
  - cbn [crawl_loop halt]. unfold bind at 1. rewrite iteration_eq.
    destruct (aborts (attempt td (visit i))) as [e|] eqn:Ea.
    + cbn [firstn]. unfold loop_entries, loop_results, loop_files,
        loop_console. cbn [enumerate_from flat_map map fst snd].
      now rewrite !app_nil_r.
    + rewrite IH.
      destruct (halt td visit (S i) rest) as [[n e]|];
        rewrite extended_extended; reflexivity.
Qed.

Lemma halt_none td visit (links : list Link) :
  forall i,
    (forall k, k < length links ->
               aborts (attempt td (visit (i + k))) = None) ->
    halt td visit i links = None.
Proof.
  induction links as [|l rest IH]; intros i H; [reflexivity|].
  cbn [halt]. rewrite <- (Nat.add_0_r i) at 1.
  rewrite (H 0) by (cbn; lia). rewrite IH; [reflexivity|].
  intros k Hk. replace (S i + k) with (i + S k) by lia.
  apply H. cbn. lia.
Qed.



Lemma halt_no_abort td visit (links : list Link) :
  no_abort td visit links -> halt td visit 0 links = None.
Proof. intros H. apply halt_none. exact H. Qed.

Lemma halt_bound td visit (links : list Link) :
  forall i n e, halt td visit i links = Some (n, e) -> n < length links.
Proof.
  induction links as [|l rest IH]; intros i n e H; [discriminate|].
  cbn [halt] in H.
  destruct (aborts (attempt td (visit i))).
  - injection H as <- _. cbn. lia.
  - destruct (halt td visit (S i) rest) as [[m e']|] eqn:E;
      [|discriminate].
    injection H as <- _. apply IH in E. cbn. lia.
Qed.

Lemma enumerate_from_length {A} (ls : list A) :
  forall i, length (enumerate_from i ls) = length ls.
Proof. induction ls; intros; simpl; auto. Qed.


Lemma enumerate_from_fst {A} (ls : list A) :
  forall i, map fst (enumerate_from i ls) = seq i (length ls).
Proof. induction ls; intros; simpl; f_equal; auto. Qed.


Lemma enumerate_from_In {A} (ls : list A) :
  forall i k x, In (k, x) (enumerate_from i ls) ->
                i <= k < i + length ls /\ nth_error ls (k - i) = Some x.
Proof.
  induction ls as [|y ls IH]; intros i k x; simpl; [easy|].
  intros [[= <- <-]|H].
  - rewrite Nat.sub_diag. split; [lia|reflexivity].
  - apply IH in H. destruct H as [Hk Hn]. split; [lia|].
    replace (k - i) with (S (k - S i)) by lia. exact Hn.
Qed.

(** A map over an enumeration has no duplicates when its values determine
    the index. *)
Lemma NoDup_map_enumerate {A B} (f : nat * A -> B) (ls : list A) :
  (forall k k' x x', f (k, x) = f (k', x') -> k = k') ->
  forall i, NoDup (map f (enumerate_from i ls)).
Proof.
  intros Hf; induction ls as [|y ls IH]; intros i; simpl; constructor; auto.
  intros Hin. apply in_map_iff in Hin. destruct Hin as [[k x] [E Hin]].
  apply Hf in E. apply enumerate_from_In in Hin.
  destruct Hin as [[Hlo _] _]. lia.
Qed.

Lemma loop_results_length td visit (links : list Link) (i : nat) :
  length (loop_results td visit i links) = length links.
Proof.
  unfold loop_results. now rewrite length_map, enumerate_from_length.
Qed.










(* ================================================================== *)
(** ** Steps 3 to 5: header, loop, index file *)
(* ================================================================== *)

(** What steps 3 to 5 come to: the loop left by its [catch] block, or the
    loop gone through and the two files written after it. *)
Lemma crawl_eq_general (env : Env) (links : list Link) (st : State) :
  crawl env links st
  = match halt (turndown env) (e_visit env) 0 links with
    | Some (n, e) => (Throw e, halted_loop env links n st)
    | None =>
        match e_write_index env with
        | Throw e => (Throw e, after_loop env links st)
        | Ok _ =>
            let st1 := add_file (index_path env)
                         (TextFile (indexMd (after_loop env links st)))
                         (after_loop env links st) in
            match e_write_results env with
            | Throw e => (Throw e, st1)
            | Ok _ =>
                (Ok tt,
                 log (summary_of (length links)
                        (results (after_loop env links st)))
                     (add_file (results_path env)
                        (JsonFile (results (after_loop env links st)))
                        st1))
            end
        end
    end.
Proof.
  unfold crawl.
  unfold bind at 1; unfold modify at 1.
  unfold bind at 1; unfold modify at 1.
  unfold bind at 1. rewrite crawl_loop_eq.
  destruct (halt (turndown env) (e_visit env) 0 links) as [[n e]|];
    [reflexivity|].
  fold (after_loop env links st).
  unfold bind at 1; unfold get at 1.
  unfold bind at 1; unfold write at 1; unfold bind at 1; unfold lift at 1.
  destruct (e_write_index env) as [[]|e]; [|reflexivity].
  unfold modify at 1.
  unfold bind at 1; unfold write at 1; unfold bind at 1; unfold lift at 1.
  destruct (e_write_results env) as [[]|e]; reflexivity.
Qed.

Lemma crawl_eq (env : Env) (links : list Link) (st : State) :
  no_abort (turndown env) (e_visit env) links ->
  crawl env links st
  = match e_write_index env with
    | Throw e => (Throw e, after_loop env links st)
    | Ok _ =>
        let st1 := add_file (index_path env)
                     (TextFile (indexMd (after_loop env links st)))
                     (after_loop env links st) in
        match e_write_results env with
        | Throw e => (Throw e, st1)
        | Ok _ =>
            (Ok tt,
             log (summary_of (length links)
                    (results (after_loop env links st)))
                 (add_file (results_path env)
                    (JsonFile (results (after_loop env links st))) st1))
        end
    end.
Proof.
  intros H. now rewrite crawl_eq_general, (halt_no_abort H).
Qed.


Lemma crawl_results (env : Env) (links : list Link) (st : State) :
  no_abort (turndown env) (e_visit env) links ->
  results (snd (crawl env links st))
  = loop_results (turndown env) (e_visit env) 0 links.
Proof.
  intros H. rewrite (@crawl_eq env links st H).
  destruct (e_write_index env); [destruct (e_write_results env)|];
    reflexivity.
Qed.


(** In a run the loop starts from an empty [results]: when it is over there
    are as many records as links. *)
Lemma crawl_results_count (env : Env) (links : list Link) (st : State) :
  no_abort (turndown env) (e_visit env) links ->
  length (results (snd (crawl env links st))) = length links.
Proof.
  intros H. rewrite (@crawl_results env links st H).
  apply loop_results_length.
Qed.







Lemma scenario_crawls_without_abort :
  no_abort (turndown Samples.scenario) (e_visit Samples.scenario)
           Samples.three_links.
Proof.
  intros k _. destruct k as [|[|[|k]]]; reflexivity.
Defined.




(* ================================================================== *)
(** ** Sanitised names *)
(* ================================================================== *)

Lemma collapse_dashes_Forall (P : N -> Prop) (s : jsstring) :
  Forall P s -> Forall P (collapse_dashes s).
Proof.
  induction s as [|c r IH]; intros H; [constructor|].
  inversion H as [|? ? Hc Hr]; subst.
  destruct r as [|d r']; [now constructor|].
  change (collapse_dashes (c :: d :: r'))
    with (if N.eqb c dash && N.eqb d dash then collapse_dashes (d :: r')
          else c :: collapse_dashes (d :: r')).
  destruct (N.eqb c dash && N.eqb d dash); [now apply IH|].
  constructor; [exact Hc|now apply IH].
Qed.

Lemma lower_of_kept_unit (c : N) :
  isAlnum c = true \/ c = dash ->
  name_unit (if isUpper c then (c + 32)%N else c) = true.
Proof.
  unfold name_unit, isAlnum, isLower, isUpper, isDigit, dash.
  intros [H| ->]; [|reflexivity].
  destruct (N.leb 65 c && N.leb c 90) eqn:Eu.
  - apply andb_true_iff in Eu. destruct Eu as [E1 E2].
    apply N.leb_le in E1, E2.
    assert (L1 : N.leb 97 (c + 32) = true) by (apply N.leb_le; lia).
    assert (L2 : N.leb (c + 32) 122 = true) by (apply N.leb_le; lia).
    now rewrite L1, L2.
  - rewrite orb_false_r in H.
    destruct (N.leb 48 c && N.leb c 57); simpl in *.
    + now rewrite orb_true_r.
    + now rewrite H.
Qed.

Lemma Forall_firstn_keeps {A} (P : A -> Prop) (n : nat) (l : list A) :
  Forall P l -> Forall P (firstn n l).
Proof.
  intros H. revert n. induction H as [|x l Hx _ IH]; intros [|n]; simpl;
    constructor; auto.
Qed.

(** A sanitised name has at most fifty units, each a lower-case letter, a
    digit or a dash (so lower-casing it only ever meets ASCII letters). *)
Lemma safeFilename_shape (t : jsstring) :
  length (safeFilename t) <= 50
  /\ Forall (fun c => name_unit c = true) (safeFilename t).
Proof.
  unfold safeFilename, substring0. split; [apply firstn_le_length|].
  apply Forall_firstn_keeps. unfold toLowerCase. apply Forall_map.
  eapply Forall_impl; [intros c Hc; apply lower_of_kept_unit; exact Hc|].
  apply collapse_dashes_Forall. unfold replace_non_alnum.
  apply Forall_map, Forall_forall. intros c _.
  destruct (isAlnum c) eqn:E; [now left|now right].
Qed.

(* ================================================================== *)
(** ** File names *)
(* ================================================================== *)

Lemma numbered_app (n : nat) (s ext : jsstring) :
  numbered n s ++ ext = numbered n (s ++ ext).
Proof. unfold numbered. now rewrite <- !app_assoc. Qed.

Lemma mdFilename_inj (n m : nat) (s s' : jsstring) :
  mdFilename n s = mdFilename m s' -> n = m.
Proof.
  unfold mdFilename. rewrite !numbered_app. apply numbered_inj.
Qed.

Lemma screenshotFilename_inj (n m : nat) (s s' : jsstring) :
  screenshotFilename n s = screenshotFilename m s' -> n = m.
Proof.
  unfold screenshotFilename. rewrite !numbered_app. apply numbered_inj.
Qed.

(** Sanitising may send different link texts to one name. *)
Example safeFilename_collision :
  js "Hello, World!" <> js "hello world?"
  /\ safeFilename (js "Hello, World!") = safeFilename (js "hello world?").
Proof. split; [discriminate|reflexivity]. Qed.

(** C10.  Whatever the texts of the links, the content-document names the
    loop generates are pairwise distinct, and so are the screenshot names:
    a name starts with the decimal visiting number, padded to two digits,
    followed by a dash, so two names with different numbers differ even
    when the sanitised texts that follow are the same (and a document name
    and a screenshot name of different links differ as well). *)
Theorem C10_filenames_pairwise_distinct :
  forall (links : list Link),
    NoDup (map (fun kl => mdFilename (fst kl + 1)
                            (safeFilename (text (snd kl))))
               (enumerate_from 0 links))
    /\ NoDup (map (fun kl => screenshotFilename (fst kl + 1)
                               (safeFilename (text (snd kl))))
                  (enumerate_from 0 links))
    /\ (forall i j (l l' : Link),
          mdFilename (i + 1) (safeFilename (text l))
          = screenshotFilename (j + 1) (safeFilename (text l')) -> i = j).
Proof.
  intros links. repeat split.
  - apply NoDup_map_enumerate. intros k k' x x' E; cbn [fst snd] in E.
    apply mdFilename_inj in E. lia.
  - apply NoDup_map_enumerate. intros k k' x x' E; cbn [fst snd] in E.
    apply screenshotFilename_inj in E. lia.
  - intros i j l l' E. unfold mdFilename, screenshotFilename in E.
    rewrite !numbered_app in E. apply numbered_inj in E. lia.
Qed.

(* ================================================================== *)
(** ** Shape of the records *)
(* ================================================================== *)










Section Preservation.

Variable I : State -> Prop.

Lemma preserves_ret {E A} (a : A) : preserves I (@ret E State A a).
Proof. intros st H. exact H. Qed.

Lemma preserves_lift {E A} (o : result E A) :
  preserves I (@lift E State A o).
Proof. intros st H. exact H. Qed.

Lemma preserves_throw {E A} (e : E) : preserves I (@throw E State A e).
Proof. intros st H. exact H. Qed.

Lemma preserves_get {E} : preserves I (@get E State).
Proof. intros st H. exact H. Qed.

Lemma preserves_modify {E} (f : State -> State) :
  (forall st, I st -> I (f st)) -> preserves I (@modify E State f).
Proof. intros Hf st H. now apply Hf. Qed.

Lemma preserves_bind {E A B} (m : MX E State A) (k : A -> MX E State B) :
  preserves I m -> (forall a, preserves I (k a)) ->
  preserves I (bind m k).
Proof.
  intros Hm Hk st H. unfold bind. specialize (Hm st H).
  destruct (m st) as [[a|e] st']; cbn [snd] in *; [now apply Hk|exact Hm].
Qed.

Lemma preserves_try_catch {E E' A} (m : MX E State A)
  (h : E -> MX E' State A) :
  preserves I m -> (forall e, preserves I (h e)) ->
  preserves I (try_catch m h).
Proof.
  intros Hm Hh st H. unfold try_catch. specialize (Hm st H).
  destruct (m st) as [[a|e] st']; cbn [snd] in *; [exact Hm|now apply Hh].
Qed.

Lemma preserves_try_finally {E A} (m : MX E State A)
  (f : MX E State unit) :
  preserves I m -> preserves I f -> preserves I (try_finally m f).
Proof.
  intros Hm Hf st H. unfold try_finally. specialize (Hm st H).
  destruct (m st) as [r st']; cbn [snd] in *. specialize (Hf st' Hm).
  destruct (f st') as [[u|e] st'']; exact Hf.
Qed.

End Preservation.

Ltac keep_invariant HI :=
  destruct HI as (Hvisit & Hfile & Hlog & Hlaunch & Hclose);
  repeat match goal with
         | |- preserves _ (match ?x with _ => _ end) => destruct x
         | |- preserves _ (bind _ _) => apply preserves_bind; [|intros ?]
         | |- preserves _ (try_catch _ _) =>
             apply preserves_try_catch; [|intros ?]
         | |- preserves _ (try_finally _ _) => apply preserves_try_finally
         | |- preserves _ (lift _) => apply preserves_lift
         | |- preserves _ (ret _) => apply preserves_ret
         | |- preserves _ (throw _) => apply preserves_throw
         | |- preserves _ get => apply preserves_get
         | |- preserves _ (modify (add_visit _)) =>
             apply preserves_modify, Hvisit
         | |- preserves _ (modify (add_file _ _)) =>
             apply preserves_modify, Hfile
         | |- preserves _ (modify (log _)) => apply preserves_modify, Hlog
         | |- preserves _ (modify set_launched) =>
             apply preserves_modify, Hlaunch
         | |- preserves _ (modify set_closed) =>
             apply preserves_modify, Hclose
         | H : forall links, preserves _ (crawl _ links)
           |- preserves _ (crawl _ _) => apply H
         | |- preserves _ (if launched ?st then _ else _) =>
             destruct (launched st)
         end.

(** The statements after the extraction keep every stable invariant that
    the loop keeps. *)
Lemma after_extraction_preserves (env : Env) (I : State -> Prop)
  (page : Page) (data : MainWrapperData) :
  stable I -> (forall links, preserves I (crawl env links)) ->
  preserves I (after_extraction env page data).
Proof.
  intros HI Hcrawl.
  unfold after_extraction, report_missing_container,
    after_container_check, write.
  keep_invariant HI.
Qed.









(* ================================================================== *)
(** ** Link Extractor *)
(* ================================================================== *)

Example home_three_links :
  mw_links (mainWrapperData Samples.home_three) = Some Samples.three_links.
Proof. reflexivity. Qed.

Lemma subsequence_filter {A} (f : A -> bool) (l : list A) :
  subsequence (filter f l) l.
Proof.
  induction l as [|x l IH]; simpl; [constructor|].
  destruct (f x); now constructor.
Qed.

Lemma truthy_nonempty (s : jsstring) : truthy s = true <-> s <> [].
Proof. destruct s; simpl; split; congruence. Qed.

Lemma find_none_Forall {A} (f : A -> bool) (l : list A) :
  Forall (fun x => f x = false) l -> find f l = None.
Proof.
  induction 1 as [|x l Hx _ IH]; simpl; [reflexivity|now rewrite Hx].
Qed.

(** C3, as the code has it.  The links extracted from a container are, in
    document order, the anchors with an [href] attribute whose trimmed text
    and resolved target are both non-empty: the list is a subsequence of
    the container's anchors in document order, every link in it has
    non-empty text and target, and no such anchor is left out, so that two
    anchors with the same target both stay (there is no deduplication: the
    list has as many links as the container has such anchors).  This list
    is what [mainWrapperData] returns when the container exists. *)
Theorem C3_links_in_document_order_duplicates_kept :
  forall (p : Page) (mainWrapper : node),
    let anchors := querySelectorAll mainWrapper [tagHasAttr "a" "href"] in
    let ls := extract_links p mainWrapper in
    subsequence ls (map (link_of_anchor p) anchors)
    /\ Forall (fun l => text l <> [] /\ href l <> []) ls
    /\ (forall a, In a anchors ->
          trim (textContent a) <> [] ->
          resolve_url p (reflected (js "href") a) <> [] ->
          In (link_of_anchor p a) ls)
    /\ length ls
       = length (filter (fun a => keep_link (link_of_anchor p a)) anchors)
    /\ (document_querySelector p [byId "main-wrapper"] = Some mainWrapper ->
          mw_links (mainWrapperData p) = Some ls).
Proof.
  intros p mw anchors ls. subst anchors ls. unfold extract_links.
  repeat split.
  - apply subsequence_filter.
  - apply Forall_forall. intros l Hl. apply filter_In in Hl.
    destruct Hl as [_ Hk]. unfold keep_link in Hk.
    apply andb_true_iff in Hk. destruct Hk as [Hh Ht].
    split; now apply truthy_nonempty.
  - intros a Ha Ht Hh. apply filter_In. split.
    + now apply in_map.
    + unfold keep_link, link_of_anchor; cbn [href text].
      apply andb_true_iff; split; now apply truthy_nonempty.
  - generalize (querySelectorAll mw [tagHasAttr "a" "href"]).
    induction l as [|a l IH]; simpl; [reflexivity|].
    destruct (keep_link (link_of_anchor p a)); simpl; now rewrite IH.
  - intros H. unfold mainWrapperData. now rewrite H.
Qed.

(** C3 as worded fails: on a container with two anchors to [/a], the
    extracted list holds two links with the same target. *)
Lemma C3_counterexample_duplicate_targets :
  exists ls,
    mw_links (mainWrapperData Samples.home_duplicate) = Some ls
    /\ ~ NoDup (map href ls).
Proof.
  eexists. split; [reflexivity|].
  intros H. vm_compute in H.
  inversion H as [|x l Hnotin _]. apply Hnotin. now left.
Qed.

(* ================================================================== *)
(** ** A homepage without the container *)
(* ================================================================== *)




(* ================================================================== *)
(** ** Exit status *)
(* ================================================================== *)


Lemma launched_stable : stable (fun st => launched st = true).
Proof. repeat split; intros; assumption || reflexivity. Qed.

Lemma crawl_launched (env : Env) (links : list Link) (st : State) :
  launched (snd (crawl env links st)) = launched st.
Proof.
  rewrite crawl_eq_general.
  destruct (halt (turndown env) (e_visit env) 0 links) as [[n e]|];
    [reflexivity|].
  destruct (e_write_index env); [destruct (e_write_results env)|];
    reflexivity.
Qed.

(** When the outer [try] and [catch] are over, the browser is recorded as
    launched exactly when the launch returned. *)
Lemma launched_after_try (env : Env) :
  launched (snd (try_catch (try_main env) catch_main initial))
  = is_ok (e_launch env).
Proof.
  destruct (e_launch env) as [u|e] eqn:El.
  - assert (Hrest : forall m : M unit,
               preserves (fun st => launched st = true) m ->
               launched
                 (snd (try_catch
                         (lift (Ok u) ;;; modify set_launched ;;; m)
                         catch_main initial)) = true).
    { intros m Hm.
      change (launched
                (snd (try_catch m catch_main (set_launched initial)))
              = true).
      apply (preserves_try_catch (I := fun st => launched st = true));
        [exact Hm| |reflexivity].
      intros e. apply preserves_modify. intros st H; exact H. }
    unfold try_main. rewrite El. apply Hrest.
    assert (Hafter : forall page data,
               preserves (fun st => launched st = true)
                         (after_extraction env page data)).
    { intros. apply after_extraction_preserves; [apply launched_stable|].
      intros links st H. now rewrite crawl_launched. }
    pose proof launched_stable as HI. unfold goto.
    keep_invariant HI. apply Hafter.
  - unfold try_main. rewrite El. reflexivity.
Qed.




(** The other script, on a navigation that fails: the error is logged
    twice, the browser is closed, and the process exits with status 1. *)
Example enhanced_exits_with_status_one :
  Enhanced.exit_status Samples.enhanced_unreachable = 1
  /\ Enhanced.console (snd (Enhanced.run Samples.enhanced_unreachable))
     = [Enhanced.ErrorOccurred (js "net::ERR_NAME_NOT_RESOLVED");
        Enhanced.ScriptFailed (js "net::ERR_NAME_NOT_RESOLVED")]
  /\ Enhanced.closed (snd (Enhanced.run Samples.enhanced_unreachable))
     = true.
Proof. repeat split. Qed.



(* ================================================================== *)
(** ** Index Writer *)
(* ================================================================== *)

Lemma flat_map_map {A B C} (h : A -> B) (f : B -> list C) (l : list A) :
  flat_map f (map h l) = flat_map (fun x => f (h x)) l.
Proof. induction l as [|x l IH]; simpl; [reflexivity|now rewrite IH]. Qed.

(** The entries the loop appends are those the index shows: the entry of a
    success depends on the page's url, title and meta description only,
    and the entries end where the [catch] block threw. *)
Lemma index_entries_loop td visit (links : list Link) :
  forall i,
    index_entries (i + 1)
      (map (fun kl => (snd kl, shown_of (attempt td (visit (fst kl)))))
           (enumerate_from i links))
    = loop_entries td visit i
        (match halt td visit i links with
         | Some (n, _) => firstn n links
         | None => links
         end).
Proof.
  induction links as [|l rest IH]; intros i; [reflexivity|].
  cbn [enumerate_from map fst snd halt index_entries].
  unfold aborts, shown_of.
  destruct (attempt td (visit i)) as [pd|error] eqn:Ea.
  - change (S (i + 1)) with (S i + 1). rewrite IH.
    destruct (halt td visit (S i) rest) as [[n e]|]; cbn [firstn];
      rewrite loop_entries_cons, Ea; reflexivity.
  - destruct (read_message error) as [msg|e] eqn:Em; [|reflexivity].
    change (S (i + 1)) with (S i + 1). rewrite IH.
    destruct (halt td visit (S i) rest) as [[n e]|]; cbn [firstn];
      rewrite loop_entries_cons, Ea; unfold entry_of, message_of;
      now rewrite Em.
Qed.

Lemma crawl_index_text (env : Env) (links : list Link) (st : State) :
  indexMd (snd (crawl env links st))
  = index_writer (clock_index env)
      (index_items (turndown env) (e_visit env) links).
Proof.
  unfold index_writer, index_items.
  rewrite length_map, enumerate_from_length.
  pose proof (index_entries_loop (turndown env) (e_visit env) links 0)
    as H.
  change (0 + 1) with 1 in H. rewrite H. clear H.
  rewrite crawl_eq_general.
  destruct (halt (turndown env) (e_visit env) 0 links) as [[n e]|];
    [reflexivity|].
  destruct (e_write_index env); [destruct (e_write_results env)|];
    reflexivity.
Qed.

(** C4, as the code has it.  The index text that steps 3 to 5 produce is a
    function of the clock reading taken for its Date line and of the links
    in visiting order with what the index shows of each visit: the url,
    the title and the meta description of the page of a success (the file
    names follow from the link's text and number), what the [message]
    property of the thrown value read for a failure, or that the [catch]
    block threw, where the text ends.  Two runs that agree on these
    produce the same text, unit for unit, whatever else differs. *)
Theorem C4_index_text_determined_by_clock_and_outcomes :
  forall (env : Env) (links : list Link) (st : State),
    indexMd (snd (crawl env links st))
    = index_writer (clock_index env)
        (index_items (turndown env) (e_visit env) links)
    /\ forall (env' : Env) (st' : State),
         clock_index env' = clock_index env ->
         index_items (turndown env') (e_visit env') links
         = index_items (turndown env) (e_visit env) links ->
         indexMd (snd (crawl env' links st'))
         = indexMd (snd (crawl env links st)).
Proof.
  intros env links st. split; [apply crawl_index_text|].
  intros env' st' Hclock Hitems.
  now rewrite !crawl_index_text, Hclock, Hitems.
Qed.

(** The scenario run on a first page with other headings and paragraphs
    under the same title: the index shows the same of every visit, and the
    index text is the same. *)
Lemma C4_index_text_determined_by_clock_and_outcomes_witness :
  e_visit Samples.scenario_reworded 0 <> e_visit Samples.scenario 0
  /\ indexMd (snd (crawl Samples.scenario_reworded Samples.three_links
                         initial))
     = indexMd (snd (crawl Samples.scenario Samples.three_links initial)).
Proof.
  split; [discriminate|].
  destruct (@C4_index_text_determined_by_clock_and_outcomes
              Samples.scenario Samples.three_links initial) as (_ & Hsame).
  apply Hsame; reflexivity.
Defined.

(** C4 as worded fails: the scenario run twice, the second time later in
    the day, yields the same list of records and two different index
    texts (the Date lines differ); and run at the same time on a first
    page that has another title, it yields the same list of records again
    and a third index text (the Title lines differ). *)
Lemma C4_counterexample_same_results_other_index :
  (results (snd (run Samples.scenario))
   = results (snd (run Samples.scenario_later))
   /\ indexMd (snd (run Samples.scenario))
      <> indexMd (snd (run Samples.scenario_later)))
  /\ (results (snd (run Samples.scenario))
      = results (snd (run Samples.scenario_retitled))
      /\ clock_index Samples.scenario
         = clock_index Samples.scenario_retitled
      /\ indexMd (snd (run Samples.scenario))
         <> indexMd (snd (run Samples.scenario_retitled))).
Proof.
  split; [split|split; [|split]]; try (vm_compute; reflexivity).
  - intros H. apply (f_equal (fun s => nth_error s 50)) in H.
    vm_compute in H. discriminate H.
  - intros H. apply (f_equal (@length N)) in H.
    vm_compute in H. discriminate H.
Qed.

(* ================================================================== *)
(** ** Files left by a failed visit *)
(* ================================================================== *)

(** C7 at a failing input: one link, whose navigation and screenshot
    succeed and whose content extraction is rejected.  The link is recorded
    as a failure, its screenshot is on disk all the same, and the summary
    the script prints counts no screenshot. *)
Theorem C7_failed_link_leaves_screenshot :
  map success (results (snd (run Samples.env_extraction_fails))) = [false]
  /\ map fst (files (snd (run Samples.env_extraction_fails)))
     = [js "first-section-crawl/2025-07-14/main-wrapper.html";
        js "first-section-crawl/2025-07-14/images/01-a.png";
        js "first-section-crawl/2025-07-14/INDEX.md";
        js "first-section-crawl/2025-07-14/results.json"]
  /\ In (Summary 1 0 1 0 0) (console (snd (run Samples.env_extraction_fails))).
Proof.
  split; [reflexivity|]. split; [reflexivity|]. vm_compute. auto.
Qed.

(** The content documents, for their part, are exactly those of the
    successful links: a visit writes its document if and only if it is
    recorded as a success. *)
Lemma document_written_iff_success td odir (v : Visit) (l : Link)
  (n : nat) :
  document_of td odir v l n = []
  <-> success (result_of l n (attempt td v)) = false.
Proof.
  unfold document_of. destruct (attempt td v) as [pd|e] eqn:E; simpl.
  - unfold attempt in E.
    destruct (v_goto v); [|discriminate].
    destruct (v_scroll v); [|discriminate].
    destruct (v_screenshot v); [|discriminate].
    destruct (v_evaluate v) as [p|]; [|discriminate].
    destruct (evaluate_pageData p) as [pd'|]; [|discriminate].
    destruct (td (pd_mainContent pd')) eqn:Etd; [|discriminate].
    destruct (v_writeFile v); [|discriminate].
    injection E as <-. rewrite Etd. split; discriminate.
  - split; reflexivity.
Qed.

(* ================================================================== *)
(** ** Content Renderer: the content region *)
(* ================================================================== *)

(** Induction over the tree of a document. *)
Lemma node_induction (P : node -> Prop) :
  (forall d, P (Text d)) ->
  (forall d, P (Comment d)) ->
  (forall t a cs, Forall P cs -> P (Elem t a cs)) ->
  forall n, P n.
Proof.
  intros Ht Hc He. fix IH 1. intros [d|d|t a cs].
  - apply Ht.
  - apply Hc.
  - apply He. induction cs as [|c cs IHcs]; constructor.
    + apply IH.
    + apply IHcs.
Qed.

(** Whether an element matches depends on its tag and attributes only. *)
Lemma matches_any_children (g : list selector) t a (cs cs' : list node) :
  matches_any g (Elem t a cs) = matches_any g (Elem t a cs').
Proof. reflexivity. Qed.

Lemma Forall_flat_map {A B} (P : B -> Prop) (f : A -> list B)
  (l : list A) :
  Forall (fun x => Forall P (f x)) l -> Forall P (flat_map f l).
Proof.
  induction 1 as [|x l Hx _ IH]; simpl; [constructor|].
  apply Forall_app; now split.
Qed.

Lemma flat_map_flat_map {A B C} (f : B -> list C) (g : A -> list B)
  (l : list A) :
  flat_map f (flat_map g l) = flat_map (fun x => flat_map f (g x)) l.
Proof.
  induction l as [|x l IH]; simpl; [reflexivity|].
  now rewrite flat_map_app, IH.
Qed.

(** Nothing that matches is left in what the removal pass keeps. *)
Lemma remove_matching_clean (g : list selector) (n : node) :
  Forall (fun m => matches_any g m = false)
         (flat_map subtree (remove_matching g n)).
Proof.
  induction n as [d|d|t a cs IH] using node_induction;
    try (simpl; constructor).
  cbn [remove_matching].
  destruct (matches_any g (Elem t a cs)) eqn:E; [constructor|].
  cbn [flat_map subtree]. rewrite app_nil_r. constructor.
  - now rewrite (matches_any_children g t a _ cs).
  - rewrite flat_map_flat_map. apply Forall_flat_map. exact IH.
Qed.

Lemma stripped_body_clean (body : node) :
  Forall (fun m => matches_any strip_selectors m = false)
         (flat_map subtree (stripped_body body)).
Proof.
  unfold stripped_body. rewrite flat_map_flat_map.
  apply Forall_flat_map, Forall_forall. intros c _.
  apply remove_matching_clean.
Qed.

Lemma find_first_match {A} (f : A -> bool) (l : list A) :
  first_match f l (find f l).
Proof.
  induction l as [|x l IH]; simpl.
  - apply no_match. constructor.
  - destruct (f x) eqn:E.
    + apply match_at with (pre := []) (post := l);
        [reflexivity|constructor|exact E].
    + inversion IH as [Hall Hnone|pre y post Hl Hpre Hy Hsome].
      * apply no_match. now constructor.
      * apply match_at with (pre := x :: pre) (post := post);
          [now rewrite Hl|now constructor|exact Hy].
Qed.

(** The selector loop of the deep-dive script stops at the first selector
    of its list that matches anything. *)
Lemma first_selector_match_spec (p : Page) (sels : list selector) :
  match DeepDive.first_selector_match p sels with
  | Some (s, el) =>
      exists pre post,
        sels = pre ++ s :: post
        /\ Forall (fun s' => document_querySelector p [s'] = None) pre
        /\ document_querySelector p [s] = Some el
  | None => Forall (fun s' => document_querySelector p [s'] = None) sels
  end.
Proof.
  induction sels as [|s sels IH]; simpl; [constructor|].
  destruct (document_querySelector p [s]) as [el|] eqn:E.
  - exists [], sels. repeat split; [constructor|exact E].
  - destruct (DeepDive.first_selector_match p sels) as [[s' el]|].
    + destruct IH as (pre & post & -> & Hpre & Hs).
      exists (s :: pre), post. repeat split; [now constructor|exact Hs].
    + now constructor.
Qed.

(** C6, as the code has it.  The crawler takes as content region the first
    element of the document, in document order, that matches any of [main],
    [article], [.content], [.main], [#content], and reads its inner HTML
    from the document itself; when no element matches, or when the match
    is empty, it falls back to the inner HTML of the cloned body, from
    which every [script], [style], [nav], [header], [footer], [.nav],
    [.menu] and [.sidebar] element has been removed.  It is the selector
    loop of the deep-dive script that goes by precedence: it yields the
    first selector of its list that matches anything, with that selector's
    first match, and nothing when none matches. *)
Theorem C6_content_region_selection :
  forall (p : Page) (body : node),
    (exists r,
        first_match (matches_any content_selectors)
                    (subtree (documentElement p)) r
        /\ mainContent p body
           = match r with
             | Some el => if html_truthy (innerHTML el) then innerHTML el
                          else stripped_body body
             | None => stripped_body body
             end)
    /\ Forall (fun m => matches_any strip_selectors m = false)
              (flat_map subtree (stripped_body body))
    /\ match DeepDive.structuredContent_mainContent p with
       | Some (s, el) =>
           exists pre post,
             DeepDive.mainSelectors = pre ++ s :: post
             /\ Forall (fun s' => document_querySelector p [s'] = None) pre
             /\ document_querySelector p [s] = Some el
       | None =>
           Forall (fun s' => document_querySelector p [s'] = None)
                  DeepDive.mainSelectors
       end.
Proof.
  intros p body. split; [|split].
  - exists (document_querySelector p content_selectors). split.
    + apply find_first_match.
    + reflexivity.
  - apply stripped_body_clean.
  - apply first_selector_match_spec.
Qed.

(** C6 as worded fails: on a page whose [article] stands before its [main],
    the crawler takes the content of the [article], where selection by
    precedence on the stripped copy takes that of [main], without its
    [script]. *)
Lemma C6_counterexample_document_order_wins :
  exists body,
    document_body Samples.article_before_main = Some body
    /\ mainContent Samples.article_before_main body
       = [Samples.el "h2" [] [Samples.txt "Teaser"]]
    /\ Spec.mainContent_by_precedence body
       = [Samples.el "h1" [] [Samples.txt "Idea A"];
          Samples.el "p" [] [Samples.txt "A long enough paragraph of text."]]
    /\ mainContent Samples.article_before_main body
       <> Spec.mainContent_by_precedence body.
Proof.
  eexists. split; [reflexivity|]. split; [reflexivity|].
  split; [reflexivity|]. discriminate.
Qed.

(* ================================================================== *)
(** ** The scenario of the specification *)
(* ================================================================== *)

(** The homepage exposes [A -> /a], [B -> /b], [C -> /c] and the fetch of
    [/b] times out: three records, [/a] and [/c] successes with their
    documents, [/b] a failure with the timeout message, all three visited
    in order, and the run ends normally. *)
Example scenario_of_the_specification :
  fst (run Samples.scenario) = Ok tt
  /\ map success (results (snd (run Samples.scenario)))
     = [true; false; true]
  /\ map link (results (snd (run Samples.scenario)))
     = [js "A"; js "B"; js "C"]
  /\ map filename (results (snd (run Samples.scenario)))
     = [Some (js "01-a.md"); None; Some (js "03-c.md")]
  /\ map error (results (snd (run Samples.scenario)))
     = [None; Some (js "Navigation timeout of 30000 ms exceeded"); None]
  /\ visited (snd (run Samples.scenario))
     = [homepage; Samples.site (js "/a"); Samples.site (js "/b");
        Samples.site (js "/c")].
Proof. vm_compute. repeat split. Qed.

(* ================================================================== *)
(** ** The scrolling loop *)
(* ================================================================== *)

Lemma scroll_from_resolves (d : nat) (h : nat -> nat) (H : nat) :
  (forall k, h k <= H) ->
  forall fuel k,
    0 < fuel -> H <= (k + fuel) * d ->
    exists n,
      Scroll.scroll_from d h fuel k (k * d) = Some (n, n * d)
      /\ k < n <= k + fuel
      /\ h (n - 1) <= n * d
      /\ forall j, k <= j -> j < n - 1 -> (j + 1) * d < h j.
Proof.
  intros Hh. induction fuel as [|fuel IH]; intros k Hfuel Hcover; [lia|].
  cbn [Scroll.scroll_from].
  replace (k * d + d) with (S k * d) by lia.
  destruct (h k <=? S k * d) eqn:E.
  - apply Nat.leb_le in E. exists (S k). repeat split; try lia.
    now replace (S k - 1) with k by lia.
  - apply Nat.leb_gt in E. specialize (Hh k).
    assert (Hf : 0 < fuel) by nia.
    destruct (IH (S k) Hf) as (n & Hn & Hrange & Hlast & Hmin); [nia|].
    exists n. repeat split; try lia; try assumption.
    intros j Hj Hjn. destruct (Nat.eq_dec j k) as [->|Hne].
    + now replace (k + 1) with (S k) by lia.
    + apply Hmin; lia.
Qed.

Lemma scroll_from_more_fuel (d : nat) (h : nat -> nat) (r : nat * nat) :
  forall fuel k total extra,
    Scroll.scroll_from d h fuel k total = Some r ->
    Scroll.scroll_from d h (fuel + extra) k total = Some r.
Proof.
  induction fuel as [|fuel IH]; intros k total extra; [discriminate|].
  cbn [Scroll.scroll_from Nat.add].
  destruct (h k <=? total + d); [trivial|apply IH].
Qed.

(** On a page whose height never exceeds [H], the scrolling promise of the
    scripts resolves: given at least one timer call and enough of them to
    cover [H], it resolves after [n] calls having scrolled [n * distance],
    where [n] is the first call at which the distance scrolled reaches the
    height read; [n] is 1 or satisfies [(n - 1) * distance < H], and more
    timer calls change nothing. *)
Theorem scroll_resolves_on_bounded_page :
  forall (distance : nat) (scrollHeight : nat -> nat) (H fuel : nat),
    (forall k, scrollHeight k <= H) ->
    0 < fuel ->
    H <= fuel * distance ->
    exists n,
      Scroll.scroll distance scrollHeight fuel = Some (n, n * distance)
      /\ 1 <= n <= fuel
      /\ scrollHeight (n - 1) <= n * distance
      /\ (forall j, j < n - 1 -> (j + 1) * distance < scrollHeight j)
      /\ (n = 1 \/ (n - 1) * distance < H)
      /\ forall extra,
           Scroll.scroll distance scrollHeight (fuel + extra)
           = Some (n, n * distance).
Proof.
  intros d h H fuel Hh Hfuel Hcover.
  destruct (@scroll_from_resolves d h H Hh fuel 0 Hfuel)
    as (n & Hn & Hrange & Hlast & Hmin); [simpl; lia|].
  exists n. unfold Scroll.scroll. simpl in Hn.
  split; [exact Hn|]. split; [lia|]. split; [exact Hlast|].
  split; [intros j Hj; apply Hmin; lia|]. split.
  - destruct (Nat.eq_dec n 1) as [->|Hne]; [now left|right].
    assert (Hprev : (n - 2 + 1) * d < h (n - 2)) by (apply Hmin; lia).
    specialize (Hh (n - 2)). replace (n - 2 + 1) with (n - 1) in Hprev by lia.
    lia.
  - intros extra. now apply scroll_from_more_fuel.
Qed.

(** The crawler's loop on a page that grows from 1000 to 1500 pixels while
    it is scrolled: eight calls of 200 pixels. *)
Lemma scroll_resolves_on_bounded_page_witness :
  exists n,
    Scroll.scroll Scroll.crawler_distance MoreSamples.growing_page 8
    = Some (n, n * Scroll.crawler_distance)
    /\ 1 <= n <= 8
    /\ MoreSamples.growing_page (n - 1) <= n * Scroll.crawler_distance
    /\ (forall j, j < n - 1 ->
          (j + 1) * Scroll.crawler_distance < MoreSamples.growing_page j)
    /\ (n = 1 \/ (n - 1) * Scroll.crawler_distance < 1500)
    /\ forall extra,
         Scroll.scroll Scroll.crawler_distance MoreSamples.growing_page
                       (8 + extra)
         = Some (n, n * Scroll.crawler_distance).
Proof.
  apply (@scroll_resolves_on_bounded_page Scroll.crawler_distance
           MoreSamples.growing_page 1500 8).
  - intros k. unfold MoreSamples.growing_page.
    destruct (Nat.ltb k 2); lia.
  - lia.
  - unfold Scroll.crawler_distance. lia.
Defined.

Lemma scroll_from_pending (d : nat) (h : nat -> nat) :
  (forall k, (k + 1) * d < h k) ->
  forall fuel k, Scroll.scroll_from d h fuel k (k * d) = None.
Proof.
  intros Hh. induction fuel as [|fuel IH]; intros k; [reflexivity|].
  cbn [Scroll.scroll_from].
  replace (k * d + d) with (S k * d) by lia.
  specialize (Hh k). replace (k + 1) with (S k) in Hh by lia.
  destruct (h k <=? S k * d) eqn:E; [apply Nat.leb_le in E; lia|].
  apply IH.
Qed.

(** On a page that keeps growing ahead of the scrolling (an endless feed
    that loads more each time its end comes near), the scrolling promise
    never resolves, however many timer calls are made. *)
Theorem scroll_pending_on_growing_page :
  forall (distance : nat) (scrollHeight : nat -> nat),
    (forall k, (k + 1) * distance < scrollHeight k) ->
    forall fuel, Scroll.scroll distance scrollHeight fuel = None.
Proof.
  intros d h Hh fuel. unfold Scroll.scroll.
  apply (@scroll_from_pending d h Hh fuel 0).
Qed.

(** A feed that is always one pixel more than a screenful ahead. *)
Lemma scroll_pending_on_growing_page_witness :
  Scroll.scroll Scroll.autoScroll_distance
                (fun k => (k + 1) * Scroll.autoScroll_distance + 1) 600
  = None.
Proof.
  apply (@scroll_pending_on_growing_page Scroll.autoScroll_distance
           (fun k => (k + 1) * Scroll.autoScroll_distance + 1)).
  intros k. lia.
Defined.

(* ================================================================== *)
(** ** Sanitised names, again *)
(* ================================================================== *)

Lemma collapse_dashes_head (r : jsstring) :
  forall c, exists t, collapse_dashes (c :: r) = c :: t.
Proof.
  induction r as [|d r IH]; intros c; [now exists []|].
  change (collapse_dashes (c :: d :: r))
    with (if N.eqb c dash && N.eqb d dash then collapse_dashes (d :: r)
          else c :: collapse_dashes (d :: r)).
  destruct (N.eqb c dash && N.eqb d dash) eqn:E.
  - apply andb_true_iff in E. destruct E as [Ec Ed].
    apply N.eqb_eq in Ec, Ed. subst. apply IH.
  - eexists. reflexivity.
Qed.

Lemma collapse_dashes_no_double (s : jsstring) :
  MoreProps.no_double_dash (collapse_dashes s).
Proof.
  induction s as [|c r IH]; [exact I|].
  destruct r as [|d r']; [exact I|].
  change (collapse_dashes (c :: d :: r'))
    with (if N.eqb c dash && N.eqb d dash then collapse_dashes (d :: r')
          else c :: collapse_dashes (d :: r')).
  destruct (N.eqb c dash && N.eqb d dash) eqn:E; [exact IH|].
  destruct (collapse_dashes_head r' d) as [t Ht]. rewrite Ht in *.
  split; [|exact IH].
  intros -> ->. now rewrite N.eqb_refl in E.
Qed.

Lemma no_double_dash_map (f : N -> N) (s : jsstring) :
  (forall c, f c = dash -> c = dash) ->
  MoreProps.no_double_dash s -> MoreProps.no_double_dash (map f s).
Proof.
  intros Hf. induction s as [|c r IH]; [trivial|].
  destruct r as [|d r']; [trivial|].
  intros [Hcd Hr]. split; [|now apply IH].
  intros Hc Hd. apply Hf in Hc, Hd. now apply Hcd.
Qed.

Lemma no_double_dash_firstn (s : jsstring) :
  forall k, MoreProps.no_double_dash s ->
            MoreProps.no_double_dash (firstn k s).
Proof.
  induction s as [|c r IH]; intros k H; [now destruct k|].
  destruct k as [|k]; [exact I|].
  destruct r as [|d r']; [now destruct k|].
  destruct H as [Hcd Hr]. destruct k as [|k]; [exact I|].
  split; [exact Hcd|]. apply (IH (S k) Hr).
Qed.

Lemma lower_reflects_dash (c : N) :
  (if isUpper c then (c + 32)%N else c) = dash -> c = dash.
Proof.
  unfold isUpper, dash. destruct (N.leb 65 c && N.leb c 90) eqn:E; [|trivial].
  apply andb_true_iff in E. destruct E as [E1 _]. apply N.leb_le in E1. lia.
Qed.

(** A sanitised link text has at most fifty units, each a lower-case
    letter, a digit or a dash, and no two dashes in a row: whatever the
    link text, it is a safe base name for a file. *)
Theorem safeFilename_sanitised :
  forall (link_text : jsstring),
    length (safeFilename link_text) <= 50
    /\ Forall (fun c => name_unit c = true) (safeFilename link_text)
    /\ MoreProps.no_double_dash (safeFilename link_text).
Proof.
  intros t. destruct (safeFilename_shape t) as [Hlen Hunits].
  split; [exact Hlen|]. split; [exact Hunits|].
  unfold safeFilename, substring0, toLowerCase.
  apply no_double_dash_firstn, no_double_dash_map;
    [exact lower_reflects_dash|apply collapse_dashes_no_double].
Qed.

Lemma name_unit_cases (c : N) :
  name_unit c = true ->
  (97 <= c <= 122)%N \/ (48 <= c <= 57)%N \/ c = dash.
Proof.
  unfold name_unit, isLower, isDigit. intros H.
  apply orb_true_iff in H. destruct H as [H|H];
    [apply orb_true_iff in H; destruct H as [H|H]|].
  - apply andb_true_iff in H. destruct H as [H1 H2].
    apply N.leb_le in H1, H2. now left.
  - apply andb_true_iff in H. destruct H as [H1 H2].
    apply N.leb_le in H1, H2. right; now left.
  - apply N.eqb_eq in H. right; now right.
Qed.

Lemma name_unit_kept (c : N) :
  name_unit c = true -> (if isAlnum c then c else dash) = c.
Proof.
  intros H. destruct (isAlnum c) eqn:E; [reflexivity|].
  apply name_unit_cases in H. destruct H as [H|[H|H]]; [| |now subst].
  - unfold isAlnum, isLower in E.
    assert (L : N.leb 97 c && N.leb c 122 = true)
      by (apply andb_true_iff; split; apply N.leb_le; lia).
    rewrite L in E. now rewrite !orb_true_r in E.
  - unfold isAlnum, isDigit in E.
    assert (L : N.leb 48 c && N.leb c 57 = true)
      by (apply andb_true_iff; split; apply N.leb_le; lia).
    now rewrite L in E.
Qed.

Lemma name_unit_lower (c : N) :
  name_unit c = true -> (if isUpper c then (c + 32)%N else c) = c.
Proof.
  intros H. destruct (isUpper c) eqn:E; [|reflexivity].
  unfold isUpper in E. apply andb_true_iff in E. destruct E as [E1 E2].
  apply N.leb_le in E1, E2.
  apply name_unit_cases in H. unfold dash in H. lia.
Qed.

Lemma map_id_on {A} (f : A -> A) (l : list A) :
  Forall (fun x => f x = x) l -> map f l = l.
Proof. induction 1 as [|x l Hx _ IH]; simpl; congruence. Qed.

Lemma collapse_dashes_id (s : jsstring) :
  MoreProps.no_double_dash s -> collapse_dashes s = s.
Proof.
  induction s as [|c r IH]; [reflexivity|].
  destruct r as [|d r']; [reflexivity|]. intros [Hcd Hr].
  change (collapse_dashes (c :: d :: r'))
    with (if N.eqb c dash && N.eqb d dash then collapse_dashes (d :: r')
          else c :: collapse_dashes (d :: r')).
  destruct (N.eqb c dash && N.eqb d dash) eqn:E.
  - apply andb_true_iff in E. destruct E as [Ec Ed].
    apply N.eqb_eq in Ec, Ed. now elim (Hcd Ec).
  - now rewrite (IH Hr).
Qed.

(** Sanitising is idempotent: a name that is already sanitised is left as
    it is. *)
Theorem safeFilename_idempotent :
  forall (link_text : jsstring),
    safeFilename (safeFilename link_text) = safeFilename link_text.
Proof.
  intros t. destruct (safeFilename_shape t) as [Hlen Hunits].
  assert (Hdd : MoreProps.no_double_dash (safeFilename t)).
  { unfold safeFilename, substring0, toLowerCase.
    apply no_double_dash_firstn, no_double_dash_map;
      [exact lower_reflects_dash|apply collapse_dashes_no_double]. }
  generalize dependent (safeFilename t). intros s Hlen Hunits Hdd.
  unfold safeFilename, substring0, toLowerCase, replace_non_alnum.
  rewrite (map_id_on (fun c => if isAlnum c then c else dash)).
  - rewrite (collapse_dashes_id s Hdd).
    rewrite (map_id_on (fun c => if isUpper c then (c + 32)%N else c)).
    + now apply firstn_all2.
    + eapply Forall_impl; [|exact Hunits]. apply name_unit_lower.
  - eapply Forall_impl; [|exact Hunits]. apply name_unit_kept.
Qed.

Lemma filename_unit_of_name_unit (c : N) :
  name_unit c = true -> MoreProps.filename_unit c = true.
Proof. unfold MoreProps.filename_unit. now intros ->. Qed.

Lemma numbered_units (n : nat) (t : jsstring) :
  Forall (fun c => MoreProps.filename_unit c = true)
         (numbered n (safeFilename t)).
Proof.
  unfold numbered. apply Forall_app; split; [|apply Forall_app; split].
  - eapply Forall_impl; [|apply padStart0_digits, String_of_nat_digits].
    intros c Hc. unfold MoreProps.filename_unit, name_unit.
    now rewrite Hc, orb_true_r.
  - now repeat constructor.
  - eapply Forall_impl; [|apply safeFilename_shape].
    apply filename_unit_of_name_unit.
Qed.

(** The names of the files written for a link are made of lower-case
    letters, digits, dashes and dots only, whatever the link text: they
    hold no path separator, so each file stays in the directory it is
    joined to. *)
Theorem generated_names_hold_no_separator :
  forall (linkNum : nat) (link_text : jsstring),
    Forall (fun c => MoreProps.filename_unit c = true)
           (mdFilename linkNum (safeFilename link_text))
    /\ Forall (fun c => MoreProps.filename_unit c = true)
              (screenshotFilename linkNum (safeFilename link_text))
    /\ ~ In 47%N (mdFilename linkNum (safeFilename link_text))
    /\ ~ In 47%N (screenshotFilename linkNum (safeFilename link_text)).
Proof.
  intros n t.
  assert (Hmd : Forall (fun c => MoreProps.filename_unit c = true)
                       (mdFilename n (safeFilename t))).
  { unfold mdFilename. apply Forall_app. split; [apply numbered_units|].
    now repeat constructor. }
  assert (Hpng : Forall (fun c => MoreProps.filename_unit c = true)
                        (screenshotFilename n (safeFilename t))).
  { unfold screenshotFilename. apply Forall_app.
    split; [apply numbered_units|]. now repeat constructor. }
  repeat split; try assumption; intros Hin;
    [eapply Forall_forall in Hmd|eapply Forall_forall in Hpng];
    try exact Hin; discriminate.
Qed.

(* ================================================================== *)
(** ** The output directory *)
(* ================================================================== *)

Lemma split_head_app (sep : N) (d r : jsstring) :
  Forall (fun c => c <> sep) d -> split_head sep (d ++ sep :: r) = d.
Proof.
  induction 1 as [|c d Hc _ IH]; simpl.
  - now rewrite N.eqb_refl.
  - apply N.eqb_neq in Hc. now rewrite Hc, IH.
Qed.

Lemma replace_colon_dot_id (d : jsstring) :
  Forall (fun c => c <> 58%N /\ c <> 46%N) d -> replace_colon_dot d = d.
Proof.
  intros H. unfold replace_colon_dot. apply map_id_on.
  eapply Forall_impl; [|exact H]. intros c [H1 H2].
  apply N.eqb_neq in H1, H2. now rewrite H1, H2.
Qed.

(** When the clock reads an ISO date, the letter [T] and a time, the
    output directory is [first-section-crawl/] followed by the date alone,
    and the images go to its [images] subdirectory: the time of day plays
    no part, so two runs of the same day write to the same directory. *)
Theorem outputDir_is_named_after_the_date :
  forall (env : Env) (date time : jsstring),
    clock_dir env = date ++ 84%N :: time ->
    Forall (fun c => c <> 84%N /\ c <> 58%N /\ c <> 46%N) date ->
    timestamp env = date
    /\ outputDir env = js "first-section-crawl/" ++ date
    /\ imagesDir env = js "first-section-crawl/" ++ date ++ js "/images".
Proof.
  intros env date time Hclock Hdate.
  assert (Ht : timestamp env = date).
  { unfold timestamp. rewrite Hclock. unfold replace_colon_dot.
    rewrite map_app. cbn [map]. change (N.eqb 84 58 || N.eqb 84 46) with false.
    cbv iota. fold (replace_colon_dot date) (replace_colon_dot time).
    rewrite replace_colon_dot_id
      by (eapply Forall_impl; [|exact Hdate];
          intros c (H1 & H2 & H3); now split).
    apply split_head_app. eapply Forall_impl; [|exact Hdate].
    now intros c (H1 & H2 & H3). }
  unfold imagesDir, outputDir, path_join. rewrite Ht.
  split; [reflexivity|]. split; [reflexivity|].
  now rewrite <- !app_assoc.
Qed.

(** The scenario starts on 14 July 2025 at 08:30 UTC. *)
Lemma outputDir_is_named_after_the_date_witness :
  timestamp Samples.scenario = js "2025-07-14"
  /\ outputDir Samples.scenario = js "first-section-crawl/" ++ js "2025-07-14"
  /\ imagesDir Samples.scenario
     = js "first-section-crawl/" ++ js "2025-07-14" ++ js "/images".
Proof.
  apply (@outputDir_is_named_after_the_date Samples.scenario
           (js "2025-07-14") (js "08:30:00.000Z")).
  - reflexivity.
  - repeat constructor; discriminate.
Defined.

(* ================================================================== *)
(** ** Trimmed texts and titles of the links *)
(* ================================================================== *)

Lemma trimStart_split (s : jsstring) :
  exists w, s = w ++ trimStart s
            /\ Forall (fun c => isWhiteSpace c = true) w.
Proof.
  induction s as [|c r IH]; [now exists []|].
  cbn [trimStart]. destruct (isWhiteSpace c) eqn:E.
  - destruct IH as (w & Hr & Hw). exists (c :: w). split.
    + simpl. now rewrite <- Hr.
    + now constructor.
  - now exists [].
Qed.

Lemma trimStart_head (s : jsstring) :
  match trimStart s with
  | [] => True
  | c :: _ => isWhiteSpace c = false
  end.
Proof.
  induction s as [|c r IH]; [exact I|].
  cbn [trimStart]. destruct (isWhiteSpace c) eqn:E; [exact IH|exact E].
Qed.

Lemma trimEnd_split (s : jsstring) :
  exists w, s = trimEnd s ++ w
            /\ Forall (fun c => isWhiteSpace c = true) w.
Proof.
  unfold trimEnd. destruct (trimStart_split (rev s)) as (w & Hs & Hw).
  exists (rev w). split.
  - rewrite <- rev_app_distr, <- Hs. now rewrite rev_involutive.
  - now apply Forall_rev.
Qed.

(** [trim] removes white space at both ends and nothing else. *)
Lemma trim_spec (s : jsstring) :
  MoreProps.no_outer_space (trim s)
  /\ exists before after,
       s = before ++ trim s ++ after
       /\ Forall (fun c => isWhiteSpace c = true) before
       /\ Forall (fun c => isWhiteSpace c = true) after.
Proof.
  destruct (trimStart_split s) as (before & Hs & Hb).
  destruct (trimEnd_split (trimStart s)) as (after & Hu & Ha).
  fold (trim s) in Hu. split; [split|].
  - pose proof (trimStart_head s) as Hh. rewrite Hu in Hh.
    destruct (trim s) as [|c t]; [exact I|exact Hh].
  - unfold trim, trimEnd. rewrite rev_involutive. apply trimStart_head.
  - exists before, after. split; [|split]; try assumption.
    now rewrite <- Hu.
Qed.

(** Every link the extractor returns carries the text of one of the
    container's anchors with the white space at its two ends removed (it
    neither starts nor ends with white space, and only white space was
    dropped), and a non-empty title: the anchor's [title] attribute when
    it has a non-empty one, the trimmed text otherwise. *)
Theorem extracted_links_are_trimmed_and_titled :
  forall (p : Page) (mainWrapper : node),
    Forall
      (fun l =>
         MoreProps.no_outer_space (text l)
         /\ title l <> []
         /\ exists a,
              In a (querySelectorAll mainWrapper [tagHasAttr "a" "href"])
              /\ (exists before after,
                    textContent a = before ++ text l ++ after
                    /\ Forall (fun c => isWhiteSpace c = true) before
                    /\ Forall (fun c => isWhiteSpace c = true) after)
              /\ title l
                 = (if truthy (reflected (js "title") a)
                    then reflected (js "title") a else text l))
      (extract_links p mainWrapper).
Proof.
  intros p mw. apply Forall_forall. intros l Hl.
  unfold extract_links in Hl. apply filter_In in Hl. destruct Hl as [Hl Hk].
  apply in_map_iff in Hl. destruct Hl as (a & <- & Ha).
  unfold keep_link in Hk. apply andb_true_iff in Hk. destruct Hk as [_ Ht].
  cbn [link_of_anchor text title href] in *.
  destruct (trim_spec (textContent a)) as [Hspace Hparts].
  split; [exact Hspace|]. split.
  - unfold or_else. destruct (truthy (reflected (js "title") a)) eqn:E;
      now apply truthy_nonempty.
  - exists a. split; [exact Ha|]. split; [exact Hparts|reflexivity].
Qed.

(* ================================================================== *)
(** ** The saved HTML of the container *)
(* ================================================================== *)

Lemma getAttribute_class_removed (a : list (jsstring * jsstring)) :
  getAttribute (js "class")
    (filter (fun kv => negb (str_eqb (fst kv) (js "class"))) a) = None.
Proof.
  induction a as [|[k v] a IH]; [reflexivity|]. cbn [filter fst].
  destruct (str_eqb k (js "class")) eqn:E; cbn [negb]; [exact IH|].
  cbn [getAttribute]. now rewrite E.
Qed.

Lemma getAttribute_other_kept (name : jsstring)
  (a : list (jsstring * jsstring)) :
  name <> js "class" ->
  getAttribute name
    (filter (fun kv => negb (str_eqb (fst kv) (js "class"))) a)
  = getAttribute name a.
Proof.
  intros Hn. induction a as [|[k v] a IH]; [reflexivity|]. cbn [filter fst].
  destruct (str_eqb k (js "class")) eqn:E; cbn [negb getAttribute].
  - apply str_eqb_eq in E. subst k.
    destruct (str_eqb (js "class") name) eqn:E'; [|exact IH].
    apply str_eqb_eq in E'. now elim Hn.
  - now rewrite IH.
Qed.

Lemma subtree_remove_class (n : node) :
  subtree (remove_class n) = map remove_class (subtree n).
Proof.
  induction n as [d|d|t a cs IH] using node_induction; try reflexivity.
  cbn [remove_class subtree map]. f_equal.
  induction IH as [|c cs Hc _ IHcs]; [reflexivity|].
  cbn [map flat_map]. now rewrite map_app, Hc, IHcs.
Qed.

Lemma textContent_remove_class (n : node) :
  textContent (remove_class n) = textContent n.
Proof.
  induction n as [d|d|t a cs IH] using node_induction; try reflexivity.
  cbn [remove_class textContent].
  induction IH as [|c cs Hc _ IHcs]; [reflexivity|].
  cbn [map flat_map]. now rewrite Hc, IHcs.
Qed.

Lemma textContent_forest_remove_class (h : html) :
  flat_map textContent (map remove_class h) = flat_map textContent h.
Proof.
  induction h as [|c cs IH]; [reflexivity|].
  cbn [map flat_map]. now rewrite textContent_remove_class, IH.
Qed.

Lemma subtree_elements (n : node) :
  Forall (fun el => exists t a cs, el = Elem t a cs) (subtree n).
Proof.
  induction n as [d|d|t a cs IH] using node_induction.
  - apply Forall_nil.
  - apply Forall_nil.
  - cbn [subtree]. apply Forall_cons; [now exists t, a, cs|].
    now apply Forall_flat_map.
Qed.

(** The HTML saved as [main-wrapper.html] is the content of the container
    with every [class] attribute removed and nothing else changed: no
    element of it has a [class] attribute, its elements are those of the
    container, in the same order and with the same tags and the same other
    attributes, and its text is the text of the container. *)
Theorem saved_container_html_has_no_class :
  forall (p : Page) (mainWrapper : node),
    document_querySelector p [byId "main-wrapper"] = Some mainWrapper ->
    exists h,
      mw_mainWrapperHTML (mainWrapperData p) = Some h
      /\ Forall (fun el => getAttribute (js "class") (attrs_of el) = None)
                (flat_map subtree h)
      /\ map tag_of (flat_map subtree h)
         = map tag_of (descendants mainWrapper)
      /\ (forall name, name <> js "class" ->
            map (fun el => getAttribute name (attrs_of el))
                (flat_map subtree h)
            = map (fun el => getAttribute name (attrs_of el))
                  (descendants mainWrapper))
      /\ flat_map textContent h = textContent mainWrapper.
Proof.
  intros p mw Hmw. unfold mainWrapperData. rewrite Hmw.
  unfold document_querySelector in Hmw.
  eexists. split; [reflexivity|]. unfold descendants.
  assert (Hsub : flat_map subtree (map remove_class (innerHTML mw))
                 = map remove_class (flat_map subtree (innerHTML mw))).
  { generalize (innerHTML mw). induction h as [|c cs IH]; [reflexivity|].
    cbn [map flat_map]. now rewrite map_app, subtree_remove_class, IH. }
  rewrite Hsub.
  assert (Hels : Forall (fun el => exists t a cs, el = Elem t a cs)
                        (flat_map subtree (innerHTML mw)))
    by (apply Forall_flat_map, Forall_forall; intros; apply subtree_elements).
  repeat split.
  - apply Forall_map. eapply Forall_impl; [|exact Hels].
    intros el (t & a & cs & ->). apply getAttribute_class_removed.
  - rewrite map_map. apply map_ext_Forall.
    eapply Forall_impl; [|exact Hels]. now intros el (t & a & cs & ->).
  - intros name Hname. rewrite map_map. apply map_ext_Forall.
    eapply Forall_impl; [|exact Hels]. intros el (t & a & cs & ->).
    now apply getAttribute_other_kept.
  - apply find_some in Hmw. destruct Hmw as [_ Hm].
    destruct mw as [d|d|t a cs]; try discriminate Hm.
    cbn [innerHTML textContent]. apply textContent_forest_remove_class.
Qed.

(** The container of the scenario's homepage, whose element and whose
    paragraph carry classes. *)
Lemma saved_container_html_has_no_class_witness :
  exists h,
    mw_mainWrapperHTML (mainWrapperData Samples.home_three) = Some h
    /\ Forall (fun el => getAttribute (js "class") (attrs_of el) = None)
              (flat_map subtree h)
    /\ flat_map textContent h = js " A BC".
Proof.
  destruct (document_querySelector Samples.home_three [byId "main-wrapper"])
    as [mw|] eqn:E; [|discriminate E].
  destruct (@saved_container_html_has_no_class Samples.home_three mw E)
    as (h & Hh & Hclass & _ & _ & Htext).
  exists h. split; [exact Hh|]. split; [exact Hclass|].
  rewrite Htext. vm_compute in E. injection E as <-. reflexivity.
Defined.

(* ================================================================== *)
(** ** Closing the browser *)
(* ================================================================== *)

Ltac keep_frame :=
  repeat match goal with
         | |- preserves _ (match ?x with _ => _ end) => destruct x
         | |- preserves _ (bind _ _) => apply preserves_bind; [|intros ?]
         | |- preserves _ (try_catch _ _) =>
             apply preserves_try_catch; [|intros ?]
         | |- preserves _ (lift _) => apply preserves_lift
         | |- preserves _ (ret _) => apply preserves_ret
         | |- preserves _ (throw _) => apply preserves_throw
         | |- preserves _ get => apply preserves_get
         | |- preserves _ (modify _) =>
             apply preserves_modify; intros ? ?; assumption
         | H : forall links, preserves _ (crawl _ links)
           |- preserves _ (crawl _ _) => apply H
         end.

Lemma crawl_closed (env : Env) (links : list Link) (st : State) :
  closed (snd (crawl env links st)) = closed st.
Proof.
  rewrite crawl_eq_general.
  destruct (halt (turndown env) (e_visit env) 0 links) as [[n e]|];
    [reflexivity|].
  destruct (e_write_index env); [destruct (e_write_results env)|];
    reflexivity.
Qed.

(** Nothing in the outer [try] and [catch] closes the browser. *)
Lemma not_closed_after_try (env : Env) :
  closed (snd (try_catch (try_main env) catch_main initial)) = false.
Proof.
  assert (Hcrawl : forall links,
             preserves (fun st => closed st = false) (crawl env links))
    by (intros links st H; now rewrite crawl_closed).
  apply (@preserves_try_catch (fun st => closed st = false));
    [| |reflexivity].
  - unfold try_main, goto, after_extraction, report_missing_container,
      after_container_check, write.
    keep_frame.
  - intros e. unfold catch_main. keep_frame.
Qed.

Lemma enhanced_closed (env : Enhanced.Env) :
  Enhanced.closed (snd (Enhanced.run env))
  = is_ok (Enhanced.e_mkdir env) && is_ok (Enhanced.e_launch env)
    && is_ok (Enhanced.e_close env).
Proof.
  run_enhanced.
  enhanced_step (Enhanced.e_mkdir env).
  enhanced_step (Enhanced.e_launch env).
  enhanced_step (Enhanced.e_newPage env).
  enhanced_step (Enhanced.e_setViewport env).
  enhanced_step (Enhanced.e_goto env).
  enhanced_step (Enhanced.e_pageInfo env).
  enhanced_step (Enhanced.e_interactiveElements env).
  destruct (Enhanced.e_navLinks env) as [?|?]; run_enhanced;
    (enhanced_step (Enhanced.e_autoScroll env);
     destruct (Enhanced.e_modals env) as [?|?]; run_enhanced;
     (enhanced_step (Enhanced.e_mainContent env);
      enhanced_step (Enhanced.e_scrollTop env);
      enhanced_step (Enhanced.e_screenshot env);
      enhanced_step (Enhanced.e_screenshot_viewport env);
      enhanced_step (Enhanced.e_writeData env);
      destruct (Enhanced.e_close env) as [?|?]; reflexivity)).
Qed.

(** Whatever happens in between, the browser is closed once at the end of
    a run if it was launched: in the crawler it ends up closed exactly when
    the launch returned and the call that closes it returned, and so it
    does in the enhanced script (whose launch comes after the creation of
    the archive directory); a browser that was never launched is never
    asked to close. *)
Theorem browser_is_closed_when_launched :
  forall (env : Env) (env' : Enhanced.Env),
    launched (snd (run env)) = is_ok (e_launch env)
    /\ closed (snd (run env)) = is_ok (e_launch env) && is_ok (e_close env)
    /\ Enhanced.closed (snd (Enhanced.run env'))
       = is_ok (Enhanced.e_mkdir env') && is_ok (Enhanced.e_launch env')
         && is_ok (Enhanced.e_close env').
Proof.
  intros env env'. split; [|split]; [| |apply enhanced_closed].
  - unfold run, main, try_finally.
    pose proof (launched_after_try env) as Hl.
    destruct (try_catch (try_main env) catch_main initial) as [r st'].
    cbn [snd] in Hl. unfold finally_main, bind, get.
    destruct (launched st') eqn:E.
    + unfold lift, modify. destruct (e_close env); cbn [snd];
        now rewrite <- Hl.
    + cbn [snd ret]. now rewrite <- Hl.
  - unfold run, main, try_finally.
    pose proof (launched_after_try env) as Hl.
    pose proof (not_closed_after_try env) as Hc.
    destruct (try_catch (try_main env) catch_main initial) as [r st'].
    cbn [snd] in Hl, Hc. unfold finally_main, bind, get. rewrite Hl.
    destruct (e_launch env); cbn [is_ok andb].
    + unfold lift, modify. destruct (e_close env); cbn [snd is_ok];
        [reflexivity|exact Hc].
    + cbn [snd ret]. exact Hc.
Qed.

(* ================================================================== *)
(** ** Documents, images and records *)
(* ================================================================== *)

Lemma attempt_ok_inv td (v : Visit) (pd : PageData) :
  attempt td v = Ok pd ->
  screenshot_taken v = true
  /\ (exists cm, td (pd_mainContent pd) = Ok cm)
  /\ is_ok (v_writeFile v) = true.
Proof.
  unfold attempt, screenshot_taken. intros E.
  destruct (v_goto v); [|discriminate].
  destruct (v_scroll v); [|discriminate].
  destruct (v_screenshot v); [|discriminate].
  destruct (v_evaluate v) as [p|]; [|discriminate].
  destruct (evaluate_pageData p) as [pd'|]; [|discriminate].
  destruct (td (pd_mainContent pd')) as [cm|] eqn:Etd; [|discriminate].
  destruct (v_writeFile v); [|discriminate].
  injection E as <-. repeat split. now exists cm.
Qed.

Lemma documents_of_visit td odir idir (v : Visit) (l : Link) (n : nat) :
  map fst (filter MoreProps.is_document (files_of td odir idir v l n))
  = MoreProps.named_documents odir [result_of l n (attempt td v)].
Proof.
  unfold files_of, image_of, document_of, MoreProps.named_documents.
  rewrite filter_app, map_app.
  assert (Himg : forall b x,
             filter MoreProps.is_document
               (if b : bool then [(x, Png)] else []) = [])
    by (intros [] x; reflexivity).
  rewrite Himg. cbn [map app flat_map]. rewrite app_nil_r.
  destruct (attempt td v) as [pd|e] eqn:E; [|reflexivity].
  destruct (attempt_ok_inv td v E) as (_ & (cm & Hcm) & _).
  rewrite Hcm. reflexivity.
Qed.

Lemma named_documents_app odir (a b : list CrawlResult) :
  MoreProps.named_documents odir (a ++ b)
  = MoreProps.named_documents odir a ++ MoreProps.named_documents odir b.
Proof. apply flat_map_app. Qed.

Lemma documents_of_loop td odir idir visit (links : list Link) :
  forall i,
    map fst (filter MoreProps.is_document
                    (loop_files td odir idir visit i links))
    = MoreProps.named_documents odir (loop_results td visit i links).
Proof.
  unfold loop_files, loop_results.
  induction links as [|l rest IH]; intros i; [reflexivity|].
  cbn [enumerate_from flat_map map fst snd].
  rewrite filter_app, map_app, documents_of_visit, IH.
  change (result_of l (i + 1) (attempt td (visit i))
          :: map (fun kl => result_of (snd kl) (fst kl + 1)
                              (attempt td (visit (fst kl))))
                 (enumerate_from (S i) rest))
    with ([result_of l (i + 1) (attempt td (visit i))]
          ++ map (fun kl => result_of (snd kl) (fst kl + 1)
                              (attempt td (visit (fst kl))))
                 (enumerate_from (S i) rest)).
  now rewrite named_documents_app.
Qed.

Lemma image_in_loop_files td odir idir visit (links : list Link) :
  forall i k l,
    nth_error links k = Some l ->
    screenshot_taken (visit (i + k)) = true ->
    In (path_join idir
          (screenshotFilename (i + k + 1) (safeFilename (text l))), Png)
       (loop_files td odir idir visit i links).
Proof.
  unfold loop_files.
  induction links as [|x rest IH]; intros i k l Hk Hs;
    [now destruct k|].
  cbn [enumerate_from flat_map fst snd]. apply in_or_app.
  destruct k as [|k].
  - left. injection Hk as ->. rewrite Nat.add_0_r in *.
    unfold files_of, image_of. rewrite Hs. now left.
  - right. replace (i + S k) with (S i + k) in * by lia.
    now apply IH.
Qed.

(** When steps 3 to 5 are over, the loop having gone through the links
    (no visit rejected with [null] or [undefined]), the content documents
    written during the loop are exactly the files that the [filename]
    fields of the records name, in the same order (followed by [INDEX.md]
    when that write returned), and the preview image that the index entry
    and the document of a successful link point at, [images/] and the
    screenshot name under the output directory, is among the files
    written. *)
Theorem documents_and_previews_match_records :
  forall (env : Env) (links : list Link) (st : State),
    no_abort (turndown env) (e_visit env) links ->
    exists fs,
      files (snd (crawl env links st)) = files st ++ fs
      /\ map fst (filter MoreProps.is_document fs)
         = MoreProps.named_documents (outputDir env)
             (results (snd (crawl env links st)))
           ++ (if is_ok (e_write_index env) then [index_path env] else [])
      /\ forall k l,
           nth_error links k = Some l ->
           is_ok (attempt (turndown env) (e_visit env k)) = true ->
           In (path_join (outputDir env)
                 (js "images/"
                  ++ screenshotFilename (k + 1) (safeFilename (text l))),
               Png) fs.
Proof.
  intros env links st Hno. rewrite (@crawl_results env links st Hno).
  set (lf := loop_files (turndown env) (outputDir env) (imagesDir env)
                        (e_visit env) 0 links).
  assert (Himg : forall k l,
             nth_error links k = Some l ->
             is_ok (attempt (turndown env) (e_visit env k)) = true ->
             In (path_join (outputDir env)
                   (js "images/"
                    ++ screenshotFilename (k + 1) (safeFilename (text l))),
                 Png) lf).
  { intros k l Hk Hok.
    destruct (attempt (turndown env) (e_visit env k)) as [pd|] eqn:E;
      [|discriminate].
    destruct (attempt_ok_inv _ _ E) as (Hs & _ & _).
    pose proof (@image_in_loop_files (turndown env) (outputDir env)
                  (imagesDir env) (e_visit env) links 0 k l Hk Hs) as Hin.
    cbn [Nat.add] in Hin. unfold imagesDir, path_join in *.
    now rewrite <- !app_assoc in Hin. }
  assert (Hdoc : map fst (filter MoreProps.is_document lf)
                 = MoreProps.named_documents (outputDir env)
                     (loop_results (turndown env) (e_visit env) 0 links))
    by apply documents_of_loop.
  rewrite (@crawl_eq env links st Hno).
  destruct (e_write_index env) as [[]|e].
  - destruct (e_write_results env) as [[]|e].
    + exists (lf ++ [(index_path env,
                      TextFile (indexMd (after_loop env links st)));
                     (results_path env,
                      JsonFile (results (after_loop env links st)))]).
      split; [|split].
      * cbn [snd log add_file files after_loop extended set_results
              set_index]. now rewrite <- !app_assoc.
      * rewrite filter_app, map_app, Hdoc. reflexivity.
      * intros k l Hk Hok. apply in_or_app. left. now apply Himg.
    + exists (lf ++ [(index_path env,
                      TextFile (indexMd (after_loop env links st)))]).
      split; [|split].
      * cbn [snd log add_file files after_loop extended set_results
              set_index]. now rewrite <- !app_assoc.
      * rewrite filter_app, map_app, Hdoc. reflexivity.
      * intros k l Hk Hok. apply in_or_app. left. now apply Himg.
  - exists lf. split; [reflexivity|]. split.
    + now rewrite Hdoc, app_nil_r.
    + exact Himg.
Qed.

(** The scenario of the specification: the documents of [A] and [C], in
    this order, then the index; and the preview image of [A]. *)
Lemma documents_and_previews_match_records_witness :
  exists fs,
    files (snd (crawl Samples.scenario Samples.three_links initial)) = fs
    /\ map fst (filter MoreProps.is_document fs)
       = [js "first-section-crawl/2025-07-14/01-a.md";
          js "first-section-crawl/2025-07-14/03-c.md";
          js "first-section-crawl/2025-07-14/INDEX.md"]
    /\ In (js "first-section-crawl/2025-07-14/images/01-a.png", Png) fs.
Proof.
  destruct (@documents_and_previews_match_records Samples.scenario
              Samples.three_links initial scenario_crawls_without_abort)
    as (fs & Hfs & Hdocs & Himg).
  exists fs. split; [exact Hfs|]. split.
  - rewrite Hdocs. reflexivity.
  - apply (Himg 0 (mkLink (js "A") (Samples.site (js "/a")) (js "A")));
      reflexivity.
Defined.

Lemma count_success_failed (rs : list CrawlResult) :
  count_success rs + count_failed rs = length rs.
Proof.
  unfold count_success, count_failed.
  induction rs as [|r rs IH]; [reflexivity|]. cbn [filter].
  destruct (success r); cbn [negb length]; lia.
Qed.

Lemma count_success_loop td visit (links : list Link) :
  forall i,
    count_success (loop_results td visit i links)
    = length (filter (fun kl => is_ok (attempt td (visit (fst kl))))
                     (enumerate_from i links)).
Proof.
  unfold count_success, loop_results.
  induction links as [|l rest IH]; intros i; [reflexivity|].
  cbn [enumerate_from map filter fst snd].
  replace (success (result_of l (i + 1) (attempt td (visit i))))
    with (is_ok (attempt td (visit i)))
    by (unfold result_of; now destruct (attempt td (visit i))).
  destruct (is_ok (attempt td (visit i)));
    cbn [length]; now rewrite IH.
Qed.

(** The figures of the closing summary add up.  When the loop has gone
    through the links (no visit rejected with [null] or [undefined]),
    successes and failures together are as many as the links found, the
    successes being the links whose visit threw nowhere; and when both
    final writes return, the summary with these figures is the last line
    printed. *)
Theorem summary_counts_add_up :
  forall (env : Env) (links : list Link) (st : State),
    no_abort (turndown env) (e_visit env) links ->
    count_success (results (snd (crawl env links st)))
    + count_failed (results (snd (crawl env links st)))
    = length links
    /\ count_success (results (snd (crawl env links st)))
       = length (filter (fun kl => is_ok (attempt (turndown env)
                                            (e_visit env (fst kl))))
                        (enumerate_from 0 links))
    /\ (is_ok (e_write_index env) = true ->
        is_ok (e_write_results env) = true ->
        exists before,
          console (snd (crawl env links st))
          = before
            ++ [Summary (length links)
                  (count_success (results (snd (crawl env links st))))
                  (count_failed (results (snd (crawl env links st))))
                  (count_success (results (snd (crawl env links st))))
                  (count_success (results (snd (crawl env links st))))]).
Proof.
  intros env links st Hno. split; [|split].
  - rewrite count_success_failed. now apply crawl_results_count.
  - rewrite (@crawl_results env links st Hno). apply count_success_loop.
  - intros Hi Hr. rewrite (@crawl_results env links st Hno).
    rewrite (@crawl_eq env links st Hno).
    destruct (e_write_index env) as [[]|]; [|discriminate].
    destruct (e_write_results env) as [[]|]; [|discriminate].
    eexists. cbn [snd log console]. unfold summary_of.
    reflexivity.
Qed.

(** The scenario of the specification: three links, two successes and one
    failure. *)
Lemma summary_counts_add_up_witness :
  count_success
    (results (snd (crawl Samples.scenario Samples.three_links initial)))
  + count_failed
      (results (snd (crawl Samples.scenario Samples.three_links initial)))
  = 3
  /\ count_success
       (results (snd (crawl Samples.scenario Samples.three_links initial)))
     = 2.
Proof.
  destruct (@summary_counts_add_up Samples.scenario Samples.three_links
              initial scenario_crawls_without_abort)
    as (Hsum & Hok & _).
  split; [exact Hsum|]. rewrite Hok. reflexivity.
Defined.

(* ================================================================== *)
(** ** A container without links *)
(* ================================================================== *)

(** When the container is there but no anchor of it passes the filter, the
    run saves the container's HTML (if it is not empty), prints that no
    link was found and returns: no link is visited, neither [INDEX.md] nor
    [results.json] nor any other file is written, nothing goes to the
    fatal handler and the browser is closed. *)
Theorem run_without_links_writes_no_index :
  forall (p : Page) (env : Env) (mainWrapper : node),
    setup_error env = None ->
    e_evaluate_home env = Ok p ->
    document_querySelector p [byId "main-wrapper"] = Some mainWrapper ->
    extract_links p mainWrapper = [] ->
    e_write_html env = Ok tt ->
    e_close env = Ok tt ->
    run env
    = (Ok tt,
       mkState [] []
         (if html_truthy (map remove_class (innerHTML mainWrapper))
          then [(path_join (outputDir env) (js "main-wrapper.html"),
                 HtmlFile (map remove_class (innerHTML mainWrapper)))]
          else [])
         [homepage] [NoLinksFound] true true).
Proof.
  intros p env mw Hsetup Hhome Hmw Hlinks Hwrite Hclose.
  assert (Hdata : mainWrapperData p
                  = {| mw_error := None;
                       mw_links := Some [];
                       mw_mainWrapperHTML :=
                         Some (map remove_class (innerHTML mw)) |})
    by (unfold mainWrapperData; now rewrite Hmw, Hlinks).
  unfold setup_error in Hsetup. rewrite Hhome in Hsetup. setup_ok Hsetup.
  run_main. rewrite E, E0, E1, E2, E3, E4, E5, Hhome, Hdata.
  cbv beta iota zeta delta
    [mw_error mw_links mw_mainWrapperHTML after_container_check].
  destruct (html_truthy (map remove_class (innerHTML mw)));
    run_main; rewrite ?Hwrite, Hclose; reflexivity.
Qed.

(** The assumptions hold of a homepage whose container has one anchor with
    blank text and one without [href]. *)
Lemma run_without_links_writes_no_index_witness :
  exists h,
    run MoreSamples.env_no_links
    = (Ok tt,
       mkState [] []
         [(path_join (outputDir MoreSamples.env_no_links)
             (js "main-wrapper.html"), HtmlFile h)]
         [homepage] [NoLinksFound] true true).
Proof.
  eexists.
  exact (@run_without_links_writes_no_index
           MoreSamples.home_no_links MoreSamples.env_no_links _
           eq_refl eq_refl eq_refl eq_refl eq_refl eq_refl).
Defined.

(* ================================================================== *)
(** ** The outline of headings *)
(* ================================================================== *)

Lemma matches_byTag (s : string) t a (cs : list node) :
  matches (byTag s) (Elem t a cs) = str_eqb (js s) t.
Proof.
  unfold matches, byTag.
  cbv beta iota delta [sel_tag sel_id sel_class sel_attr].
  now rewrite !andb_true_r.
Qed.

Lemma heading_element (el : node) :
  matches_any heading_selectors el = true ->
  exists n a cs,
    1 <= n <= 6 /\ el = Elem (js "h" ++ String_of_nat n) a cs.
Proof.
  destruct el as [d|d|t a cs]; try discriminate.
  unfold matches_any, heading_selectors. cbn [existsb].
  rewrite !matches_byTag, orb_false_r. intros H.
  repeat (apply orb_true_iff in H; destruct H as [H|H]);
    apply str_eqb_eq in H; subst t;
    [exists 1|exists 2|exists 3|exists 4|exists 5|exists 6];
    exists a, cs; (split; [lia|reflexivity]).
Qed.

(** Every entry of [headings] is one of [H1] .. [H6] (the tag name comes
    upper-cased), and its line in the section "Page Structure" is indented
    by two spaces for each level below the first: between none and ten
    spaces, then a dash, a space and the text of the heading, which neither
    starts nor ends with white space.  The
    evaluation throws only on a document without body. *)
Theorem heading_outline_is_indented_by_level :
  forall (p : Page),
    match evaluate_pageData p with
    | Ok pd =>
        Forall (fun h =>
                  exists n,
                    1 <= n <= 6
                    /\ level h = js "H" ++ String_of_nat n
                    /\ heading_depth (level h) = n - 1
                    /\ outline_line h
                       = repeat_str (js "  ") (n - 1)
                         ++ js "- " ++ heading_text h ++ nl
                    /\ MoreProps.no_outer_space (heading_text h))
               (pd_headings pd)
    | Throw e => document_body p = None /\ e = null_body_error
    end.
Proof.
  intros p. unfold evaluate_pageData.
  destruct (document_body p) as [body|]; [|now split].
  cbn [pd_headings]. apply Forall_map, Forall_forall.
  intros el Hel. unfold document_querySelectorAll in Hel.
  apply filter_In in Hel. destruct Hel as [_ Hm].
  destruct (heading_element el Hm) as (n & a & cs & Hn & ->).
  exists n. cbn [level heading_text].
  assert (Hlevel : tagName (Elem (js "h" ++ String_of_nat n) a cs)
                   = js "H" ++ String_of_nat n).
  { assert (Hc : n = 1 \/ n = 2 \/ n = 3 \/ n = 4 \/ n = 5 \/ n = 6)
      by lia.
    destruct Hc as [->|[->|[->|[->|[->| ->]]]]]; reflexivity. }
  assert (Hdepth : heading_depth (js "H" ++ String_of_nat n) = n - 1).
  { assert (Hc : n = 1 \/ n = 2 \/ n = 3 \/ n = 4 \/ n = 5 \/ n = 6)
      by lia.
    destruct Hc as [->|[->|[->|[->|[->| ->]]]]]; reflexivity. }
  split; [exact Hn|]. split; [exact Hlevel|].
  split; [now rewrite Hlevel|].
  split.
  - unfold outline_line. cbn [level heading_text].
    now rewrite Hlevel, Hdepth.
  - apply trim_spec.
Qed.

(* ================================================================== *)
(** ** The removal pass *)
(* ================================================================== *)

Lemma remove_matching_forest_id (g : list selector) (cs : list node) :
  Forall (fun c =>
            Forall (fun m => matches_any g m = false) (subtree c) ->
            remove_matching g c = [c]) cs ->
  Forall (fun m => matches_any g m = false) (flat_map subtree cs) ->
  flat_map (remove_matching g) cs = cs.
Proof.
  induction 1 as [|c cs Hc _ IH]; intros Hall; [reflexivity|].
  cbn [flat_map] in *. apply Forall_app in Hall. destruct Hall as [H1 H2].
  now rewrite (Hc H1), (IH H2).
Qed.

(** The removal pass leaves alone a subtree in which nothing matches. *)
Lemma remove_matching_id (g : list selector) (n : node) :
  Forall (fun m => matches_any g m = false) (subtree n) ->
  remove_matching g n = [n].
Proof.
  induction n as [d|d|t a cs IH] using node_induction;
    [reflexivity|reflexivity|].
  intros Hall. cbn [subtree] in Hall.
  apply Forall_cons_iff in Hall. destruct Hall as [Hroot Hrest].
  cbn [remove_matching]. rewrite Hroot.
  now rewrite (@remove_matching_forest_id g cs IH Hrest).
Qed.

(** Stripping is idempotent: a second removal pass over the stripped body
    changes nothing; and a body none of whose elements is a [script],
    [style], [nav], [header] or [footer] or has the class [nav], [menu] or
    [sidebar] comes out as it went in. *)
Theorem stripping_twice_changes_nothing :
  forall (body : node),
    flat_map (remove_matching strip_selectors) (stripped_body body)
    = stripped_body body
    /\ (Forall (fun m => matches_any strip_selectors m = false)
               (descendants body) ->
        stripped_body body = innerHTML body).
Proof.
  intros body. split.
  - apply remove_matching_forest_id.
    + apply Forall_forall. intros c _. apply remove_matching_id.
    + apply stripped_body_clean.
  - intros Hall. unfold stripped_body.
    apply remove_matching_forest_id; [|exact Hall].
    apply Forall_forall. intros c _. apply remove_matching_id.
Qed.

(* ================================================================== *)
(** ** The deep-dive script: links and subpages *)
(* ================================================================== *)

Lemma link_infos_spec (p : Page) (loc : DeepDiveSteps.Location)
  (anchors : list node) :
  match DeepDiveSteps.link_infos p loc anchors with
  | Ok links =>
      map DeepDiveSteps.href links
      = map (fun a => resolve_url p (reflected (js "href") a)) anchors
      /\ Forall (fun l => DeepDiveSteps.isExternal l
                          = negb (DeepDiveSteps.isInternal l)) links
  | Throw e =>
      e = DeepDiveSteps.invalid_url_error
      /\ Exists (fun a => DeepDiveSteps.url_hostname loc
                            (resolve_url p (reflected (js "href") a))
                          = None) anchors
  end.
Proof.
  induction anchors as [|a rest IH]; cbn [DeepDiveSteps.link_infos].
  - split; constructor.
  - unfold DeepDiveSteps.link_info.
    destruct (DeepDiveSteps.url_hostname loc
                (resolve_url p (reflected (js "href") a))) as [host|] eqn:E.
    + destruct (DeepDiveSteps.link_infos p loc rest) as [ls|e].
      * destruct IH as [Hh Hf]. split.
        -- cbn [map DeepDiveSteps.href]. now rewrite Hh.
        -- constructor; [reflexivity|exact Hf].
      * destruct IH as [He Hx]. split; [exact He|now apply Exists_cons_tl].
    + split; [reflexivity|now apply Exists_cons_hd].
Qed.

Lemma partition_lengths {A} (f g h : A -> bool) (l : list A) :
  Forall (fun x => g x = negb (f x)) l ->
  length (filter (fun x => f x && h x) l)
  + length (filter (fun x => g x && h x) l)
  = length (filter h l).
Proof.
  induction 1 as [|x l Hx _ IH]; [reflexivity|]. cbn [filter].
  rewrite Hx. destruct (f x), (h x); cbn [negb andb length]; lia.
Qed.

(** The links of step 3.  When the evaluation returns there is one link
    for each anchor with an [href], in document order; each is internal or
    external and never both, so the internal and the external links the
    script reports are disjoint and together are the links whose text is
    not empty.  The evaluation throws as soon as one address has no host
    name to read: a single such anchor leaves the script without any
    link. *)
Theorem deep_dive_links_are_internal_or_external :
  forall (p : Page) (loc : DeepDiveSteps.Location),
    match DeepDiveSteps.evaluate_links p loc with
    | Ok links =>
        map DeepDiveSteps.href links
        = map (fun a => resolve_url p (reflected (js "href") a))
              (document_querySelectorAll p [tagHasAttr "a" "href"])
        /\ length (DeepDiveSteps.internalLinks links)
           + length (DeepDiveSteps.externalLinks links)
           = length (filter (fun l => truthy (DeepDiveSteps.text l)) links)
        /\ (forall l, In l (DeepDiveSteps.internalLinks links) ->
                      ~ In l (DeepDiveSteps.externalLinks links))
    | Throw e =>
        Exists (fun a => DeepDiveSteps.url_hostname loc
                           (resolve_url p (reflected (js "href") a))
                         = None)
               (document_querySelectorAll p [tagHasAttr "a" "href"])
    end.
Proof.
  intros p loc. unfold DeepDiveSteps.evaluate_links.
  pose proof (link_infos_spec p loc
                (document_querySelectorAll p [tagHasAttr "a" "href"])) as H.
  destruct (DeepDiveSteps.link_infos p loc
              (document_querySelectorAll p [tagHasAttr "a" "href"]))
    as [links|e]; [|exact (proj2 H)].
  destruct H as [Hh Hf]. split; [exact Hh|]. split.
  - unfold DeepDiveSteps.internalLinks, DeepDiveSteps.externalLinks.
    now apply partition_lengths.
  - intros l Hi He.
    unfold DeepDiveSteps.internalLinks, DeepDiveSteps.externalLinks in *.
    apply filter_In in Hi. destruct Hi as [Hin Hi].
    apply filter_In in He. destruct He as [_ He].
    rewrite Forall_forall in Hf. rewrite (Hf l Hin) in He.
    destruct (DeepDiveSteps.isInternal l); discriminate.
Qed.

Lemma subsequence_refl {A} (l : list A) : subsequence l l.
Proof. induction l; now constructor. Qed.

Lemma subsequence_trans {A} (a b c : list A) :
  subsequence a b -> subsequence b c -> subsequence a c.
Proof.
  intros Hab Hbc. revert a Hab.
  induction Hbc as [|x s l Hsl IH|x s l Hsl IH]; intros a Hab.
  - exact Hab.
  - inversion Hab; subst; constructor; now apply IH.
  - constructor. now apply IH.
Qed.

Lemma subsequence_firstn {A} (n : nat) (l : list A) :
  subsequence (firstn n l) l.
Proof.
  revert n. induction l as [|x l IH]; intros [|n]; cbn [firstn];
    try constructor; try apply IH.
  clear IH. induction l; now constructor.
Qed.

(** The subpages of step 5 are at most three; each is an internal link
    with a non-empty text whose address is not the address of the current
    page; they come in the order of the links; and they are the first such
    links: when fewer than three are chosen, no such link was left out. *)
Theorem subpages_are_the_first_three_other_internal_links :
  forall (page_url : jsstring) (links : list DeepDiveSteps.LinkInfo),
    length (DeepDiveSteps.subpagesToVisit page_url links) <= 3
    /\ Forall (fun l => DeepDiveSteps.isInternal l = true
                        /\ DeepDiveSteps.text l <> []
                        /\ DeepDiveSteps.href l <> page_url)
              (DeepDiveSteps.subpagesToVisit page_url links)
    /\ subsequence (DeepDiveSteps.subpagesToVisit page_url links) links
    /\ (length (DeepDiveSteps.subpagesToVisit page_url links) < 3 ->
        forall l, In l links ->
                  DeepDiveSteps.isInternal l = true ->
                  DeepDiveSteps.text l <> [] ->
                  DeepDiveSteps.href l <> page_url ->
                  In l (DeepDiveSteps.subpagesToVisit page_url links)).
Proof.
  intros u links. unfold DeepDiveSteps.subpagesToVisit.
  set (eligible := filter (fun l => negb (str_eqb (DeepDiveSteps.href l) u))
                          (DeepDiveSteps.internalLinks links)).
  split; [|split; [|split]].
  - rewrite length_firstn. lia.
  - apply Forall_firstn_keeps, Forall_forall. intros l Hl.
    subst eligible. apply filter_In in Hl. destruct Hl as [Hl Hu].
    unfold DeepDiveSteps.internalLinks in Hl.
    apply filter_In in Hl. destruct Hl as [_ Hl].
    apply andb_true_iff in Hl. destruct Hl as [Hi Ht].
    split; [exact Hi|]. split; [now apply truthy_nonempty|].
    intros Heq. apply str_eqb_eq in Heq. rewrite Heq in Hu. discriminate.
  - eapply subsequence_trans; [apply subsequence_firstn|].
    subst eligible. eapply subsequence_trans; [apply subsequence_filter|].
    apply subsequence_filter.
  - intros Hlen l Hin Hi Ht Hu.
    assert (Hel : In l eligible).
    { subst eligible. apply filter_In. split.
      - apply filter_In. split; [exact Hin|].
        rewrite Hi. now apply truthy_nonempty in Ht.
      - destruct (str_eqb (DeepDiveSteps.href l) u) eqn:E; [|reflexivity].
        apply str_eqb_eq in E. now elim Hu. }
    rewrite length_firstn in Hlen.
    rewrite firstn_all2; [exact Hel|lia].
Qed.

Lemma visit_subpage_eq (odir : jsstring) (v : DeepDiveSteps.Visit)
  (l : DeepDiveSteps.LinkInfo) (i : nat) (st : DeepDiveSteps.State) :
  DeepDiveSteps.visit_subpage odir v l i st
  = match MoreProps.subpage_aborts v with
    | Some e =>
        (Throw e,
         DeepDiveSteps.mkState
           (DeepDiveSteps.files st ++ MoreProps.subpage_files odir v i)
           (DeepDiveSteps.visited st ++ [DeepDiveSteps.href l])
           (DeepDiveSteps.console st))
    | None =>
        (Ok tt,
         DeepDiveSteps.mkState
           (DeepDiveSteps.files st ++ MoreProps.subpage_files odir v i)
           (DeepDiveSteps.visited st ++ [DeepDiveSteps.href l])
           (DeepDiveSteps.console st ++ MoreProps.subpage_console v))
    end.
Proof.
  unfold DeepDiveSteps.visit_subpage, MoreProps.subpage_files,
    MoreProps.subpage_console, MoreProps.subpage_aborts,
    MoreProps.subpage_error, message_of,
    try_catch, bind, lift, modify,
    DeepDiveSteps.add_visit, DeepDiveSteps.add_file, DeepDiveSteps.log.
  destruct st as [fs vs cs].
  cbn [DeepDiveSteps.files DeepDiveSteps.visited DeepDiveSteps.console].
  destruct (DeepDiveSteps.s_goto v) as [[]|[e1| | |]];
    [destruct (DeepDiveSteps.s_evaluate v) as [[]|[e2| | |]];
     [destruct (DeepDiveSteps.s_screenshot v) as [[]|[e3| | |]];
      [destruct (DeepDiveSteps.s_writeFile v) as [[]|[e4| | |]]
      | | | |] | | | |] | | | |];
    cbn [is_ok andb read_message DeepDiveSteps.files DeepDiveSteps.visited
         DeepDiveSteps.console];
    rewrite ?app_nil_r, <- ?app_assoc; reflexivity.
Qed.

Lemma visit_subpages_through (odir : jsstring)
  (visit : nat -> DeepDiveSteps.Visit)
  (todo : list DeepDiveSteps.LinkInfo) :
  forall (i : nat) (st : DeepDiveSteps.State),
    (forall k, k < length todo ->
               MoreProps.subpage_aborts (visit (i + k)) = None) ->
    DeepDiveSteps.visit_subpages odir visit todo i st
    = (Ok tt,
       DeepDiveSteps.mkState
         (DeepDiveSteps.files st
          ++ flat_map (fun kl => MoreProps.subpage_files odir
                                   (visit (fst kl)) (fst kl))
                      (enumerate_from i todo))
         (DeepDiveSteps.visited st ++ map DeepDiveSteps.href todo)
         (DeepDiveSteps.console st
          ++ flat_map (fun kl => MoreProps.subpage_console (visit (fst kl)))
                      (enumerate_from i todo))).
Proof.
  induction todo as [|l rest IH]; intros i st Hno.
  - cbn [DeepDiveSteps.visit_subpages enumerate_from flat_map map].
    unfold ret. rewrite !app_nil_r. now destruct st.
  - cbn [DeepDiveSteps.visit_subpages enumerate_from flat_map map fst].
    unfold bind at 1. rewrite visit_subpage_eq.
    assert (H0 : MoreProps.subpage_aborts (visit i) = None).
    { rewrite <- (Nat.add_0_r i). apply Hno. cbn. lia. }
    rewrite H0, IH.
    + cbn [DeepDiveSteps.files DeepDiveSteps.visited
           DeepDiveSteps.console].
      now rewrite <- !app_assoc.
    + intros k Hk. replace (S i + k) with (i + S k) by lia.
      apply Hno. cbn. lia.
Qed.

Lemma visit_subpages_left (odir : jsstring)
  (visit : nat -> DeepDiveSteps.Visit)
  (pre : list DeepDiveSteps.LinkInfo) :
  forall (l : DeepDiveSteps.LinkInfo) (post : list DeepDiveSteps.LinkInfo)
         (e : JsError) (i : nat) (st : DeepDiveSteps.State),
    (forall k, k < length pre ->
               MoreProps.subpage_aborts (visit (i + k)) = None) ->
    MoreProps.subpage_aborts (visit (i + length pre)) = Some e ->
    DeepDiveSteps.visit_subpages odir visit (pre ++ l :: post) i st
    = (Throw e,
       DeepDiveSteps.mkState
         (DeepDiveSteps.files st
          ++ flat_map (fun kl => MoreProps.subpage_files odir
                                   (visit (fst kl)) (fst kl))
                      (enumerate_from i (pre ++ [l])))
         (DeepDiveSteps.visited st
          ++ map DeepDiveSteps.href (pre ++ [l]))
         (DeepDiveSteps.console st
          ++ flat_map (fun kl => MoreProps.subpage_console (visit (fst kl)))
                      (enumerate_from i pre))).
Proof.
  induction pre as [|x pre IH]; intros l post e i st Hno He.
  - cbn [app length] in *. rewrite Nat.add_0_r in He.
    cbn [DeepDiveSteps.visit_subpages enumerate_from flat_map map fst].
    unfold bind at 1. rewrite visit_subpage_eq, He.
    now rewrite !app_nil_r.
  - cbn [app DeepDiveSteps.visit_subpages enumerate_from flat_map map fst].
    unfold bind at 1. rewrite visit_subpage_eq.
    assert (H0 : MoreProps.subpage_aborts (visit i) = None).
    { rewrite <- (Nat.add_0_r i). apply Hno. cbn. lia. }
    rewrite H0, (IH l post e).
    + cbn [DeepDiveSteps.files DeepDiveSteps.visited
           DeepDiveSteps.console].
      now rewrite <- !app_assoc.
    + intros k Hk. replace (S i + k) with (i + S k) by lia.
      apply Hno. cbn. lia.
    + replace (S i + length pre) with (i + length (x :: pre))
        by (cbn; lia).
      exact He.
Qed.

(** The loop of step 5 isolates the failure of a subpage as long as what
    was thrown is not [null] or [undefined].  If no subpage throws such a
    value, the loop does not throw: a navigation to every subpage chosen
    is started, in order, whatever happened to the subpages before it; a
    subpage leaves its screenshot if the navigation, the extraction and
    the screenshot returned, its data file besides if the write returned
    too, and one warning if any of the four calls threw.  At the first
    subpage that throws [null] or [undefined] the [catch] block throws a
    [TypeError] instead of warning: the loop is left with that error, and
    the subpages after it are not visited.  At no index is there a data
    file without the screenshot written just before it. *)
Theorem subpage_failures_are_isolated :
  forall (odir : jsstring) (visit : nat -> DeepDiveSteps.Visit)
         (todo : list DeepDiveSteps.LinkInfo) (i : nat)
         (st : DeepDiveSteps.State),
    ((forall k, k < length todo ->
                MoreProps.subpage_aborts (visit (i + k)) = None) ->
     DeepDiveSteps.visit_subpages odir visit todo i st
     = (Ok tt,
        DeepDiveSteps.mkState
          (DeepDiveSteps.files st
           ++ flat_map (fun kl => MoreProps.subpage_files odir
                                    (visit (fst kl)) (fst kl))
                       (enumerate_from i todo))
          (DeepDiveSteps.visited st ++ map DeepDiveSteps.href todo)
          (DeepDiveSteps.console st
           ++ flat_map (fun kl =>
                          MoreProps.subpage_console (visit (fst kl)))
                       (enumerate_from i todo))))
    /\ (forall pre l post e,
          todo = pre ++ l :: post ->
          (forall k, k < length pre ->
                     MoreProps.subpage_aborts (visit (i + k)) = None) ->
          MoreProps.subpage_aborts (visit (i + length pre)) = Some e ->
          DeepDiveSteps.visit_subpages odir visit todo i st
          = (Throw e,
             DeepDiveSteps.mkState
               (DeepDiveSteps.files st
                ++ flat_map (fun kl => MoreProps.subpage_files odir
                                         (visit (fst kl)) (fst kl))
                            (enumerate_from i (pre ++ [l])))
               (DeepDiveSteps.visited st
                ++ map DeepDiveSteps.href (pre ++ [l]))
               (DeepDiveSteps.console st
                ++ flat_map (fun kl =>
                               MoreProps.subpage_console (visit (fst kl)))
                            (enumerate_from i pre))))
    /\ forall k,
         MoreProps.subpage_files odir (visit k) k = []
         \/ MoreProps.subpage_files odir (visit k) k
            = [DeepDiveSteps.subpage_png odir k]
         \/ MoreProps.subpage_files odir (visit k) k
            = [DeepDiveSteps.subpage_png odir k;
               DeepDiveSteps.subpage_json odir k].
Proof.
  intros odir visit todo i st. split; [|split].
  - apply visit_subpages_through.
  - intros pre l post e -> Hno He. now apply visit_subpages_left.
  - intros k. unfold MoreProps.subpage_files.
    destruct (is_ok (DeepDiveSteps.s_goto (visit k))
              && is_ok (DeepDiveSteps.s_evaluate (visit k))
              && is_ok (DeepDiveSteps.s_screenshot (visit k)));
      [|now left].
    destruct (is_ok (DeepDiveSteps.s_writeFile (visit k))); auto.
Qed.

(** Two subpages, the second of which times out: both are visited and the
    loop returns; with a third whose screenshot is rejected with [null],
    the loop is left with a [TypeError]. *)
Lemma subpage_failures_are_isolated_witness :
  DeepDiveSteps.visit_subpages (js "out") MoreSamples.subpage_visits
    [MoreSamples.subpage "/a"; MoreSamples.subpage "/b"] 0
    (DeepDiveSteps.mkState [] [] [])
  = (Ok tt,
     DeepDiveSteps.mkState
       [js "out/05-subpage-1.png"; js "out/05-subpage-1-data.json"]
       [Samples.site (js "/a"); Samples.site (js "/b")]
       [DeepDiveSteps.CouldNotVisit
          (js "Navigation timeout of 15000 ms exceeded")])
  /\ fst (DeepDiveSteps.visit_subpages (js "out")
            MoreSamples.subpage_visits
            [MoreSamples.subpage "/a"; MoreSamples.subpage "/b";
             MoreSamples.subpage "/c"; MoreSamples.subpage "/d"] 0
            (DeepDiveSteps.mkState [] [] []))
     = Throw (cannot_read_message "null").
Proof.
  split.
  - destruct (@subpage_failures_are_isolated (js "out")
                MoreSamples.subpage_visits
                [MoreSamples.subpage "/a"; MoreSamples.subpage "/b"] 0
                (DeepDiveSteps.mkState [] [] [])) as (Hthrough & _ & _).
    rewrite Hthrough; [reflexivity|].
    intros k Hk. destruct k as [|[|k]]; [reflexivity|reflexivity|].
    cbn in Hk. lia.
  - destruct (@subpage_failures_are_isolated (js "out")
                MoreSamples.subpage_visits
                [MoreSamples.subpage "/a"; MoreSamples.subpage "/b";
                 MoreSamples.subpage "/c"; MoreSamples.subpage "/d"] 0
                (DeepDiveSteps.mkState [] [] [])) as (_ & Hleft & _).
    rewrite (Hleft [MoreSamples.subpage "/a"; MoreSamples.subpage "/b"]
               (MoreSamples.subpage "/c") [MoreSamples.subpage "/d"]
               (cannot_read_message "null"));
      [reflexivity|reflexivity| |reflexivity].
    intros k Hk. destruct k as [|[|k]]; [reflexivity|reflexivity|].
    cbn in Hk. lia.
Defined.

(* ================================================================== *)
(** ** The enhanced script: main content and file names *)
(* ================================================================== *)

(** Step 6 of the enhanced script goes through [main], [article],
    [[role="main"]], [.content], [#content] in this order and reports the
    first selector that matches anything, with the length of the trimmed
    text of that selector's first match and a preview: the first 200 units
    of the trimmed text followed by three dots, which are appended even
    when nothing was cut.  It answers [found: false], and nothing else,
    exactly when none of the five selectors matches. *)
Theorem enhanced_main_content_goes_by_precedence :
  forall (p : Page),
    (EnhancedSteps.found (EnhancedSteps.mainContent p) = true /\
     exists s element pre post,
       EnhancedSteps.selectors = pre ++ s :: post
       /\ Forall (fun s' => document_querySelector p [s'] = None) pre
       /\ document_querySelector p [s] = Some element
       /\ EnhancedSteps.selector (EnhancedSteps.mainContent p) = Some s
       /\ EnhancedSteps.textLength (EnhancedSteps.mainContent p)
          = Some (length (trim (textContent element)))
       /\ exists head,
            EnhancedSteps.preview (EnhancedSteps.mainContent p)
            = Some (head ++ js "...")
            /\ head = firstn 200 (trim (textContent element))
            /\ length head
               = Nat.min 200 (length (trim (textContent element))))
    \/ (EnhancedSteps.found (EnhancedSteps.mainContent p) = false
        /\ Forall (fun s' => document_querySelector p [s'] = None)
                  EnhancedSteps.selectors
        /\ EnhancedSteps.selector (EnhancedSteps.mainContent p) = None
        /\ EnhancedSteps.textLength (EnhancedSteps.mainContent p) = None
        /\ EnhancedSteps.preview (EnhancedSteps.mainContent p) = None).
Proof.
  intros p. unfold EnhancedSteps.mainContent.
  pose proof (first_selector_match_spec p EnhancedSteps.selectors) as H.
  destruct (DeepDive.first_selector_match p EnhancedSteps.selectors)
    as [[s element]|].
  - left. split; [reflexivity|].
    destruct H as (pre & post & Hsel & Hpre & Hs).
    exists s, element, pre, post.
    split; [exact Hsel|]. split; [exact Hpre|]. split; [exact Hs|].
    split; [reflexivity|]. split; [reflexivity|].
    exists (firstn 200 (trim (textContent element))).
    split; [reflexivity|]. split; [reflexivity|]. apply length_firstn.
  - right. now repeat split.
Qed.

Lemma startsWith_refl (s : jsstring) : EnhancedSteps.startsWith s s = true.
Proof.
  induction s as [|c s IH]; [reflexivity|].
  cbn [EnhancedSteps.startsWith]. now rewrite N.eqb_refl, IH.
Qed.

(** The first occurrence of a pattern that starts with a dot, in a string
    that has no other dot before its end, is the one at the end. *)
Lemma replace_first_suffix (a pat rep : jsstring) :
  Forall (fun c => c <> 46%N) a ->
  EnhancedSteps.replace_first (46%N :: pat) rep (a ++ 46%N :: pat)
  = a ++ rep.
Proof.
  induction 1 as [|c a Hc _ IH].
  - cbn [app]. unfold EnhancedSteps.replace_first.
    rewrite startsWith_refl, skipn_all. apply app_nil_r.
  - cbn [app EnhancedSteps.replace_first EnhancedSteps.startsWith].
    destruct (N.eqb 46 c) eqn:E.
    + apply N.eqb_eq in E. now elim Hc.
    + cbn [andb]. now rewrite IH.
Qed.

Lemma digit_is_no_dot (c : N) : isDigit c = true -> c <> 46%N.
Proof. intros H ->. discriminate H. Qed.

Lemma monthName_has_no_dot (env : Enhanced.Env) :
  Forall (fun c => c <> 46%N) (Enhanced.monthName env).
Proof.
  unfold Enhanced.monthName. generalize (Enhanced.month env). intros m.
  do 12 (destruct m as [|m];
         [vm_compute; repeat (apply Forall_cons; [discriminate|]);
          apply Forall_nil|]).
  destruct m; apply Forall_nil.
Qed.

Lemma fileBase_has_no_dot (env : Enhanced.Env) :
  Forall (fun c => c <> 46%N) (Enhanced.fileBase env).
Proof.
  assert (Hn : forall n, Forall (fun c => c <> 46%N) (String_of_nat n)).
  { intros n. eapply Forall_impl; [|apply String_of_nat_digits].
    intros c. apply digit_is_no_dot. }
  assert (Hl : forall s, s = js "archives" \/ s = js "/" \/ s = js " " ->
                         Forall (fun c => c <> 46%N) s).
  { intros s [->|[->| ->]]; vm_compute;
      repeat (apply Forall_cons; [discriminate|]); apply Forall_nil. }
  pose proof (monthName_has_no_dot env) as Hm.
  unfold Enhanced.fileBase, Enhanced.archiveDir, path_join.
  repeat (apply Forall_app; split); auto.
Qed.

Lemma enhanced_files (env : Enhanced.Env) :
  Enhanced.files (snd (Enhanced.run env))
  = if is_ok (Enhanced.e_mkdir env) && is_ok (Enhanced.e_launch env)
       && is_ok (Enhanced.e_newPage env)
       && is_ok (Enhanced.e_setViewport env) && is_ok (Enhanced.e_goto env)
       && is_ok (Enhanced.e_pageInfo env)
       && is_ok (Enhanced.e_interactiveElements env)
       && is_ok (Enhanced.e_autoScroll env)
       && is_ok (Enhanced.e_mainContent env)
       && is_ok (Enhanced.e_scrollTop env)
       && is_ok (Enhanced.e_screenshot env)
    then (Enhanced.fileBase env ++ js ".png")
         :: (if is_ok (Enhanced.e_screenshot_viewport env)
             then (Enhanced.fileBase env ++ js "-viewport.png")
                  :: (if is_ok (Enhanced.e_writeData env)
                      then [Enhanced.fileBase env ++ js "-data.json"]
                      else [])
             else [])
    else [].
Proof.
  run_enhanced.
  enhanced_step (Enhanced.e_mkdir env).
  enhanced_step (Enhanced.e_launch env).
  enhanced_step (Enhanced.e_newPage env).
  enhanced_step (Enhanced.e_setViewport env).
  enhanced_step (Enhanced.e_goto env).
  enhanced_step (Enhanced.e_pageInfo env).
  enhanced_step (Enhanced.e_interactiveElements env).
  destruct (Enhanced.e_navLinks env) as [?|?]; run_enhanced;
    (enhanced_step (Enhanced.e_autoScroll env);
     destruct (Enhanced.e_modals env) as [?|?]; run_enhanced;
     (enhanced_step (Enhanced.e_mainContent env);
      enhanced_step (Enhanced.e_scrollTop env);
      enhanced_step (Enhanced.e_screenshot env);
      enhanced_step (Enhanced.e_screenshot_viewport env);
      enhanced_step (Enhanced.e_writeData env);
      destruct (Enhanced.e_close env) as [?|?]; reflexivity)).
Qed.

(** The names of the enhanced script's files.  Replacing the first [.png]
    of the screenshot's path hits the extension, since nothing before it
    holds a dot: the viewport screenshot and the data file are named after
    the day like the main screenshot, with [-viewport.png] and
    [-data.json] in place of [.png].  A run writes these three files in
    this order when every call outside the two guarded blocks returns,
    whatever happens inside the guarded blocks; and no run writes anything
    else, or a later file without the earlier ones. *)
Theorem enhanced_files_are_named_after_the_day :
  forall (env : Enhanced.Env),
    Enhanced.month env < 12 ->
    EnhancedSteps.filePath env = Enhanced.fileBase env ++ js ".png"
    /\ EnhancedSteps.viewportFilePath env
       = Enhanced.fileBase env ++ js "-viewport.png"
    /\ EnhancedSteps.dataFilePath env
       = Enhanced.fileBase env ++ js "-data.json"
    /\ In (Enhanced.monthName env) Enhanced.monthNames
    /\ (Enhanced.unguarded_ok env = true ->
        Enhanced.files (snd (Enhanced.run env))
        = [EnhancedSteps.filePath env; EnhancedSteps.viewportFilePath env;
           EnhancedSteps.dataFilePath env])
    /\ exists k,
         Enhanced.files (snd (Enhanced.run env))
         = firstn k [EnhancedSteps.filePath env;
                     EnhancedSteps.viewportFilePath env;
                     EnhancedSteps.dataFilePath env].
Proof.
  intros env Hmonth.
  assert (Hpath : EnhancedSteps.filePath env
                  = Enhanced.fileBase env ++ js ".png").
  { unfold EnhancedSteps.filePath, Enhanced.fileBase, path_join.
    now rewrite <- !app_assoc. }
  assert (Hview : EnhancedSteps.viewportFilePath env
                  = Enhanced.fileBase env ++ js "-viewport.png").
  { unfold EnhancedSteps.viewportFilePath. rewrite Hpath.
    change (js ".png") with (46%N :: js "png").
    apply replace_first_suffix, fileBase_has_no_dot. }
  assert (Hdata : EnhancedSteps.dataFilePath env
                  = Enhanced.fileBase env ++ js "-data.json").
  { unfold EnhancedSteps.dataFilePath. rewrite Hpath.
    change (js ".png") with (46%N :: js "png").
    apply replace_first_suffix, fileBase_has_no_dot. }
  split; [exact Hpath|]. split; [exact Hview|]. split; [exact Hdata|].
  split; [|split].
  - unfold Enhanced.monthName. apply nth_In. exact Hmonth.
  - intros Hok. rewrite enhanced_files, Hpath, Hview, Hdata.
    unfold Enhanced.unguarded_ok in Hok.
    repeat (apply andb_true_iff in Hok;
            let H := fresh "H" in destruct Hok as [Hok H]).
    repeat match goal with
           | Hx : is_ok _ = true |- _ => try rewrite Hx; clear Hx
           end.
    reflexivity.
  - rewrite enhanced_files, Hpath, Hview, Hdata.
    destruct (is_ok (Enhanced.e_mkdir env) && is_ok (Enhanced.e_launch env)
              && is_ok (Enhanced.e_newPage env)
              && is_ok (Enhanced.e_setViewport env)
              && is_ok (Enhanced.e_goto env)
              && is_ok (Enhanced.e_pageInfo env)
              && is_ok (Enhanced.e_interactiveElements env)
              && is_ok (Enhanced.e_autoScroll env)
              && is_ok (Enhanced.e_mainContent env)
              && is_ok (Enhanced.e_scrollTop env)
              && is_ok (Enhanced.e_screenshot env)); [|now exists 0].
    destruct (is_ok (Enhanced.e_screenshot_viewport env));
      [|now exists 1].
    destruct (is_ok (Enhanced.e_writeData env));
      [now exists 3|now exists 2].
Qed.

(** A run on 14 July 2025 ([getMonth] answers 6), in which the search for
    navigation links throws. *)
Lemma enhanced_files_are_named_after_the_day_witness :
  EnhancedSteps.viewportFilePath MoreSamples.enhanced_fine
  = js "archives/2025/July/14 July 2025-viewport.png"
  /\ EnhancedSteps.dataFilePath MoreSamples.enhanced_fine
     = js "archives/2025/July/14 July 2025-data.json"
  /\ Enhanced.files (snd (Enhanced.run MoreSamples.enhanced_fine))
     = [js "archives/2025/July/14 July 2025.png";
        js "archives/2025/July/14 July 2025-viewport.png";
        js "archives/2025/July/14 July 2025-data.json"].
Proof.
  assert (Hmonth : Enhanced.month MoreSamples.enhanced_fine < 12)
    by (vm_compute; lia).
  destruct (@enhanced_files_are_named_after_the_day
              MoreSamples.enhanced_fine Hmonth)
    as (_ & Hview & Hdata & _ & Hrun & _).
  split; [rewrite Hview; reflexivity|].
  split; [rewrite Hdata; reflexivity|].
  rewrite (Hrun eq_refl). reflexivity.
Defined.

(* ================================================================== *)
(** ** The output directory of the deep-dive script *)
(* ================================================================== *)

Lemma app_inj_length {A} (a a' b b' : list A) :
  length a = length a' -> a ++ b = a' ++ b' -> a = a' /\ b = b'.
Proof.
  revert a'. induction a as [|x a IH]; intros [|y a'] Hlen Heq;
    try discriminate Hlen.
  - now split.
  - injection Heq as -> Heq. injection Hlen as Hlen.
    destruct (IH a' Hlen Heq) as [-> ->]. now split.
Qed.

Lemma replace_colon_dot_digits (s : jsstring) :
  Forall (fun c => isDigit c = true) s -> replace_colon_dot s = s.
Proof.
  intros H. apply replace_colon_dot_id. eapply Forall_impl; [|exact H].
  intros c Hc. split; intros ->; discriminate Hc.
Qed.

Lemma timestamp_of_instant (i : DeepDiveSteps.Instant) :
  MoreProps.iso_fields i ->
  DeepDiveSteps.timestamp (DeepDiveSteps.toISOString i)
  = DeepDiveSteps.i_year i ++ js "-" ++ DeepDiveSteps.i_month i ++ js "-"
    ++ DeepDiveSteps.i_day i ++ js "T" ++ DeepDiveSteps.i_hours i
    ++ js "-" ++ DeepDiveSteps.i_minutes i ++ js "-"
    ++ DeepDiveSteps.i_seconds i ++ js "-" ++ DeepDiveSteps.i_millis i
    ++ js "Z".
Proof.
  intros ([_ HY] & [_ HM] & [_ HD] & [_ Hh] & [_ Hm] & [_ Hs] & [_ Hms]).
  assert (Happ : forall a b, replace_colon_dot (a ++ b)
                             = replace_colon_dot a ++ replace_colon_dot b)
    by (intros; apply map_app).
  unfold DeepDiveSteps.timestamp, DeepDiveSteps.toISOString.
  rewrite !Happ, (replace_colon_dot_digits HY),
    (replace_colon_dot_digits HM), (replace_colon_dot_digits HD),
    (replace_colon_dot_digits Hh), (replace_colon_dot_digits Hm),
    (replace_colon_dot_digits Hs), (replace_colon_dot_digits Hms).
  reflexivity.
Qed.

(** The deep-dive script names its output directory after the instant at
    which it starts, down to the millisecond, with a dash in place of each
    colon and of the dot: the name holds neither a colon nor a dot, and
    two runs started at different instants write into different
    directories. *)
Theorem deep_dive_runs_get_their_own_directory :
  forall (i j : DeepDiveSteps.Instant),
    MoreProps.iso_fields i ->
    MoreProps.iso_fields j ->
    DeepDiveSteps.timestamp (DeepDiveSteps.toISOString i)
    = DeepDiveSteps.i_year i ++ js "-" ++ DeepDiveSteps.i_month i ++ js "-"
      ++ DeepDiveSteps.i_day i ++ js "T" ++ DeepDiveSteps.i_hours i
      ++ js "-" ++ DeepDiveSteps.i_minutes i ++ js "-"
      ++ DeepDiveSteps.i_seconds i ++ js "-" ++ DeepDiveSteps.i_millis i
      ++ js "Z"
    /\ Forall (fun c => c <> 58%N /\ c <> 46%N)
              (DeepDiveSteps.timestamp (DeepDiveSteps.toISOString i))
    /\ (DeepDiveSteps.timestamp (DeepDiveSteps.toISOString i)
        = DeepDiveSteps.timestamp (DeepDiveSteps.toISOString j) ->
        i = j).
Proof.
  intros i j Hi Hj. split; [now apply timestamp_of_instant|]. split.
  - unfold DeepDiveSteps.timestamp, replace_colon_dot.
    apply Forall_map, Forall_forall. intros c _.
    destruct (N.eqb c 58) eqn:E1; [split; discriminate|].
    destruct (N.eqb c 46) eqn:E2; [split; discriminate|].
    cbn [orb]. split; intros ->; discriminate.
  - rewrite (timestamp_of_instant Hi), (timestamp_of_instant Hj).
    destruct Hi as ([L1 _] & [L2 _] & [L3 _] & [L4 _] & [L5 _] & [L6 _]
                    & [L7 _]).
    destruct Hj as ([K1 _] & [K2 _] & [K3 _] & [K4 _] & [K5 _] & [K6 _]
                    & [K7 _]).
    destruct i as [Y M D h m s ms], j as [Y' M' D' h' m' s' ms'].
    cbn [DeepDiveSteps.i_year DeepDiveSteps.i_month DeepDiveSteps.i_day
         DeepDiveSteps.i_hours DeepDiveSteps.i_minutes
         DeepDiveSteps.i_seconds DeepDiveSteps.i_millis] in *.
    intros H.
    apply app_inj_length in H; [|congruence]. destruct H as [-> H].
    injection H as H.
    apply app_inj_length in H; [|congruence]. destruct H as [-> H].
    injection H as H.
    apply app_inj_length in H; [|congruence]. destruct H as [-> H].
    injection H as H.
    apply app_inj_length in H; [|congruence]. destruct H as [-> H].
    injection H as H.
    apply app_inj_length in H; [|congruence]. destruct H as [-> H].
    injection H as H.
    apply app_inj_length in H; [|congruence]. destruct H as [-> H].
    injection H as H.
    apply app_inj_length in H; [|congruence]. destruct H as [-> _].
    reflexivity.
Qed.

Lemma half_past_eight_fields (ms : string) :
  MoreProps.digits 3 (js ms) ->
  MoreProps.iso_fields (MoreSamples.half_past_eight ms).
Proof.
  intros H. unfold MoreProps.iso_fields, MoreSamples.half_past_eight.
  cbn [DeepDiveSteps.i_year DeepDiveSteps.i_month DeepDiveSteps.i_day
       DeepDiveSteps.i_hours DeepDiveSteps.i_minutes
       DeepDiveSteps.i_seconds DeepDiveSteps.i_millis].
  repeat split; try exact (proj1 H); try exact (proj2 H);
    vm_compute; repeat constructor.
Defined.

(** Two runs one millisecond apart. *)
Lemma deep_dive_runs_get_their_own_directory_witness :
  DeepDiveSteps.timestamp
    (DeepDiveSteps.toISOString (MoreSamples.half_past_eight "000"))
  = js "2025-07-14T08-30-00-000Z"
  /\ DeepDiveSteps.timestamp
       (DeepDiveSteps.toISOString (MoreSamples.half_past_eight "000"))
     <> DeepDiveSteps.timestamp
          (DeepDiveSteps.toISOString (MoreSamples.half_past_eight "001")).
Proof.
  assert (H0 : MoreProps.digits 3 (js "000"))
    by (split; vm_compute; repeat constructor).
  assert (H1 : MoreProps.digits 3 (js "001"))
    by (split; vm_compute; repeat constructor).
  destruct (@deep_dive_runs_get_their_own_directory
              (MoreSamples.half_past_eight "000")
              (MoreSamples.half_past_eight "001")
              (@half_past_eight_fields "000" H0)
              (@half_past_eight_fields "001" H1))
    as (Hname & _ & Hinj).
  split; [rewrite Hname; reflexivity|].
  intros Heq. apply Hinj in Heq. discriminate Heq.
Defined.

(* ================================================================== *)
(** ** The click of the deep-dive script *)
(* ================================================================== *)


